(** * Subtitle repositioning front end: a shallow embedding and its properties

    The repository holds two React single-page applications, both in a file
    named [App.js]:

    - the _overlay_ application (top navbar, upload panel, video preview with
      an overlay of the cues returned by [POST /reposition/subtitles], and a
      download through [POST /reposition/subtitles/download]);
    - the _upload_ application (file pickers, a submit to [POST /reposition]
      with a cancellable fetch and a simulated progress bar).

    JavaScript numbers are IEEE 754 binary64 values; they are modelled with
    the Standard Library's [spec_float] (sign, mantissa, exponent) and its
    correctly rounded operations, so every definition below computes.
    Strings are modelled as [string] (sequences of bytes). *)

From Stdlib Require Import ZArith List String Ascii Bool Lia.
From Stdlib Require Import SpecFloat.
Import ListNotations.

Local Open Scope string_scope.
Local Open Scope Z_scope.
Set Warnings "-register-all".

(** ** JavaScript numbers *)

Module JSNumber.

Definition number := spec_float.

Definition prec : Z := 53.
Definition emax : Z := 1024.

Definition NaN : number := S754_nan.
Definition Infinity : number := S754_infinity false.

(** The number value of a mathematical integer (rounded to nearest, ties
    to even, when it has more than 53 significant bits). *)
Definition of_Z (n : Z) : number := binary_normalize prec emax n 0 false.

Definition add (x y : number) : number := SFadd prec emax x y.
Definition sub (x y : number) : number := SFsub prec emax x y.
Definition mul (x y : number) : number := SFmul prec emax x y.
Definition div (x y : number) : number := SFdiv prec emax x y.

(** [x < y], [x <= y], [x > y], [x >= y]: false as soon as one side is
    [NaN]. *)
Definition lt (x y : number) : bool := SFltb x y.
Definition le (x y : number) : bool := SFleb x y.
Definition gt (x y : number) : bool := SFltb y x.
Definition ge (x y : number) : bool := SFleb y x.

Definition is_nan (x : number) : bool :=
  match x with S754_nan => true | _ => false end.

Definition is_finite (x : number) : bool :=
  match x with S754_zero _ | S754_finite _ _ _ => true | _ => false end.

Definition sign_bit (x : number) : bool :=
  match x with
  | S754_zero s | S754_infinity s | S754_finite s _ _ => s
  | S754_nan => false
  end.

(** A binary64 value in canonical form. *)
Definition valid (x : number) : bool := valid_binary prec emax x.

(** ToBoolean on a number: [NaN], [+0] and [-0] are falsy. *)
Definition truthy (x : number) : bool :=
  match x with
  | S754_nan | S754_zero _ => false
  | _ => true
  end.

(** The signed mantissa of a finite number: its value is
    [signed_mantissa x * 2 ^ exponent x]. *)
Definition signed_mantissa (x : number) : Z :=
  match x with
  | S754_finite s m _ => cond_Zopp s (Zpos m)
  | _ => 0
  end.

Definition exponent (x : number) : Z :=
  match x with
  | S754_finite _ _ e => e
  | _ => 0
  end.

(** The largest integer not above a finite number. *)
Definition floorZ (x : number) : Z :=
  match x with
  | S754_finite s m e =>
      if 0 <=? e then cond_Zopp s (Zpos m) * 2 ^ e
      else cond_Zopp s (Zpos m) / 2 ^ (- e)
  | _ => 0
  end.

(** [Math.floor]. *)
Definition floor (x : number) : number :=
  match x with
  | S754_finite s m e =>
      if 0 <=? e then x
      else
        let n := floorZ x in
        if n =? 0 then S754_zero s else of_Z n
  | _ => x
  end.

(** [Math.round]: the nearest integer, ties towards plus infinity; a
    result of zero keeps the sign of the argument. *)
Definition round (x : number) : number :=
  match x with
  | S754_finite s m e =>
      if 0 <=? e then x
      else
        let n := (2 * cond_Zopp s (Zpos m) + 2 ^ (- e)) / 2 ^ (- e + 1) in
        if n =? 0 then S754_zero s else of_Z n
  | _ => x
  end.

(** The remainder operator [x % y]: exact, with the sign of the
    dividend. *)
Definition rem (x y : number) : number :=
  match x, y with
  | S754_nan, _ | _, S754_nan => NaN
  | S754_infinity _, _ => NaN
  | _, S754_zero _ => NaN
  | _, S754_infinity _ => x
  | S754_zero _, _ => x
  | S754_finite sx mx ex, S754_finite _ my ey =>
      let e0 := Z.min ex ey in
      let r := (Zpos mx * 2 ^ (ex - e0)) mod (Zpos my * 2 ^ (ey - e0)) in
      if r =? 0 then S754_zero sx
      else binary_normalize prec emax (cond_Zopp sx r) e0 false
  end.

(** [Math.max] and [Math.min] of two numbers. *)
Definition max (x y : number) : number :=
  match SFcompare x y with
  | None => NaN
  | Some Lt => y
  | Some Gt => x
  | Some Eq => if sign_bit x then y else x
  end.

Definition min (x y : number) : number :=
  match SFcompare x y with
  | None => NaN
  | Some Lt => x
  | Some Gt => y
  | Some Eq => if sign_bit x then x else y
  end.

(** *** Number::toString (radix 10)

    The decimal digits of a non-negative integer. *)
Fixpoint digits_from (fuel : nat) (n : Z) (acc : string) : string :=
  let acc' := String (ascii_of_nat (48 + Z.to_nat (n mod 10))) acc in
  match fuel with
  | O => acc'
  | S f => if n <? 10 then acc' else digits_from f (n / 10) acc'
  end.

Definition decimal (n : Z) : string :=
  digits_from (Z.to_nat (Z.log2 n)) n "".

Fixpoint zeros (k : nat) : string :=
  match k with
  | O => ""
  | S k' => String "0" (zeros k')
  end.

Definition strlen (s : string) : Z := Z.of_nat (String.length s).

(** Compares the decimal [s * 10 ^ q] with the binary [b * 2 ^ e]. *)
Definition cmp_dec_bin (s q b e : Z) : comparison :=
  (s * 10 ^ Z.max q 0 * 2 ^ Z.max (- e) 0
   ?= b * 10 ^ Z.max (- q) 0 * 2 ^ Z.max e 0).

(** Does the decimal [s * 10 ^ q] round to the binary64 value
    [m * 2 ^ e]?  It does when it lies between the midpoints to the two
    neighbours of that value; the midpoints themselves round to it when
    [m] is even.  The lower neighbour is half as far at a power of two. *)
Definition rounds_to (m : positive) (e s q : Z) : bool :=
  let lo :=
    if (Zpos m =? 2 ^ (prec - 1)) && (3 - emax - prec <? e)
    then 4 * Zpos m - 1 else 4 * Zpos m - 2 in
  let hi := 4 * Zpos m + 2 in
  let even := Z.even (Zpos m) in
  match cmp_dec_bin s q lo (e - 2), cmp_dec_bin s q hi (e - 2) with
  | Gt, Lt => true
  | Eq, Lt | Gt, Eq => even
  | _, _ => false
  end.

(** The shortest decimal [s * 10 ^ q] that rounds to [m * 2 ^ e]: the
    largest [q] for which one exists, and the [s] nearest to the value. *)
Fixpoint shortest (fuel : nat) (m : positive) (e q : Z) : Z * Z :=
  let s0 := (Zpos m * 2 ^ Z.max e 0 * 10 ^ Z.max (- q) 0)
            / (2 ^ Z.max (- e) 0 * 10 ^ Z.max q 0) in
  let s1 := s0 + 1 in
  let ok0 := (0 <? s0) && rounds_to m e s0 q in
  let ok1 := rounds_to m e s1 q in
  match ok0, ok1 with
  | true, true =>
      match cmp_dec_bin (2 * s0 + 1) q (2 * Zpos m) e with
      | Lt => (s1, q)
      | Gt => (s0, q)
      | Eq => if Z.even s0 then (s0, q) else (s1, q)
      end
  | true, false => (s0, q)
  | false, true => (s1, q)
  | false, false =>
      match fuel with
      | O => (s0, q)
      | S f => shortest f m e (q - 1)
      end
  end.

Definition to_string_pos (m : positive) (e : Z) : string :=
  let b := Zpos (digits2_pos m) + e in
  let '(s, q) := shortest 40 m e (b * 30103 / 100000 + 2) in
  let digits := decimal s in
  let k := strlen digits in
  let n := q + k in
  if (k <=? n) && (n <=? 21) then
    digits ++ zeros (Z.to_nat (n - k))
  else if (0 <? n) && (n <=? 21) then
    substring 0 (Z.to_nat n) digits ++ "."
      ++ substring (Z.to_nat n) (Z.to_nat (k - n)) digits
  else if (-6 <? n) && (n <=? 0) then
    "0." ++ zeros (Z.to_nat (- n)) ++ digits
  else
    let ex := n - 1 in
    let mant :=
      if k =? 1 then digits
      else substring 0 1 digits ++ "."
             ++ substring 1 (Z.to_nat (k - 1)) digits in
    mant ++ "e" ++ (if ex <? 0 then "-" else "+") ++ decimal (Z.abs ex).

Definition to_string (x : number) : string :=
  match x with
  | S754_nan => "NaN"
  | S754_zero _ => "0"
  | S754_infinity s => if s then "-Infinity" else "Infinity"
  | S754_finite s m e =>
      (if s then "-" else "") ++ to_string_pos m e
  end.

End JSNumber.

(** ** JavaScript values and coercions *)

Module JS.
Import JSNumber.

(** A value produced by [JSON.parse]. An object lists its own properties
    (the parser keeps one entry per key). *)
Inductive json :=
| JNull
| JBool (b : bool)
| JNum (x : number)
| JStr (s : string)
| JArr (items : list json)
| JObj (fields : list (string * json)).

(** The values the program handles: [undefined] or a parsed value. *)
Inductive value :=
| Undefined
| Val (j : json).

(** An error object: its [name] and its [message]. *)
Record exn := { exn_name : string; exn_message : string }.

Definition Error (msg : string) : exn :=
  {| exn_name := "Error"; exn_message := msg |}.
Definition TypeError (msg : string) : exn :=
  {| exn_name := "TypeError"; exn_message := msg |}.

(** The outcome of an evaluation that may throw. *)
Inductive result (A : Type) :=
| Ok (a : A)
| Throw (e : exn).
Arguments Ok {A} a.
Arguments Throw {A} e.

Definition bind {A B} (r : result A) (k : A -> result B) : result B :=
  match r with
  | Ok a => k a
  | Throw e => Throw e
  end.

Notation "x <- r ;; k" := (bind r (fun x => k))
  (at level 61, r at next level, right associativity).

(** The part of the host that is implementation-defined for long
    literals and depends on the character set: the number a string
    converts to (StringToNumber). *)
Class Runtime := { StringToNumber : string -> number }.

(** The property names the program reads. None of them is defined on
    [Object.prototype], [Array.prototype] or the prototypes of the
    primitive wrappers, so only own properties of objects answer. *)
Inductive prop := cues_ | start_ | end_ | text_ | position_.

Definition prop_name (p : prop) : string :=
  match p with
  | cues_ => "cues"
  | start_ => "start"
  | end_ => "end"
  | text_ => "text"
  | position_ => "position"
  end.

Fixpoint lookup (k : string) (fields : list (string * json)) : option json :=
  match fields with
  | [] => None
  | (k', v) :: rest => if String.eqb k k' then Some v else lookup k rest
  end.

Definition has_own (k : string) (fields : list (string * json)) : bool :=
  match lookup k fields with Some _ => true | None => false end.

(** [v.p]: reading a property of [null] or [undefined] throws. *)
Definition get (v : value) (p : prop) : result value :=
  match v with
  | Undefined =>
      Throw (TypeError ("Cannot read properties of undefined (reading '"
                          ++ prop_name p ++ "')"))
  | Val JNull =>
      Throw (TypeError ("Cannot read properties of null (reading '"
                          ++ prop_name p ++ "')"))
  | Val (JObj fields) =>
      match lookup (prop_name p) fields with
      | Some j => Ok (Val j)
      | None => Ok Undefined
      end
  | Val _ => Ok Undefined
  end.

(** ToBoolean. *)
Definition truthy (v : value) : bool :=
  match v with
  | Undefined | Val JNull => false
  | Val (JBool b) => b
  | Val (JNum x) => JSNumber.truthy x
  | Val (JStr s) => negb (String.eqb s "")
  | Val (JArr _) | Val (JObj _) => true
  end.

Definition cannot_convert : exn :=
  TypeError "Cannot convert object to primitive value".

(** ToString. An array joins its elements with commas, [null] elements
    giving the empty string. A plain object inherits
    [Object.prototype.toString] unless an own property named [toString]
    (never callable in parsed JSON) hides it; the inherited [valueOf]
    returns the object itself, so the conversion then fails. *)
Fixpoint to_string (j : json) : result string :=
  match j with
  | JNull => Ok "null"
  | JBool b => Ok (if b then "true" else "false")
  | JNum x => Ok (JSNumber.to_string x)
  | JStr s => Ok s
  | JArr items =>
      (fix join (l : list json) : result string :=
         match l with
         | [] => Ok ""
         | x :: rest =>
             sx <- match x with JNull => Ok "" | _ => to_string x end ;;
             match rest with
             | [] => Ok sx
             | _ => sr <- join rest ;; Ok (sx ++ "," ++ sr)
             end
         end) items
  | JObj fields =>
      if has_own "toString" fields then Throw cannot_convert
      else Ok "[object Object]"
  end.


Section Coercions.
Context {rt : Runtime}.

(** ToNumber. Arrays and objects go through ToPrimitive, which ends in
    their string conversion above. *)
Definition ToNumber (v : value) : result number :=
  match v with
  | Undefined => Ok NaN
  | Val JNull => Ok (of_Z 0)
  | Val (JBool b) => Ok (of_Z (if b then 1 else 0))
  | Val (JNum x) => Ok x
  | Val (JStr s) => Ok (StringToNumber s)
  | Val (JArr _ as j) | Val (JObj _ as j) =>
      s <- to_string j ;; Ok (StringToNumber s)
  end.

(** [x >= v] and [x <= v] for a number [x]: the other operand is
    converted to a number. *)
Definition ge_value (x : number) (v : value) : result bool :=
  y <- ToNumber v ;; Ok (JSNumber.ge x y).

Definition le_value (x : number) (v : value) : result bool :=
  y <- ToNumber v ;; Ok (JSNumber.le x y).
End Coercions.

(** [String.prototype.padStart] with a one-character filler. *)
Definition padStart (width : nat) (fill : ascii) (s : string) : string :=
  string_of_list_ascii (repeat fill (width - String.length s)) ++ s.

End JS.

(** ** The browser interfaces the applications use *)

Module Web.
Import JS.

(** A file picked by the user. *)
Record File := { file_name : string; file_size : Z; file_content : string }.

(** An entry of a [FormData]: a file, or a string. Appending [null]
    appends the string ["null"]. *)
Inductive form_value :=
| FormFile (f : File)
| FormString (s : string).

Definition form_file (f : option File) : form_value :=
  match f with
  | Some f => FormFile f
  | None => FormString "null"
  end.

(** A request body. A [FormData] body is sent as multipart form data. *)
Inductive body :=
| FormData (entries : list (string * form_value)).

(** The arguments of a call to [fetch]; [req_signal] names the abort
    controller whose signal was passed, if one was. *)
Record request := {
  req_url : string;
  req_method : string;
  req_body : body;
  req_signal : option nat
}.

Record response := { resp_status : Z }.

(** [resp.ok]: the status is in the range 200 to 299. *)
Definition resp_ok (r : response) : bool :=
  (200 <=? resp_status r) && (resp_status r <=? 299).

(** What a handler does to the outside: a call to [fetch], or a click on
    a link with a [download] attribute pointing at a blob. *)
Inductive effect :=
| Fetch (r : request)
| SaveAs (filename : string) (blob : string).

(** How an awaited promise settles. *)
Inductive outcome :=
| Responded (r : response)
| BodyText (s : string)
| BodyJson (j : json)
| BodyBlob (b : string)
| Rejected (e : exn).

Definition AbortError : exn :=
  {| exn_name := "AbortError"; exn_message := "The user aborted a request." |}.

(** [e.message || fallback]. *)
Definition message_or (e : exn) (fallback : string) : string :=
  if String.eqb (exn_message e) "" then fallback else exn_message e.

(** [s.replace(/\/+$/, '')]: drops the slashes at the end. *)
Fixpoint strip_trailing_slashes (s : string) : string :=
  match s with
  | EmptyString => EmptyString
  | String c rest =>
      match strip_trailing_slashes rest with
      | EmptyString => if Ascii.eqb c "/" then EmptyString else String c EmptyString
      | rest' => String c rest'
      end
  end.

(** The position of the last occurrence of a character
    ([lastIndexOf]), if any. *)
Fixpoint last_index (c : ascii) (s : string) : option nat :=
  match s with
  | EmptyString => None
  | String d rest =>
      match last_index c rest with
      | Some i => Some (S i)
      | None => if Ascii.eqb c d then Some O else None
      end
  end.

(** [s.replace(/\.[^.]+$/, '')]: drops the last dot and what follows
    it, unless nothing follows it. *)
Definition strip_extension (s : string) : string :=
  match last_index "." s with
  | Some i =>
      if Nat.ltb (S i) (String.length s) then substring 0 i s else s
  | None => s
  end.

Definition replace_nth {A} (i : nat) (x : option A) (l : list A) : list A :=
  (firstn i l ++ match x with Some a => [a] | None => [] end ++ skipn (S i) l)%list.

End Web.

(** ** The overlay application

    [App.js] with the video preview: [callRepositionAPI],
    [downloadRepositionedSRT], [activeCues], [overlayPositionStyle] and
    [formatTime]. *)

Module Overlay.
Import JSNumber JS Web.

(** An asynchronous call that is waiting for a promise. A download keeps
    the [subtitleFile] its closure captured. *)
Inductive task :=
| RepositionFetch
| RepositionText (status : Z)
| RepositionJson
| DownloadFetch (sub : option File)
| DownloadText (status : Z)
| DownloadBlob (sub : option File).

Record state := {
  theme : string;
  videoFile : option File;
  subtitleFile : option File;
  videoUrl : option File;  (* the object URL of the file; [None] is '' *)
  status : string;
  progress : number;
  error : string;
  cues : list json;
  isProcessing : bool;
  includePositionHint : bool;
  backendBaseUrl : string;
  currentTime : number;
  tasks : list task
}.

Definition initial : state := {|
  theme := "light";
  videoFile := None;
  subtitleFile := None;
  videoUrl := None;
  status := "Idle";
  progress := of_Z 0;
  error := "";
  cues := [];
  isProcessing := false;
  includePositionHint := true;
  backendBaseUrl := "";
  currentTime := of_Z 0;
  tasks := []
|}.

Definition setTheme (v : string) (s : state) : state :=
  {| theme := v; videoFile := videoFile s; subtitleFile := subtitleFile s;
     videoUrl := videoUrl s; status := status s; progress := progress s;
     error := error s; cues := cues s; isProcessing := isProcessing s;
     includePositionHint := includePositionHint s;
     backendBaseUrl := backendBaseUrl s; currentTime := currentTime s;
     tasks := tasks s |}.

(** Setting the video file also runs the effect that keeps [videoUrl]
    in step with it. *)
Definition setVideoFile (v : option File) (s : state) : state :=
  {| theme := theme s; videoFile := v; subtitleFile := subtitleFile s;
     videoUrl := v; status := status s; progress := progress s;
     error := error s; cues := cues s; isProcessing := isProcessing s;
     includePositionHint := includePositionHint s;
     backendBaseUrl := backendBaseUrl s; currentTime := currentTime s;
     tasks := tasks s |}.

Definition setSubtitleFile (v : option File) (s : state) : state :=
  {| theme := theme s; videoFile := videoFile s; subtitleFile := v;
     videoUrl := videoUrl s; status := status s; progress := progress s;
     error := error s; cues := cues s; isProcessing := isProcessing s;
     includePositionHint := includePositionHint s;
     backendBaseUrl := backendBaseUrl s; currentTime := currentTime s;
     tasks := tasks s |}.

Definition setStatus (v : string) (s : state) : state :=
  {| theme := theme s; videoFile := videoFile s;
     subtitleFile := subtitleFile s; videoUrl := videoUrl s; status := v;
     progress := progress s; error := error s; cues := cues s;
     isProcessing := isProcessing s;
     includePositionHint := includePositionHint s;
     backendBaseUrl := backendBaseUrl s; currentTime := currentTime s;
     tasks := tasks s |}.

Definition setProgress (v : number) (s : state) : state :=
  {| theme := theme s; videoFile := videoFile s;
     subtitleFile := subtitleFile s; videoUrl := videoUrl s;
     status := status s; progress := v; error := error s; cues := cues s;
     isProcessing := isProcessing s;
     includePositionHint := includePositionHint s;
     backendBaseUrl := backendBaseUrl s; currentTime := currentTime s;
     tasks := tasks s |}.

Definition setError (v : string) (s : state) : state :=
  {| theme := theme s; videoFile := videoFile s;
     subtitleFile := subtitleFile s; videoUrl := videoUrl s;
     status := status s; progress := progress s; error := v;
     cues := cues s; isProcessing := isProcessing s;
     includePositionHint := includePositionHint s;
     backendBaseUrl := backendBaseUrl s; currentTime := currentTime s;
     tasks := tasks s |}.

Definition setCues (v : list json) (s : state) : state :=
  {| theme := theme s; videoFile := videoFile s;
     subtitleFile := subtitleFile s; videoUrl := videoUrl s;
     status := status s; progress := progress s; error := error s;
     cues := v; isProcessing := isProcessing s;
     includePositionHint := includePositionHint s;
     backendBaseUrl := backendBaseUrl s; currentTime := currentTime s;
     tasks := tasks s |}.

Definition setIsProcessing (v : bool) (s : state) : state :=
  {| theme := theme s; videoFile := videoFile s;
     subtitleFile := subtitleFile s; videoUrl := videoUrl s;
     status := status s; progress := progress s; error := error s;
     cues := cues s; isProcessing := v;
     includePositionHint := includePositionHint s;
     backendBaseUrl := backendBaseUrl s; currentTime := currentTime s;
     tasks := tasks s |}.

Definition setIncludePositionHint (v : bool) (s : state) : state :=
  {| theme := theme s; videoFile := videoFile s;
     subtitleFile := subtitleFile s; videoUrl := videoUrl s;
     status := status s; progress := progress s; error := error s;
     cues := cues s; isProcessing := isProcessing s;
     includePositionHint := v;
     backendBaseUrl := backendBaseUrl s; currentTime := currentTime s;
     tasks := tasks s |}.

Definition setBackendBaseUrl (v : string) (s : state) : state :=
  {| theme := theme s; videoFile := videoFile s;
     subtitleFile := subtitleFile s; videoUrl := videoUrl s;
     status := status s; progress := progress s; error := error s;
     cues := cues s; isProcessing := isProcessing s;
     includePositionHint := includePositionHint s;
     backendBaseUrl := v; currentTime := currentTime s;
     tasks := tasks s |}.

Definition setCurrentTime (v : number) (s : state) : state :=
  {| theme := theme s; videoFile := videoFile s;
     subtitleFile := subtitleFile s; videoUrl := videoUrl s;
     status := status s; progress := progress s; error := error s;
     cues := cues s; isProcessing := isProcessing s;
     includePositionHint := includePositionHint s;
     backendBaseUrl := backendBaseUrl s; currentTime := v;
     tasks := tasks s |}.

Definition setTasks (v : list task) (s : state) : state :=
  {| theme := theme s; videoFile := videoFile s;
     subtitleFile := subtitleFile s; videoUrl := videoUrl s;
     status := status s; progress := progress s; error := error s;
     cues := cues s; isProcessing := isProcessing s;
     includePositionHint := includePositionHint s;
     backendBaseUrl := backendBaseUrl s; currentTime := currentTime s;
     tasks := v |}.

(** *** [formatTime] *)

Definition two (n : number) : string := padStart 2 "0" (JSNumber.to_string n).
Definition three (n : number) : string := padStart 3 "0" (JSNumber.to_string n).

Section Rendering.
Context {rt : Runtime}.

(** [s % 1] and [Math.floor(s)] both start by converting [s] to a
    number; the conversion is a function of [s], so it is done once. *)
Definition formatTime (s : value) : result string :=
  x <- ToNumber s ;;
  let ms := floor (mul (rem x (of_Z 1)) (of_Z 1000)) in
  let total := floor x in
  let h := floor (div total (of_Z 3600)) in
  let m := floor (div (rem total (of_Z 3600)) (of_Z 60)) in
  let sec := rem total (of_Z 60) in
  Ok (two h ++ ":" ++ two m ++ ":" ++ two sec ++ "," ++ three ms).

(** *** [activeCues] *)

(** The callback of the filter:
    [currentTime >= c.start && currentTime <= c.end]. *)
Definition is_active (t : number) (c : json) : result bool :=
  st <- get (Val c) start_ ;;
  after_start <- ge_value t st ;;
  if after_start then
    en <- get (Val c) end_ ;;
    le_value t en
  else Ok false.

(** [Array.prototype.filter] with a callback that may throw. *)
Fixpoint filter_result (f : json -> result bool) (l : list json)
  : result (list json) :=
  match l with
  | [] => Ok []
  | c :: rest =>
      keep <- f c ;;
      rest' <- filter_result f rest ;;
      Ok (if keep then c :: rest' else rest')
  end.

Definition activeCues (cues : list json) (currentTime : number)
  : result (list json) :=
  match cues with
  | [] => Ok []
  | _ => filter_result (is_active currentTime) cues
  end.
End Rendering.

(** *** [overlayPositionStyle] *)

Inductive style_value :=
| SStr (s : string)
| SNum (x : number).

Definition style := list (string * style_value).

Definition base_style : style :=
  [ ("position", SStr "absolute");
    ("left", SStr "50%");
    ("transform", SStr "translateX(-50%)");
    ("maxWidth", SStr "80%");
    ("color", SStr "#fff");
    ("background", SStr "rgba(0,0,0,0.55)");
    ("padding", SStr "6px 10px");
    ("borderRadius", SNum (of_Z 6));
    ("fontSize", SNum (of_Z 16));
    ("lineHeight", SNum (div (of_Z 135) (of_Z 100)));
    ("textAlign", SStr "center");
    ("boxShadow", SStr "0 2px 8px rgba(0,0,0,0.25)");
    ("border", SStr "1px solid rgba(255,255,255,0.25)") ].

(** [position === 'top'] *)
Definition is_top (position : value) : bool :=
  match position with
  | Val (JStr s) => String.eqb s "top"
  | _ => false
  end.

Definition overlayPositionStyle (position : value) : style :=
  if is_top position then (base_style ++ [("top", SStr "6%")])%list
  else (base_style ++ [("bottom", SStr "6%")])%list.

Fixpoint style_get (k : string) (st : style) : option style_value :=
  match st with
  | [] => None
  | (k', v) :: rest => if String.eqb k k' then Some v else style_get k rest
  end.

(** *** The overlay of the video preview *)



Section Overlay.
Context {rt : Runtime}.



End Overlay.

(** *** Handlers *)

Definition toggleTheme (s : state) : state :=
  setTheme (if String.eqb (theme s) "light" then "dark" else "light") s.

(** The effect run at mount: [envUrl] is [REACT_APP_BACKEND_URL],
    [location] the protocol and host name of [window.location], [None]
    when reading it throws. *)
Definition mount (envUrl : option string) (location : option (string * string))
    (s : state) : state :=
  match envUrl with
  | Some u =>
      if negb (String.eqb u "") then
        setBackendBaseUrl (strip_trailing_slashes u) s
      else
        match location with
        | Some (proto, host) => setBackendBaseUrl (proto ++ "//" ++ host ++ ":3001") s
        | None => setBackendBaseUrl "" s
        end
  | None =>
      match location with
      | Some (proto, host) => setBackendBaseUrl (proto ++ "//" ++ host ++ ":3001") s
      | None => setBackendBaseUrl "" s
      end
  end.

(** [e.target.files?.[0] || null] *)
Definition handleVideoChange (files : list File) (s : state) : state :=
  setVideoFile (hd_error files) s.

Definition handleSubChange (files : list File) (s : state) : state :=
  setSubtitleFile (hd_error files) s.

(** The video element exists while a video is selected; [t] is its
    [currentTime]. *)
Definition onTimeUpdate (t : number) (s : state) : state :=
  match videoUrl s with
  | Some _ => setCurrentTime (if JSNumber.truthy t then t else of_Z 0) s
  | None => s
  end.

Definition resetState (s : state) : state :=
  setError "" (setProgress (of_Z 0) (setStatus "Idle" (setCues [] s))).

(** The Reset button: [resetState(); setCues([])]. *)
Definition resetClick (s : state) : state := setCues [] (resetState s).

Definition validateInputs (s : state) : bool * state :=
  match videoFile s with
  | None => (false, setError "Please select a video file." s)
  | Some _ =>
      match subtitleFile s with
      | None => (false, setError "Please select a subtitle file (SRT)." s)
      | Some _ => (true, setError "" s)
      end
  end.

Definition add_task (t : task) (s : state) : state :=
  setTasks (tasks s ++ [t])%list s.

(** [callRepositionAPI], up to its first [await]. *)
Definition callRepositionAPI (s : state) : state * list effect :=
  let '(valid, s) := validateInputs s in
  if negb valid then (s, [])
  else if String.eqb (backendBaseUrl s) "" then
    (setError "Backend URL is not configured." s, [])
  else
    let s := setIsProcessing true s in
    let s := setStatus "Uploading..." s in
    let s := setProgress (of_Z 10) s in
    let formData :=
      [ ("video", form_file (videoFile s));
        ("subtitles_file", form_file (subtitleFile s)) ] in
    (add_task RepositionFetch s,
     [ Fetch {| req_url := backendBaseUrl s ++ "/reposition/subtitles";
                req_method := "POST";
                req_body := FormData formData;
                req_signal := None |} ]).

(** [downloadRepositionedSRT], up to its first [await]. *)
Definition downloadRepositionedSRT (s : state) : state * list effect :=
  let '(valid, s) := validateInputs s in
  if negb valid then (s, [])
  else if String.eqb (backendBaseUrl s) "" then
    (setError "Backend URL is not configured." s, [])
  else
    let s := setIsProcessing true s in
    let s := setStatus "Requesting download..." s in
    let s := setProgress (of_Z 30) s in
    let formData :=
      [ ("video", form_file (videoFile s));
        ("subtitles_file", form_file (subtitleFile s));
        ("include_position_hint",
         FormString (if includePositionHint s then "true" else "false")) ] in
    (add_task (DownloadFetch (subtitleFile s)) s,
     [ Fetch {| req_url := backendBaseUrl s ++ "/reposition/subtitles/download";
                req_method := "POST";
                req_body := FormData formData;
                req_signal := None |} ]).

(** The [catch] and [finally] blocks of both calls. *)
Definition failed (fallback : string) (e : exn) (s : state) : state :=
  let s := setError (message_or e fallback) s in
  let s := setStatus "Error" s in
  setIsProcessing false s.

Definition backend_error (status : Z) (text : string) : exn :=
  Error ("Backend error (" ++ JSNumber.to_string (of_Z status) ++ "): " ++ text).

(** [!data || !Array.isArray(data.cues)] is false: the array. *)
Definition response_cues (data : json) : option (list json) :=
  if JS.truthy (Val data) then
    match get (Val data) cues_ with
    | Ok (Val (JArr items)) => Some items
    | _ => None
    end
  else None.

(** The name the download is saved under. *)
Definition download_name (sub : option File) : string :=
  match sub with
  | Some f =>
      if String.eqb (file_name f) "" then "subtitles"
      else strip_extension (file_name f)
  | None => "subtitles"
  end ++ "_repositioned.srt".

Definition reposition_fallback : string := "Failed to process files.".
Definition download_fallback : string :=
  "Failed to download repositioned subtitles.".

(** A call resumes when the promise it awaits settles: the task that
    follows (if the call is not over), the new state and the effects.
    [None] when the promise cannot settle that way. *)
Definition resume (t : task) (o : outcome) (s : state)
  : option (option task * state * list effect) :=
  match t, o with
  | RepositionFetch, Responded resp =>
      let s := setStatus "Processing..." s in
      let s := setProgress (of_Z 50) s in
      if resp_ok resp then Some (Some RepositionJson, s, [])
      else Some (Some (RepositionText (resp_status resp)), s, [])
  | RepositionText status, BodyText text =>
      Some (None, failed reposition_fallback (backend_error status text) s, [])
  | RepositionJson, BodyJson data =>
      match response_cues data with
      | Some items =>
          let s := setCues items s in
          let s := setStatus "Done" s in
          let s := setProgress (of_Z 100) s in
          Some (None, setIsProcessing false s, [])
      | None =>
          Some (None,
                failed reposition_fallback
                  (Error "Unexpected response format from backend.") s, [])
      end
  | RepositionFetch, Rejected e
  | RepositionText _, Rejected e
  | RepositionJson, Rejected e =>
      Some (None, failed reposition_fallback e s, [])
  | DownloadFetch sub, Responded resp =>
      if resp_ok resp then Some (Some (DownloadBlob sub), s, [])
      else Some (Some (DownloadText (resp_status resp)), s, [])
  | DownloadText status, BodyText text =>
      Some (None, failed download_fallback (backend_error status text) s, [])
  | DownloadBlob sub, BodyBlob blob =>
      let s' := setStatus "Downloaded" s in
      let s' := setProgress (of_Z 100) s' in
      Some (None, setIsProcessing false s', [SaveAs (download_name sub) blob])
  | DownloadFetch _, Rejected e
  | DownloadText _, Rejected e
  | DownloadBlob _, Rejected e =>
      Some (None, failed download_fallback e s, [])
  | _, _ => None
  end.

(** *** The application as a transition system *)

Inductive event :=
| Mount (envUrl : option string) (location : option (string * string))
| ThemeClick
| VideoChange (files : list File)
| SubChange (files : list File)
| ResetClick
| HintChange (checked : bool)
| TimeUpdate (t : number)
| RepositionClick
| DownloadClick
| Settle (i : nat) (o : outcome).

(** Both action buttons are disabled while a call is processing or a
    file is missing. *)
Definition actions_disabled (s : state) : bool :=
  isProcessing s
  || match videoFile s with None => true | Some _ => false end
  || match subtitleFile s with None => true | Some _ => false end.

Definition step (s : state) (e : event) : option (state * list effect) :=
  match e with
  | Mount envUrl location => Some (mount envUrl location s, [])
  | ThemeClick => Some (toggleTheme s, [])
  | VideoChange files => Some (handleVideoChange files s, [])
  | SubChange files => Some (handleSubChange files s, [])
  | ResetClick => Some (resetClick s, [])
  | HintChange checked => Some (setIncludePositionHint checked s, [])
  | TimeUpdate t =>
      match videoUrl s with
      | Some _ => Some (onTimeUpdate t s, [])
      | None => None
      end
  | RepositionClick =>
      if actions_disabled s then None else Some (callRepositionAPI s)
  | DownloadClick =>
      if actions_disabled s then None else Some (downloadRepositionedSRT s)
  | Settle i o =>
      match nth_error (tasks s) i with
      | Some t =>
          match resume t o s with
          | Some (next, s', effects) =>
              Some (setTasks (replace_nth i next (tasks s')) s', effects)
          | None => None
          end
      | None => None
      end
  end.

(** A run: the states after each event and all the effects, in order.
    An event that is not enabled is skipped. *)
Fixpoint run (s : state) (events : list event) : list state * list effect :=
  match events with
  | [] => ([], [])
  | e :: rest =>
      match step s e with
      | Some (s', effects) =>
          let '(states, effects') := run s' rest in
          (s' :: states, (effects ++ effects')%list)
      | None => run s rest
      end
  end.

Inductive reachable : state -> Prop :=
| reachable_initial : reachable initial
| reachable_step s e s' effects :
    reachable s -> step s e = Some (s', effects) -> reachable s'.

(** The state after some events (those not enabled are skipped). *)
Definition exec (s : state) (events : list event) : state :=
  fold_left
    (fun s e => match step s e with Some (s', _) => s' | None => s end)
    events s.

End Overlay.

(** ** The upload application

    [App.js] with the upload card: [handleSubmit], [cancelUpload],
    [validateInputs] and [simulateProgress]. *)

Module Upload.
Import JSNumber JS Web.

(** *** Strings *)

(** [toLowerCase] on the letters A to Z (other bytes are kept). *)
Definition lower_ascii (c : ascii) : ascii :=
  let n := nat_of_ascii c in
  if (Nat.leb 65 n && Nat.leb n 90)%bool then ascii_of_nat (n + 32) else c.

Fixpoint toLowerCase (s : string) : string :=
  match s with
  | EmptyString => EmptyString
  | String c rest => String (lower_ascii c) (toLowerCase rest)
  end.

Definition endsWith (s suffix : string) : bool :=
  let n := String.length s in
  let k := String.length suffix in
  (Nat.leb k n && String.eqb (substring (n - k) k s) suffix)%bool.

(** The replacement text of [String.prototype.replace] for a string
    pattern: [$$], [$&], [$`] and [$'] are substituted; there are no
    captures, so any other [$] stays. *)
Fixpoint substitution (repl matched before after : string) : string :=
  match repl with
  | String "$" (String c rest as tail) =>
      if Ascii.eqb c "$" then "$" ++ substitution rest matched before after
      else if Ascii.eqb c "&" then matched ++ substitution rest matched before after
      else if Ascii.eqb c "`" then before ++ substitution rest matched before after
      else if Ascii.eqb c "'" then after ++ substitution rest matched before after
      else String "$" (substitution tail matched before after)
  | String c rest => String c (substitution rest matched before after)
  | EmptyString => EmptyString
  end.

(** [s.replace(pattern, repl)] for a string pattern: the first
    occurrence is replaced. *)
Definition replace (s pattern repl : string) : string :=
  match index 0 pattern s with
  | Some i =>
      let n := String.length s in
      let k := String.length pattern in
      let before := substring 0 i s in
      let after := substring (i + k) (n - (i + k)) s in
      before ++ substitution repl pattern before after ++ after
  | None => s
  end.

Definition SUPPORTED_SUB_EXTENSIONS : list string :=
  [".srt"; ".ass"; ".ssa"; ".vtt"].

(** [SUPPORTED_SUB_EXTENSIONS.join(', ')] *)
Definition supported_list : string := String.concat ", " SUPPORTED_SUB_EXTENSIONS.

(** *** State *)

(** An interval timer of [simulateProgress] with the variables of its
    closure. *)
Record timer := {
  tm_current : number;
  tm_count : number;
  tm_increment : number;
  tm_steps : number;
  tm_to : number;
  tm_delay : number  (* milliseconds between two ticks *)
}.

(** A submission waiting for a promise; [ctrl] is the abort controller
    whose signal the fetch was given. *)
Inductive task :=
| SubmitFetch (ctrl : nat)
| SubmitText (ctrl : nat) (status : Z)
| SubmitBlob (ctrl : nat).

Definition task_ctrl (t : task) : nat :=
  match t with
  | SubmitFetch c | SubmitText c _ | SubmitBlob c => c
  end.

Record state := {
  theme : string;
  videoFile : option File;
  subtitleFile : option File;
  status : string;
  message : string;
  progress : number;
  downloadUrl : option string;  (* the blob the object URL points at *)
  resultFilename : string;
  abortControllerRef : option nat;
  controllers : nat;            (* how many controllers were created *)
  aborted : list nat;           (* the controllers that were aborted *)
  timers : list timer;
  tasks : list task
}.

Definition initial : state := {|
  theme := "light";
  videoFile := None;
  subtitleFile := None;
  status := "idle";
  message := "";
  progress := of_Z 0;
  downloadUrl := None;
  resultFilename := "repositioned_subtitles.srt";
  abortControllerRef := None;
  controllers := 0;
  aborted := [];
  timers := [];
  tasks := []
|}.

Definition setTheme (v : string) (s : state) : state :=
  {| theme := v; videoFile := videoFile s; subtitleFile := subtitleFile s;
     status := status s; message := message s; progress := progress s;
     downloadUrl := downloadUrl s; resultFilename := resultFilename s;
     abortControllerRef := abortControllerRef s;
     controllers := controllers s; aborted := aborted s;
     timers := timers s; tasks := tasks s |}.

Definition setVideoFile (v : option File) (s : state) : state :=
  {| theme := theme s; videoFile := v; subtitleFile := subtitleFile s;
     status := status s; message := message s; progress := progress s;
     downloadUrl := downloadUrl s; resultFilename := resultFilename s;
     abortControllerRef := abortControllerRef s;
     controllers := controllers s; aborted := aborted s;
     timers := timers s; tasks := tasks s |}.

Definition setSubtitleFile (v : option File) (s : state) : state :=
  {| theme := theme s; videoFile := videoFile s; subtitleFile := v;
     status := status s; message := message s; progress := progress s;
     downloadUrl := downloadUrl s; resultFilename := resultFilename s;
     abortControllerRef := abortControllerRef s;
     controllers := controllers s; aborted := aborted s;
     timers := timers s; tasks := tasks s |}.

Definition setStatus (v : string) (s : state) : state :=
  {| theme := theme s; videoFile := videoFile s;
     subtitleFile := subtitleFile s; status := v; message := message s;
     progress := progress s; downloadUrl := downloadUrl s;
     resultFilename := resultFilename s;
     abortControllerRef := abortControllerRef s;
     controllers := controllers s; aborted := aborted s;
     timers := timers s; tasks := tasks s |}.

Definition setMessage (v : string) (s : state) : state :=
  {| theme := theme s; videoFile := videoFile s;
     subtitleFile := subtitleFile s; status := status s; message := v;
     progress := progress s; downloadUrl := downloadUrl s;
     resultFilename := resultFilename s;
     abortControllerRef := abortControllerRef s;
     controllers := controllers s; aborted := aborted s;
     timers := timers s; tasks := tasks s |}.

Definition setProgress (v : number) (s : state) : state :=
  {| theme := theme s; videoFile := videoFile s;
     subtitleFile := subtitleFile s; status := status s;
     message := message s; progress := v; downloadUrl := downloadUrl s;
     resultFilename := resultFilename s;
     abortControllerRef := abortControllerRef s;
     controllers := controllers s; aborted := aborted s;
     timers := timers s; tasks := tasks s |}.

Definition setDownloadUrl (v : option string) (s : state) : state :=
  {| theme := theme s; videoFile := videoFile s;
     subtitleFile := subtitleFile s; status := status s;
     message := message s; progress := progress s; downloadUrl := v;
     resultFilename := resultFilename s;
     abortControllerRef := abortControllerRef s;
     controllers := controllers s; aborted := aborted s;
     timers := timers s; tasks := tasks s |}.

Definition setResultFilename (v : string) (s : state) : state :=
  {| theme := theme s; videoFile := videoFile s;
     subtitleFile := subtitleFile s; status := status s;
     message := message s; progress := progress s;
     downloadUrl := downloadUrl s; resultFilename := v;
     abortControllerRef := abortControllerRef s;
     controllers := controllers s; aborted := aborted s;
     timers := timers s; tasks := tasks s |}.

Definition setAbortControllerRef (v : option nat) (s : state) : state :=
  {| theme := theme s; videoFile := videoFile s;
     subtitleFile := subtitleFile s; status := status s;
     message := message s; progress := progress s;
     downloadUrl := downloadUrl s; resultFilename := resultFilename s;
     abortControllerRef := v;
     controllers := controllers s; aborted := aborted s;
     timers := timers s; tasks := tasks s |}.

Definition setControllers (v : nat) (s : state) : state :=
  {| theme := theme s; videoFile := videoFile s;
     subtitleFile := subtitleFile s; status := status s;
     message := message s; progress := progress s;
     downloadUrl := downloadUrl s; resultFilename := resultFilename s;
     abortControllerRef := abortControllerRef s;
     controllers := v; aborted := aborted s;
     timers := timers s; tasks := tasks s |}.

Definition setAborted (v : list nat) (s : state) : state :=
  {| theme := theme s; videoFile := videoFile s;
     subtitleFile := subtitleFile s; status := status s;
     message := message s; progress := progress s;
     downloadUrl := downloadUrl s; resultFilename := resultFilename s;
     abortControllerRef := abortControllerRef s;
     controllers := controllers s; aborted := v;
     timers := timers s; tasks := tasks s |}.

Definition setTimers (v : list timer) (s : state) : state :=
  {| theme := theme s; videoFile := videoFile s;
     subtitleFile := subtitleFile s; status := status s;
     message := message s; progress := progress s;
     downloadUrl := downloadUrl s; resultFilename := resultFilename s;
     abortControllerRef := abortControllerRef s;
     controllers := controllers s; aborted := aborted s;
     timers := v; tasks := tasks s |}.

Definition setTasks (v : list task) (s : state) : state :=
  {| theme := theme s; videoFile := videoFile s;
     subtitleFile := subtitleFile s; status := status s;
     message := message s; progress := progress s;
     downloadUrl := downloadUrl s; resultFilename := resultFilename s;
     abortControllerRef := abortControllerRef s;
     controllers := controllers s; aborted := aborted s;
     timers := timers s; tasks := v |}.

(** *** Handlers *)

Section Handlers.
(** [process.env.REACT_APP_BACKEND_URL] *)
Variable envUrl : option string.

Definition getBackendUrl : string :=
  match envUrl with
  | Some u =>
      if negb (String.eqb u "") then strip_trailing_slashes u
      else "http://subtitle_backend:3001"
  | None => "http://subtitle_backend:3001"
  end.

Definition toggleTheme (s : state) : state :=
  setTheme (if String.eqb (theme s) "light" then "dark" else "light") s.

Definition supported (name : string) : bool :=
  existsb (fun ext => endsWith (toLowerCase name) ext) SUPPORTED_SUB_EXTENSIONS.

Definition onPickVideo (files : list File) (s : state) : state :=
  match hd_error files with
  | Some file => setVideoFile (Some file) s
  | None => s
  end.

Definition onPickSubtitle (files : list File) (s : state) : state :=
  match hd_error files with
  | Some file =>
      if negb (supported (file_name file)) then
        let s := setStatus "error" s in
        setMessage ("Unsupported subtitle format. Supported: " ++ supported_list) s
      else setSubtitleFile (Some file) s
  | None => s
  end.

Definition inferResultFilename (s : state) : string :=
  match subtitleFile s with
  | None => "repositioned_subtitles.srt"
  | Some f =>
      let name := file_name f in
      let ext :=
        match last_index "." name with
        | Some dot => substring dot (String.length name - dot) name
        | None => ".srt"
        end in
      replace name ext (".repositioned" ++ ext)
  end.

(** Revoking the object URL has no effect on the state. *)
Definition resetResult (s : state) : state :=
  let s := setDownloadUrl None s in
  setResultFilename "repositioned_subtitles.srt" s.

Definition validateInputs (s : state) : bool * state :=
  match videoFile s with
  | None =>
      let s := setStatus "error" s in
      (false, setMessage "Please select a video file." s)
  | Some _ =>
      match subtitleFile s with
      | None =>
          let s := setStatus "error" s in
          (false,
           setMessage ("Please select a subtitle file (" ++ supported_list ++ ").") s)
      | Some sub =>
          if negb (supported (file_name sub)) then
            let s := setStatus "error" s in
            (false,
             setMessage ("Unsupported subtitle format. Supported: "
                           ++ supported_list ++ ".") s)
          else (true, s)
      end
  end.

(** [simulateProgress]: raises the progress to [from] and starts an
    interval timer. *)
Definition simulateProgress (from to durationMs : number) (s : state) : state :=
  let s := setProgress (JSNumber.max (progress s) from) s in
  let steps := of_Z 15 in
  let stepTime := div durationMs steps in
  let increment := div (sub to from) steps in
  setTimers
    (timers s ++ [ {| tm_current := from; tm_count := of_Z 0;
                      tm_increment := increment; tm_steps := steps;
                      tm_to := to; tm_delay := stepTime |} ])%list s.

(** One firing of timer [i]; the timer is cleared after [steps]
    firings. *)
Definition tick (i : nat) (s : state) : option state :=
  match nth_error (timers s) i with
  | Some tm =>
      let count := add (tm_count tm) (of_Z 1) in
      let current := add (tm_current tm) (tm_increment tm) in
      let s := setProgress
                 (JSNumber.min (JSNumber.max (progress s) (round current))
                    (tm_to tm)) s in
      let tm' := {| tm_current := current; tm_count := count;
                    tm_increment := tm_increment tm;
                    tm_steps := tm_steps tm; tm_to := tm_to tm;
                    tm_delay := tm_delay tm |} in
      Some (setTimers
              (replace_nth i (if ge count (tm_steps tm) then None else Some tm')
                 (timers s)) s)
  | None => None
  end.

Definition add_task (t : task) (s : state) : state :=
  setTasks (tasks s ++ [t])%list s.

(** [handleSubmit], up to its first [await]. *)
Definition handleSubmit (s : state) : state * list effect :=
  let s := resetResult s in
  let s := setProgress (of_Z 0) s in
  let '(valid, s) := validateInputs s in
  if negb valid then (s, [])
  else
    let s := setStatus "validating" s in
    let s := setMessage "Validating files..." s in
    let form :=
      [ ("video", form_file (videoFile s));
        ("subtitle", form_file (subtitleFile s)) ] in
    let inferred := inferResultFilename s in
    let s := setResultFilename inferred s in
    let s := setStatus "uploading" s in
    let s := setMessage "Uploading files to backend..." s in
    let ctrl := controllers s in
    let s := setControllers (S ctrl) s in
    let s := setAbortControllerRef (Some ctrl) s in
    let s := simulateProgress (of_Z 10) (of_Z 60) (of_Z 800) s in
    (add_task (SubmitFetch ctrl) s,
     [ Fetch {| req_url := getBackendUrl ++ "/reposition";
                req_method := "POST";
                req_body := FormData form;
                req_signal := Some ctrl |} ]).

(** [cancelUpload] *)
Definition cancelUpload (s : state) : state :=
  match abortControllerRef s with
  | Some ctrl => setAborted (ctrl :: aborted s) s
  | None => s
  end.

(** The [catch] and [finally] blocks of [handleSubmit]. *)
Definition failed (err : exn) (s : state) : state :=
  let s :=
    if String.eqb (exn_name err) "AbortError" then
      let s := setStatus "error" s in
      setMessage "Upload canceled." s
    else
      let s := setStatus "error" s in
      setMessage
        (message_or err "Something went wrong while contacting the backend.") s in
  let s := setProgress (of_Z 0) s in
  setAbortControllerRef None s.

(** [text || `Request failed with status ${resp.status}`] *)
Definition request_failed (status : Z) (text : string) : exn :=
  Error (if String.eqb text "" then
           "Request failed with status " ++ JSNumber.to_string (of_Z status)
         else text).

(** A submission resumes when the promise it awaits settles. *)
Definition resume (t : task) (o : outcome) (s : state)
  : option (option task * state * list effect) :=
  match t, o with
  | SubmitFetch ctrl, Responded resp =>
      if resp_ok resp then
        let s := setStatus "processing" s in
        let s := setMessage "Processing on server..." s in
        let s := simulateProgress (of_Z 60) (of_Z 90) (of_Z 600) s in
        Some (Some (SubmitBlob ctrl), s, [])
      else Some (Some (SubmitText ctrl (resp_status resp)), s, [])
  | SubmitFetch _, Rejected err => Some (None, failed err s, [])
  | SubmitText _ status, BodyText text =>
      Some (None, failed (request_failed status text) s, [])
  | SubmitText _ status, Rejected _ =>
      (* [safeReadText] returns '' *)
      Some (None, failed (request_failed status "") s, [])
  | SubmitBlob _, BodyBlob blob =>
      let s := simulateProgress (of_Z 90) (of_Z 100) (of_Z 200) s in
      let s := setDownloadUrl (Some blob) s in
      let s := setStatus "success" s in
      let s := setMessage "Success! Your repositioned subtitle file is ready." s in
      let s := setProgress (of_Z 100) s in
      Some (None, setAbortControllerRef None s, [])
  | SubmitBlob _, Rejected err => Some (None, failed err s, [])
  | _, _ => None
  end.

(** The Clear button of the result card. *)
Definition onClear (s : state) : state :=
  let s := resetResult s in
  let s := setMessage "" s in
  setStatus "idle" s.

(** *** The application as a transition system *)

Inductive event :=
| ThemeClick
| PickVideo (files : list File)
| PickSubtitle (files : list File)
| SubmitClick
| CancelClick
| ClearClick
| Tick (i : nat)
| Settle (i : nat) (o : outcome).

Definition allowSubmit (s : state) : bool :=
  match videoFile s, subtitleFile s with
  | Some _, Some _ =>
      negb (String.eqb (status s) "uploading")
      && negb (String.eqb (status s) "processing")
  | _, _ => false
  end.

(** The Cancel button is rendered while uploading or processing. *)
Definition uploading (s : state) : bool :=
  String.eqb (status s) "uploading" || String.eqb (status s) "processing".

(** A fetch, or the reading of its body, whose signal was aborted
    rejects with an [AbortError], and only then. *)
Definition may_settle (s : state) (t : task) (o : outcome) : bool :=
  let is_aborted := existsb (Nat.eqb (task_ctrl t)) (aborted s) in
  match o with
  | Rejected err =>
      if String.eqb (exn_name err) "AbortError" then is_aborted
      else negb is_aborted
  | _ => negb is_aborted
  end.

Definition step (s : state) (e : event) : option (state * list effect) :=
  match e with
  | ThemeClick => Some (toggleTheme s, [])
  | PickVideo files => Some (onPickVideo files s, [])
  | PickSubtitle files => Some (onPickSubtitle files s, [])
  | SubmitClick => if allowSubmit s then Some (handleSubmit s) else None
  | CancelClick => if uploading s then Some (cancelUpload s, []) else None
  | ClearClick =>
      match downloadUrl s with
      | Some _ => Some (onClear s, [])
      | None => None
      end
  | Tick i =>
      match tick i s with
      | Some s' => Some (s', [])
      | None => None
      end
  | Settle i o =>
      match nth_error (tasks s) i with
      | Some t =>
          if may_settle s t o then
            match resume t o s with
            | Some (next, s', effects) =>
                Some (setTasks (replace_nth i next (tasks s')) s', effects)
            | None => None
            end
          else None
      | None => None
      end
  end.

Fixpoint run (s : state) (events : list event) : list state * list effect :=
  match events with
  | [] => ([], [])
  | e :: rest =>
      match step s e with
      | Some (s', effects) =>
          let '(states, effects') := run s' rest in
          (s' :: states, (effects ++ effects')%list)
      | None => run s rest
      end
  end.

Inductive reachable : state -> Prop :=
| reachable_initial : reachable initial
| reachable_step s e s' effects :
    reachable s -> step s e = Some (s', effects) -> reachable s'.

(** The state after some events (those not enabled are skipped). *)
Definition exec (s : state) (events : list event) : state :=
  fold_left
    (fun s e => match step s e with Some (s', _) => s' | None => s end)
    events s.
End Handlers.

End Upload.

(** ** The components of the upload application

    [UploadCard], [FilePicker], [StatusBar], [ProgressBar] and
    [ResultCard]: what each renders, as data. *)

Module View.
Import JSNumber JS Web.

(** [toUpperCase] on the letters a to z (other bytes are kept). *)
Definition upper_ascii (c : ascii) : ascii :=
  let n := nat_of_ascii c in
  if (Nat.leb 97 n && Nat.leb n 122)%bool then ascii_of_nat (n - 32) else c.

Fixpoint toUpperCase (s : string) : string :=
  match s with
  | EmptyString => EmptyString
  | String c rest => String (upper_ascii c) (toUpperCase rest)
  end.

(** [Math.min(100, Math.max(0, value || 0))] *)
Definition clamp (value : number) : number :=
  JSNumber.min (of_Z 100)
    (JSNumber.max (of_Z 0) (if JSNumber.truthy value then value else of_Z 0)).

(** [ProgressBar]: the width of the inner bar. *)
Definition ProgressBar (value : number) : string :=
  JSNumber.to_string (clamp value) ++ "%".

Definition colorByStatus : list (string * string) :=
  [ ("validating", "#1976d2"); ("uploading", "#1976d2");
    ("processing", "#1976d2"); ("success", "#2e7d32"); ("error", "#d32f2f") ].

Fixpoint assoc (k : string) (table : list (string * string)) : option string :=
  match table with
  | [] => None
  | (k', v) :: rest => if String.eqb k k' then Some v else assoc k rest
  end.

(** [colorByStatus[status] || 'var(--text-primary)']; the status is one
    of the strings the application assigns, none of which names a
    property of [Object.prototype]. *)
Definition status_color (status : string) : string :=
  match assoc status colorByStatus with
  | Some c => if String.eqb c "" then "var(--text-primary)" else c
  | None => "var(--text-primary)"
  end.

(** What [StatusBar] shows: the colour and the text of the status line,
    the message line if there is one, and the width of the progress bar
    if it is shown. *)
Record status_bar := {
  sb_color : string;
  sb_label : string;
  sb_message : option string;
  sb_progress : option string
}.

(** [StatusBar]; [None] is [null]. *)
Definition StatusBar (status message : string) (progress : number)
  : option status_bar :=
  if String.eqb status "idle" then None
  else
    Some {| sb_color := status_color status;
            sb_label := toUpperCase status;
            sb_message := if String.eqb message "" then None else Some message;
            sb_progress :=
              if String.eqb status "validating"
                 || String.eqb status "uploading"
                 || String.eqb status "processing"
              then Some (ProgressBar progress) else None |}.

(** [FilePicker]: the line under the input. *)
Definition FilePicker (file : option File) (hint : string) : string :=
  match file with
  | Some f => "Selected: " ++ file_name f
  | None => hint
  end.

(** What [UploadCard] shows besides the two pickers. *)
Record upload_card := {
  uc_submit_disabled : bool;
  uc_submit_label : string;
  uc_cancel_shown : bool;
  uc_status : option status_bar
}.

Definition UploadCard (allowSubmit : bool) (status message : string)
    (progress : number) : upload_card :=
  let uploading := String.eqb status "uploading" || String.eqb status "processing" in
  {| uc_submit_disabled := negb allowSubmit;
     uc_submit_label := if uploading then "Working..." else "Reposition Subtitles";
     uc_cancel_shown := uploading;
     uc_status := StatusBar status message progress |}.

(** [ResultCard]: the link (its [href], its [download] attribute and
    its text); [None] is [null]. *)
Definition ResultCard (downloadUrl : option string) (resultFilename : string)
  : option (string * string * string) :=
  match downloadUrl with
  | None => None
  | Some url => Some (url, resultFilename, "Download " ++ resultFilename)
  end.

(** The cards of the upload application in a state. *)
Definition cards (s : Upload.state) : upload_card * option (string * string * string) :=
  (UploadCard (Upload.allowSubmit s) (Upload.status s) (Upload.message s)
     (Upload.progress s),
   ResultCard (Upload.downloadUrl s) (Upload.resultFilename s)).

End View.

(** ** Notions used to state the properties *)

Module Props.
Import JSNumber JS Web.

(** The start and end times of a cue that is an object whose [start] and
    [end] are numbers. *)
Definition cue_times (c : json) : option (number * number) :=
  match c with
  | JObj fields =>
      match lookup "start" fields, lookup "end" fields with
      | Some (JNum a), Some (JNum b) => Some (a, b)
      | _, _ => None
      end
  | _ => None
  end.

Definition timed (c : json) : Prop := cue_times c <> None.

(** [start <= t] and [t <= end], as the claim words it. *)
Definition in_interval (t : number) (c : json) : bool :=
  match cue_times c with
  | Some (a, b) => le a t && le t b
  | None => false
  end.

(** Numeric equality and strict order of two numbers. *)
Definition num_eq (x y : number) : Prop := SFcompare x y = Some Eq.
Definition num_gt (x y : number) : Prop := SFcompare x y = Some Gt.

(** [part] occurs inside [whole]. *)
Definition occurs_in (part whole : string) : Prop :=
  exists before after, whole = before ++ part ++ after.

(** The requests among some effects. *)
Fixpoint requests (effects : list effect) : list request :=
  match effects with
  | [] => []
  | Fetch r :: rest => r :: requests rest
  | SaveAs _ _ :: rest => requests rest
  end.

(** A multipart body that carries the two selected files, the video
    under the name [video]. *)
Definition carries_files (b : body) (video sub : File) : Prop :=
  match b with
  | FormData entries =>
      exists sub_field others,
        entries = ("video", FormFile video) :: (sub_field, FormFile sub) :: others
  end.

(** A file without its size and content. *)
Definition erase_file (f : File) : File :=
  {| file_name := file_name f; file_size := 0; file_content := "" |}.

(** Decimal digits of a natural number below 1000, on [width] places. *)
Definition is_digit (c : ascii) : bool :=
  (Nat.leb 48 (nat_of_ascii c) && Nat.leb (nat_of_ascii c) 57)%bool.

Fixpoint all_digits (s : string) : bool :=
  match s with
  | EmptyString => true
  | String c rest => is_digit c && all_digits rest
  end.

(** Two and three decimal digits. *)
Definition digit (n : Z) : ascii := ascii_of_nat (48 + Z.to_nat (n mod 10)).

Definition digits2 (n : Z) : string :=
  String (digit (n / 10)) (String (digit n) "").

Definition digits3 (n : Z) : string :=
  String (digit (n / 100)) (digits2 n).

(** The shape [HH:MM:SS,mmm]: twelve characters, digits except for the
    two colons and the comma. *)
Definition hms_shape (s : string) : bool :=
  match list_ascii_of_string s with
  | [h1; h0; c1; m1; m0; c2; s1; s0; c3; f2; f1; f0] =>
      forallb is_digit [h1; h0; m1; m0; s1; s0; f2; f1; f0]
      && Ascii.eqb c1 ":" && Ascii.eqb c2 ":" && Ascii.eqb c3 ","
  | _ => false
  end.

(** Structural equality of numbers. *)
Definition number_eqb (x y : number) : bool :=
  match x, y with
  | S754_zero a, S754_zero b => Bool.eqb a b
  | S754_infinity a, S754_infinity b => Bool.eqb a b
  | S754_nan, S754_nan => true
  | S754_finite a m e, S754_finite b m' e' =>
      Bool.eqb a b && Pos.eqb m m' && Z.eqb e e'
  | _, _ => false
  end.

(** A check of the [k] integers from [n] on. *)
Fixpoint all_from (k : nat) (n : Z) (f : Z -> bool) : bool :=
  match k with
  | O => true
  | S k' => if f n then all_from k' (n + 1) f else false
  end.

(** For [r] seconds within an hour, the minutes that [formatTime]
    computes in binary64 are the integer quotient. *)
Definition minutes_exact (r : Z) : bool :=
  number_eqb (floor (div (of_Z r) (of_Z 60))) (of_Z (r / 60)).

(** Padding the number value of [n] gives its two or three digits. *)
Definition pads_exact (n : Z) : bool :=
  String.eqb (Overlay.three (of_Z n)) (digits3 n)
  && ((100 <=? n) || String.eqb (Overlay.two (of_Z n)) (digits2 n)).

(** A host whose strings never denote numbers, for the examples. *)
Definition sample_runtime : JS.Runtime :=
  {| JS.StringToNumber := fun _ => NaN |}.


(** Files and cues for the examples. *)
Definition sample_video : File :=
  {| file_name := "clip.mp4"; file_size := 3; file_content := "abc" |}.
Definition sample_subtitles : File :=
  {| file_name := "clip.srt"; file_size := 2; file_content := "xy" |}.
Definition other_video : File :=
  {| file_name := "clip.mp4"; file_size := 5; file_content := "hello" |}.
Definition other_subtitles : File :=
  {| file_name := "clip.srt"; file_size := 1; file_content := "z" |}.

Definition sample_cue (a b : Z) (text : string) (position : string) : json :=
  JObj [ ("start", JNum (of_Z a)); ("end", JNum (of_Z b));
         ("text", JStr text); ("position", JStr position) ].

Definition sample_cues : list json :=
  [ sample_cue 1 3 "first" "top"; sample_cue 2 2 "second" "bottom";
    sample_cue 5 4 "never" "top" ].

(** The values the status label takes. *)
Definition overlay_statuses : list string :=
  [ "Idle"; "Uploading..."; "Processing..."; "Done"; "Error";
    "Requesting download..."; "Downloaded" ].

Definition upload_statuses : list string :=
  [ "idle"; "uploading"; "processing"; "success"; "error" ].

(** The set points of the progress in the overlay application. *)
Definition overlay_progress_values : list number :=
  [ of_Z 0; of_Z 10; of_Z 30; of_Z 50; of_Z 100 ].

(** The three simulations of the upload application: the target, the
    increment of a tick and the delay between two ticks. *)
Definition timer_plans : list (number * number * number) :=
  [ (of_Z 60, div (sub (of_Z 60) (of_Z 10)) (of_Z 15), div (of_Z 800) (of_Z 15));
    (of_Z 90, div (sub (of_Z 90) (of_Z 60)) (of_Z 15), div (of_Z 600) (of_Z 15));
    (of_Z 100, div (sub (of_Z 100) (of_Z 90)) (of_Z 15), div (of_Z 200) (of_Z 15)) ].

Definition fixed_timer (tm : Upload.timer) : Prop :=
  Upload.tm_steps tm = of_Z 15
  /\ In (Upload.tm_to tm, Upload.tm_increment tm, Upload.tm_delay tm) timer_plans.

(** States and events without the sizes and contents of the files. *)
Definition erase_overlay_task (t : Overlay.task) : Overlay.task :=
  match t with
  | Overlay.DownloadFetch sub => Overlay.DownloadFetch (option_map erase_file sub)
  | Overlay.DownloadBlob sub => Overlay.DownloadBlob (option_map erase_file sub)
  | _ => t
  end.

Definition erase_overlay (s : Overlay.state) : Overlay.state :=
  {| Overlay.theme := Overlay.theme s;
     Overlay.videoFile := option_map erase_file (Overlay.videoFile s);
     Overlay.subtitleFile := option_map erase_file (Overlay.subtitleFile s);
     Overlay.videoUrl := option_map erase_file (Overlay.videoUrl s);
     Overlay.status := Overlay.status s;
     Overlay.progress := Overlay.progress s;
     Overlay.error := Overlay.error s;
     Overlay.cues := Overlay.cues s;
     Overlay.isProcessing := Overlay.isProcessing s;
     Overlay.includePositionHint := Overlay.includePositionHint s;
     Overlay.backendBaseUrl := Overlay.backendBaseUrl s;
     Overlay.currentTime := Overlay.currentTime s;
     Overlay.tasks := map erase_overlay_task (Overlay.tasks s) |}.

Definition erase_overlay_event (e : Overlay.event) : Overlay.event :=
  match e with
  | Overlay.VideoChange files => Overlay.VideoChange (map erase_file files)
  | Overlay.SubChange files => Overlay.SubChange (map erase_file files)
  | _ => e
  end.

Definition erase_upload (s : Upload.state) : Upload.state :=
  {| Upload.theme := Upload.theme s;
     Upload.videoFile := option_map erase_file (Upload.videoFile s);
     Upload.subtitleFile := option_map erase_file (Upload.subtitleFile s);
     Upload.status := Upload.status s;
     Upload.message := Upload.message s;
     Upload.progress := Upload.progress s;
     Upload.downloadUrl := Upload.downloadUrl s;
     Upload.resultFilename := Upload.resultFilename s;
     Upload.abortControllerRef := Upload.abortControllerRef s;
     Upload.controllers := Upload.controllers s;
     Upload.aborted := Upload.aborted s;
     Upload.timers := Upload.timers s;
     Upload.tasks := Upload.tasks s |}.

Definition erase_upload_event (e : Upload.event) : Upload.event :=
  match e with
  | Upload.PickVideo files => Upload.PickVideo (map erase_file files)
  | Upload.PickSubtitle files => Upload.PickSubtitle (map erase_file files)
  | _ => e
  end.

(** *** Further notions *)

(** [k] slashes. *)
Fixpoint slashes (k : nat) : string :=
  match k with
  | O => ""
  | S k' => String "/" (slashes k')
  end.

Fixpoint last_char (s : string) : option ascii :=
  match s with
  | EmptyString => None
  | String c rest =>
      match last_char rest with
      | Some d => Some d
      | None => Some c
      end
  end.

Definition ends_with_slash (s : string) : bool :=
  match last_char s with
  | Some c => Ascii.eqb c "/"
  | None => false
  end.

(** No character of the string is [c]. *)
Fixpoint lacks (c : ascii) (s : string) : bool :=
  match s with
  | EmptyString => true
  | String d rest => negb (Ascii.eqb c d) && lacks c rest
  end.

(** The whole numbers from 0 to 100. *)
Definition percents : list number :=
  map (fun k => of_Z (Z.of_nat k)) (seq 0 101).

Definition whole_percent (x : number) : Prop :=
  exists n, 0 <= n <= 100 /\ x = of_Z n.

Definition is_percent (x : number) : bool := existsb (number_eqb x) percents.

(** The timer a call [simulateProgress(from, to, durationMs)] starts,
    and the timer after one more tick. *)
Definition started (from to durationMs : number) : Upload.timer :=
  {| Upload.tm_current := from; Upload.tm_count := of_Z 0;
     Upload.tm_increment := div (sub to from) (of_Z 15);
     Upload.tm_steps := of_Z 15; Upload.tm_to := to;
     Upload.tm_delay := div durationMs (of_Z 15) |}.

Definition advance (tm : Upload.timer) : Upload.timer :=
  {| Upload.tm_current := add (Upload.tm_current tm) (Upload.tm_increment tm);
     Upload.tm_count := add (Upload.tm_count tm) (of_Z 1);
     Upload.tm_increment := Upload.tm_increment tm;
     Upload.tm_steps := Upload.tm_steps tm; Upload.tm_to := Upload.tm_to tm;
     Upload.tm_delay := Upload.tm_delay tm |}.

(** The progress after a tick of [tm] at progress [p]. *)
Definition ticked (p : number) (tm : Upload.timer) : number :=
  JSNumber.min (JSNumber.max p (round (Upload.tm_current (advance tm))))
    (Upload.tm_to tm).

Definition timer_eqb (a b : Upload.timer) : bool :=
  number_eqb (Upload.tm_current a) (Upload.tm_current b)
  && number_eqb (Upload.tm_count a) (Upload.tm_count b)
  && number_eqb (Upload.tm_increment a) (Upload.tm_increment b)
  && number_eqb (Upload.tm_steps a) (Upload.tm_steps b)
  && number_eqb (Upload.tm_to a) (Upload.tm_to b)
  && number_eqb (Upload.tm_delay a) (Upload.tm_delay b).

Fixpoint iterate {A} (f : A -> A) (k : nat) (a : A) : list A :=
  match k with
  | O => []
  | S k' => a :: iterate f k' (f a)
  end.

(** The timers of the three simulations, each before its first tick and
    after each of its first fourteen. *)
Definition live_timers : list Upload.timer :=
  (iterate advance 15 (started (of_Z 10) (of_Z 60) (of_Z 800))
   ++ iterate advance 15 (started (of_Z 60) (of_Z 90) (of_Z 600))
   ++ iterate advance 15 (started (of_Z 90) (of_Z 100) (of_Z 200)))%list.

Definition is_live (tm : Upload.timer) : bool := existsb (timer_eqb tm) live_timers.

(** A tick of a live timer at a whole percentage gives a whole
    percentage, and the timer is cleared or live afterwards. *)
Definition tick_closed (tm : Upload.timer) : bool :=
  forallb (fun p => is_percent (ticked p tm)) percents
  && (ge (Upload.tm_count (advance tm)) (Upload.tm_steps tm) || is_live (advance tm)).

(** Raising a whole percentage to the start of a simulation gives a
    whole percentage. *)
Definition raise_closed (from : number) : bool :=
  forallb (fun p => is_percent (JSNumber.max p from)) percents.

(** The fields of the overlay application that a handler which starts
    or resumes no call leaves alone. *)
Definition same_call (s s' : Overlay.state) : Prop :=
  Overlay.tasks s' = Overlay.tasks s
  /\ Overlay.isProcessing s' = Overlay.isProcessing s
  /\ Overlay.currentTime s' = Overlay.currentTime s.

(** No call is pending and [isProcessing] is false, or one is and it is
    true. *)
Definition one_call (s : Overlay.state) : Prop :=
  (Overlay.tasks s = [] /\ Overlay.isProcessing s = false)
  \/ (exists t, Overlay.tasks s = [t] /\ Overlay.isProcessing s = true).

(** The progress is a whole percentage and every timer is live. *)
Definition progress_ok (s : Upload.state) : Prop :=
  is_percent (Upload.progress s) = true
  /\ Forall (fun tm => is_live tm = true) (Upload.timers s).

(** At a whole percentage above the target of a live timer, a tick of
    the timer gives the target. *)
Definition pulls_down (tm : Upload.timer) : bool :=
  forallb (fun p => negb (lt (Upload.tm_to tm) p)
                    || number_eqb (ticked p tm) (Upload.tm_to tm)) percents.

(** A whole percentage is a number from 0 to 100 that [ProgressBar]
    shows as it is. *)
Definition shown_as_is (p : number) : bool :=
  le (of_Z 0) p && le p (of_Z 100) && number_eqb (View.clamp p) p.

(** While the status is [success] there is a result to download. *)
Definition success_has_result (s : Upload.state) : Prop :=
  Upload.status s = "success" -> Upload.downloadUrl s <> None.

(** The number of binary digits of a positive integer. *)
Definition dg (n : Z) : Z := Zpos (digits2_pos (Z.to_pos n)).

Definition ok200 : outcome := Responded {| resp_status := 200 |}.

(** A state of the overlay application ready for a request. *)
Definition overlay_ready : Overlay.state :=
  Overlay.exec Overlay.initial
    [ Overlay.Mount (Some "http://backend:3001/") None;
      Overlay.VideoChange [sample_video];
      Overlay.SubChange [sample_subtitles] ].

Definition upload_ready : Upload.state :=
  Upload.exec None Upload.initial
    [ Upload.PickVideo [sample_video]; Upload.PickSubtitle [sample_subtitles] ].

End Props.

(** * Properties *)

(** ** The order on numbers *)

Section NumberOrder.
Import JSNumber.

Ltac order_cases :=
  repeat match goal with
    | |- context [Z.compare ?a ?b] => destruct (Z.compare_spec a b)
    | H : context [Z.compare ?a ?b] |- _ => destruct (Z.compare_spec a b)
    | |- context [Pos.compare_cont Eq ?a ?b] =>
        change (Pos.compare_cont Eq a b) with (Pos.compare a b);
        destruct (Pos.compare_spec a b)
    | H : context [Pos.compare_cont Eq ?a ?b] |- _ =>
        change (Pos.compare_cont Eq a b) with (Pos.compare a b) in H;
        destruct (Pos.compare_spec a b)
    end.

Lemma compare_refl (x : number) : is_nan x = false -> SFcompare x x = Some Eq.
Proof.
  destruct x as [s | s | | s m e]; simpl; try discriminate; intros _;
    try (destruct s; reflexivity).
  rewrite Z.compare_refl.
  change (Pos.compare_cont Eq m m) with (Pos.compare m m).
  rewrite Pos.compare_refl. destruct s; reflexivity.
Qed.


(** [x <= y] and [y <= z] give [x <= z]. *)
Lemma le_trans (x y z : number) :
  le x y = true -> le y z = true -> le x z = true.
Proof.
  unfold le, SFleb.
  destruct x as [s | s | | s m e], y as [s' | s' | | s' m' e'],
    z as [s'' | s'' | | s'' m'' e'']; simpl; try discriminate; try reflexivity;
    try (destruct s; simpl; try discriminate; try reflexivity);
    try (destruct s'; simpl; try discriminate; try reflexivity);
    try (destruct s''; simpl; try discriminate; try reflexivity);
    intros H1 H2; order_cases; try discriminate; try reflexivity;
    simpl in *; try discriminate; try lia.
Qed.
End NumberOrder.

Section NumberOrderFacts.
Import JSNumber Props.

Ltac order_cases :=
  repeat match goal with
    | |- context [Z.compare ?a ?b] => destruct (Z.compare_spec a b)
    | H : context [Z.compare ?a ?b] |- _ => destruct (Z.compare_spec a b)
    | |- context [Pos.compare_cont Eq ?a ?b] =>
        change (Pos.compare_cont Eq a b) with (Pos.compare a b);
        destruct (Pos.compare_spec a b)
    | H : context [Pos.compare_cont Eq ?a ?b] |- _ =>
        change (Pos.compare_cont Eq a b) with (Pos.compare a b) in H;
        destruct (Pos.compare_spec a b)
    end.

Ltac float_order :=
  intros; unfold num_eq, num_gt, le, SFleb in *;
  repeat match goal with
    | x : number |- _ => destruct x as [[|] | [|] | | [|] ? ?]
    end;
  simpl in *; try discriminate; try reflexivity;
  order_cases; simpl in *; try discriminate; try reflexivity; try lia.

(** Between two equal bounds there is only their common value. *)
Lemma squeezed (a b t : number) :
  num_eq a b -> le a t = true -> le t b = true -> num_eq t a.
Proof. float_order. Qed.

Lemma at_bounds (a b t : number) :
  num_eq a b -> num_eq t a -> le a t = true /\ le t b = true.
Proof.
  intros Hab Hta; split; revert Hab Hta; float_order.
Qed.

(** Nothing lies between a start and a smaller end. *)
Lemma empty_interval (a b t : number) :
  num_gt a b -> le a t = true -> le t b = false.
Proof. float_order. Qed.
End NumberOrderFacts.

(** ** Active cues (C8) *)

Section ActiveCues.
Import JSNumber JS Overlay Props.
Context {rt : Runtime}.

Lemma is_active_timed (t : number) (c : json) :
  timed c -> is_active t c = Ok (in_interval t c).
Proof.
  unfold timed, in_interval, cue_times, is_active.
  destruct c as [| | | | |fields]; try congruence.
  simpl.
  destruct (lookup "start" fields) as [[| | a | | |]|]; try congruence.
  destruct (lookup "end" fields) as [[| | b | | |]|]; try congruence.
  intros _. simpl. unfold ge, le.
  destruct (SFleb a t); reflexivity.
Qed.

Lemma filter_result_timed (t : number) (cues : list json) :
  Forall timed cues ->
  filter_result (is_active t) cues = Ok (filter (in_interval t) cues).
Proof.
  induction 1 as [|c rest Hc _ IH]; simpl; [reflexivity|].
  rewrite (is_active_timed t c Hc). simpl. rewrite IH. simpl.
  reflexivity.
Qed.

Lemma activeCues_timed (t : number) (cues : list json) :
  Forall timed cues ->
  activeCues cues t = Ok (filter (in_interval t) cues).
Proof.
  intros H. destruct cues as [|c rest]; [reflexivity|].
  unfold activeCues. apply filter_result_timed, H.
Qed.
End ActiveCues.

Section ActiveCuesClaim.
Import JSNumber JS Overlay Props.
Context {rt : Runtime}.

(** C8. For every list of cues (objects whose [start] and [end] are
    numbers) and every playback time [t], [activeCues] returns exactly
    the cues with [start <= t] and [t <= end], in the order they were
    received. In particular a cue whose start equals its end is active
    exactly when [t] equals that instant, and a cue whose start is
    greater than its end is never active. *)
Theorem active_cues_are_those_containing_t (cues : list json) (t : number) :
  Forall timed cues ->
  activeCues cues t = Ok (filter (in_interval t) cues)
  /\ (forall c,
        In c (filter (in_interval t) cues) <->
        In c cues /\
        exists a b, cue_times c = Some (a, b) /\ le a t = true /\ le t b = true)
  /\ (forall c a b,
        In c cues -> cue_times c = Some (a, b) -> num_eq a b ->
        (In c (filter (in_interval t) cues) <-> num_eq t a))
  /\ (forall c a b,
        cue_times c = Some (a, b) -> num_gt a b ->
        ~ In c (filter (in_interval t) cues)).
Proof.
  intros Htimed. split; [apply activeCues_timed, Htimed|].
  assert (forall c, in_interval t c = true <->
                    exists a b, cue_times c = Some (a, b)
                                /\ le a t = true /\ le t b = true) as Hin.
  { intros c. unfold in_interval.
    destruct (cue_times c) as [[a b]|].
    - rewrite andb_true_iff. split.
      + intros [H1 H2]. exists a, b. auto.
      + intros (a' & b' & Heq & H1 & H2). inversion Heq; subst. auto.
    - split; [discriminate|]. intros (a & b & Heq & _). discriminate. }
  split; [|split].
  - intros c. rewrite filter_In, Hin. reflexivity.
  - intros c a b Hc Hab Heq. rewrite filter_In, Hin. split.
    + intros (_ & a' & b' & Hab' & H1 & H2).
      rewrite Hab in Hab'. inversion Hab'; subst.
      eapply squeezed; eauto.
    + intros Ht. split; [exact Hc|]. exists a, b.
      split; [exact Hab|]. eapply at_bounds; eauto.
  - intros c a b Hab Hgt. rewrite filter_In, Hin.
    intros (_ & a' & b' & Hab' & H1 & H2).
    rewrite Hab in Hab'. inversion Hab'; subst.
    rewrite (empty_interval _ _ _ Hgt H1) in H2. discriminate.
Qed.
End ActiveCuesClaim.

Lemma active_cues_are_those_containing_t_witness :
  Forall Props.timed Props.sample_cues
  /\ @Overlay.activeCues Props.sample_runtime Props.sample_cues (JSNumber.of_Z 2)
     = JS.Ok [ Props.sample_cue 1 3 "first" "top";
               Props.sample_cue 2 2 "second" "bottom" ].
Proof.
  assert (Forall Props.timed Props.sample_cues) as H.
  { repeat (constructor; [vm_compute; discriminate|]). constructor. }
  split; [exact H|].
  rewrite (proj1 (@active_cues_are_those_containing_t Props.sample_runtime
                    Props.sample_cues (JSNumber.of_Z 2) H)).
  vm_compute. reflexivity.
Defined.

(** ** Overlay position (C9) *)

Section OverlayPosition.
Import JSNumber JS Overlay Props.

Lemma is_top_iff (position : value) :
  is_top position = true <-> position = Val (JStr "top").
Proof.
  destruct position as [|[| | |s| |]]; simpl;
    try (split; [discriminate | intros H; inversion H]).
  rewrite String.eqb_eq. split; [intros ->; reflexivity|].
  intros H; inversion H; reflexivity.
Qed.

(** C9. The overlay is placed at the top ([top: '6%']) if and only if
    the position is exactly the string ['top']; any other value
    ([undefined] for a missing field, another string, a value of another
    type) gives the bottom placement ([bottom: '6%']). Reading the
    position of a cue object never throws. *)
Theorem overlay_is_top_only_for_top (position : value) :
  (overlayPositionStyle position = (base_style ++ [("top", SStr "6%")])%list
   <-> position = Val (JStr "top"))
  /\ (overlayPositionStyle position = (base_style ++ [("bottom", SStr "6%")])%list
      <-> position <> Val (JStr "top"))
  /\ (style_get "top" (overlayPositionStyle position) = Some (SStr "6%")
      <-> position = Val (JStr "top"))
  /\ (style_get "bottom" (overlayPositionStyle position) = Some (SStr "6%")
      <-> position <> Val (JStr "top"))
  /\ (forall fields,
        get (Val (JObj fields)) position_
        = Ok (match lookup "position" fields with
              | Some j => Val j
              | None => Undefined
              end)).
Proof.
  pose proof (is_top_iff position) as Htop.
  assert (forall fields,
             get (Val (JObj fields)) position_
             = Ok (match lookup "position" fields with
                   | Some j => Val j
                   | None => Undefined
                   end)) as Hget.
  { intros fields; simpl; destruct (lookup "position" fields); reflexivity. }
  assert ((base_style ++ [("top", SStr "6%")])%list
          <> (base_style ++ [("bottom", SStr "6%")])%list) as Hdiff.
  { intros H. apply app_inv_head in H. discriminate. }
  assert (style_get "top" (base_style ++ [("top", SStr "6%")])%list
          = Some (SStr "6%")) as Htt by (vm_compute; reflexivity).
  assert (style_get "bottom" (base_style ++ [("top", SStr "6%")])%list
          = None) as Htb by (vm_compute; reflexivity).
  assert (style_get "top" (base_style ++ [("bottom", SStr "6%")])%list
          = None) as Hbt by (vm_compute; reflexivity).
  assert (style_get "bottom" (base_style ++ [("bottom", SStr "6%")])%list
          = Some (SStr "6%")) as Hbb by (vm_compute; reflexivity).
  unfold overlayPositionStyle.
  destruct (is_top position) eqn:E.
  - assert (position = Val (JStr "top")) as Hp by (apply Htop; reflexivity).
    rewrite Htt, Htb.
    split; [tauto|]. split; [split; [congruence | tauto]|].
    split; [tauto|]. split; [split; [discriminate | tauto]|]. exact Hget.
  - assert (position <> Val (JStr "top")) as Hne.
    { intros H. apply Htop in H. discriminate. }
    rewrite Hbt, Hbb.
    split; [split; [congruence | tauto]|]. split; [tauto|].
    split; [split; [discriminate | tauto]|]. split; [tauto|]. exact Hget.
Qed.
End OverlayPosition.

(** ** Rounding of binary64 operations *)

Section Rounding.
Import JSNumber Props.

Lemma digits2_pos_bounds (m : positive) :
  2 ^ (Zpos (digits2_pos m) - 1) <= Zpos m < 2 ^ Zpos (digits2_pos m).
Proof.
  induction m as [m IH | m IH |]; simpl digits2_pos;
    [rewrite Pos2Z.inj_succ, (Pos2Z.inj_xI m)
    |rewrite Pos2Z.inj_succ, (Pos2Z.inj_xO m)
    |simpl; lia];
    set (d := Zpos (digits2_pos m)) in *;
    assert (0 < d) as Hd by (unfold d; lia);
    clearbody d;
    replace (Z.succ d - 1) with d by lia;
    rewrite Z.pow_succ_r by lia;
    assert (2 ^ d = 2 * 2 ^ (d - 1)) as Hpow
      by (rewrite <- Z.pow_succ_r by lia; f_equal; lia);
    lia.
Qed.

(** A mantissa below [2 ^ k] has at most [k] digits. *)
Lemma digits2_pos_le (m : positive) (k : Z) :
  Zpos m < 2 ^ k -> Zpos (digits2_pos m) <= k.
Proof.
  intros H. destruct (digits2_pos_bounds m) as [Hlo _].
  destruct (Z_le_gt_dec (Zpos (digits2_pos m)) k) as [|Hgt]; [assumption|].
  exfalso.
  assert (0 <= k) as Hk.
  { destruct (Z_le_gt_dec 0 k); [assumption|].
    rewrite Z.pow_neg_r in H by lia. lia. }
  assert (2 ^ k <= 2 ^ (Zpos (digits2_pos m) - 1))
    by (apply Z.pow_le_mono_r; lia).
  lia.
Qed.

Lemma digits2_pos_ge (m : positive) (k : Z) :
  2 ^ k <= Zpos m -> k < Zpos (digits2_pos m).
Proof.
  intros H. destruct (digits2_pos_bounds m) as [_ Hhi].
  destruct (Z_lt_le_dec k (Zpos (digits2_pos m))) as [|Hle]; [assumption|].
  exfalso.
  assert (2 ^ Zpos (digits2_pos m) <= 2 ^ k)
    by (apply Z.pow_le_mono_r; lia).
  lia.
Qed.

(** One shift to the right halves a non-negative mantissa and remembers
    the bit that fell off. *)
Lemma shr_1_spec (mrs : shr_record) :
  0 <= shr_m mrs ->
  shr_m (shr_1 mrs) = shr_m mrs / 2
  /\ shr_r (shr_1 mrs) = Z.odd (shr_m mrs).
Proof.
  destruct mrs as [m r s]. cbn [shr_m]. intros Hm.
  destruct m as [|[p|p|]|p]; unfold shr_1; cbn [shr_m shr_r]; try lia;
    (split; [|reflexivity]).
  - reflexivity.
  - apply Z.div_unique with (r := 1); lia.
  - apply Z.div_unique with (r := 0); lia.
  - reflexivity.
Qed.

Lemma div_pow2_twice (a i j : Z) :
  0 <= i -> 0 <= j -> a / 2 ^ i / 2 ^ j = a / 2 ^ (i + j).
Proof.
  intros Hi Hj.
  rewrite Zdiv.Zdiv_Zdiv by (apply Z.pow_nonneg; lia).
  rewrite Z.pow_add_r by lia. reflexivity.
Qed.

Lemma div_pow2_nonneg (a i : Z) : 0 <= a -> 0 <= a / 2 ^ i.
Proof.
  intros Ha. destruct (Z_le_gt_dec 0 i).
  - apply Z.div_pos; [lia | apply Z.pow_pos_nonneg; lia].
  - rewrite Z.pow_neg_r by lia. rewrite Z.div_0_r. lia.
Qed.

Lemma shr_iter_spec (p : positive) (mrs : shr_record) :
  0 <= shr_m mrs ->
  shr_m (iter_pos shr_1 p mrs) = shr_m mrs / 2 ^ Zpos p
  /\ shr_r (iter_pos shr_1 p mrs) = Z.odd (shr_m mrs / 2 ^ (Zpos p - 1)).
Proof.
  revert mrs. induction p as [p IH | p IH |]; intros mrs Hm; simpl iter_pos.
  - destruct (shr_1_spec mrs Hm) as [H1 _].
    assert (0 <= shr_m (shr_1 mrs)) as Hm1
      by (rewrite H1; apply (div_pow2_nonneg _ 1); lia).
    destruct (IH _ Hm1) as [H2 _].
    assert (0 <= shr_m (iter_pos shr_1 p (shr_1 mrs))) as Hm2
      by (rewrite H2; apply div_pow2_nonneg; lia).
    destruct (IH _ Hm2) as [H3 H3r].
    rewrite H3, H3r, H2, H1.
    change (shr_m mrs / 2) with (shr_m mrs / 2 ^ 1).
    rewrite !div_pow2_twice by lia.
    split; do 3 f_equal; lia.
  - destruct (IH _ Hm) as [H2 _].
    assert (0 <= shr_m (iter_pos shr_1 p mrs)) as Hm2
      by (rewrite H2; apply div_pow2_nonneg; lia).
    destruct (IH _ Hm2) as [H3 H3r].
    rewrite H3, H3r, H2.
    rewrite !div_pow2_twice by lia.
    split; do 3 f_equal; lia.
  - destruct (shr_1_spec mrs Hm) as [H1 H1r].
    rewrite H1, H1r. simpl. rewrite Z.div_1_r. split; reflexivity.
Qed.

(** Shifting a mantissa [M] to the right by [n] places and rounding to
    nearest gives a mantissa within half a unit of [M / 2 ^ n]. *)
Lemma round_shr_bound (M E n : Z) :
  0 <= M ->
  let k := Z.max n 0 in
  let '(mrs, e') := shr (Build_shr_record M false false) E n in
  let m1 := round_nearest_even (shr_m mrs) (loc_of_shr_record mrs) in
  e' = E + k
  /\ M / 2 ^ k <= m1 <= M / 2 ^ k + 1
  /\ m1 * 2 ^ k <= M + 2 ^ k / 2.
Proof.
  intros HM k. unfold shr.
  destruct n as [|p|p].
  - subst k. change (Z.max 0 0) with 0. change (2 ^ 0) with 1.
    change (1 / 2) with 0. cbn [shr_m loc_of_shr_record round_nearest_even].
    rewrite Z.div_1_r. lia.
  - subst k. rewrite Z.max_l by lia.
    destruct (shr_iter_spec p (Build_shr_record M false false) HM) as [Hm Hr].
    cbn [shr_m] in Hm, Hr.
    destruct (iter_pos shr_1 p (Build_shr_record M false false)) as [m r s].
    cbn [shr_m shr_r] in *. subst m.
    assert (0 < 2 ^ Zpos p) as Hpow by (apply Z.pow_pos_nonneg; lia).
    assert (2 ^ Zpos p = 2 * 2 ^ (Zpos p - 1)) as Hsplit.
    { rewrite <- Z.pow_succ_r by lia. f_equal. lia. }
    assert (0 < 2 ^ (Zpos p - 1)) as Hpow' by (apply Z.pow_pos_nonneg; lia).
    assert (2 ^ Zpos p / 2 = 2 ^ (Zpos p - 1)) as Hhalf.
    { rewrite Hsplit. rewrite Z.mul_comm. apply Z.div_mul. lia. }
    rewrite Hhalf.
    pose proof (Z.mul_div_le M (2 ^ Zpos p) Hpow) as Hle.
    split; [reflexivity|].
    destruct r.
    + (* the bit that fell off last is set *)
      assert (M / 2 ^ Zpos p = M / 2 ^ (Zpos p - 1) / 2) as Hdiv.
      { change 2 with (2 ^ 1) at 3. rewrite div_pow2_twice by lia.
        do 2 f_equal. lia. }
      pose proof (Z.mul_div_le M (2 ^ (Zpos p - 1)) Hpow') as Hle'.
      symmetry in Hr. rewrite Z.odd_spec in Hr. destruct Hr as [q Hq].
      assert (M / 2 ^ (Zpos p - 1) / 2 = q) as Hq'.
      { rewrite Hq. symmetry. apply Z.div_unique with (r := 1); lia. }
      assert (2 ^ Zpos p * (M / 2 ^ Zpos p) + 2 ^ (Zpos p - 1) <= M) as Hbit.
      { rewrite Hdiv, Hq'. rewrite Hq in Hle'. nia. }
      destruct s; cbn [loc_of_shr_record round_nearest_even];
        [|destruct (Z.even (M / 2 ^ Zpos p))]; nia.
    + destruct s; cbn [loc_of_shr_record round_nearest_even]; nia.
  - subst k. change (Z.max (Zneg p) 0) with 0. change (2 ^ 0) with 1.
    change (1 / 2) with 0. cbn [shr_m loc_of_shr_record round_nearest_even].
    rewrite Z.div_1_r. lia.
Qed.

Lemma shr_m_spec (mrs : shr_record) (E n : Z) :
  0 <= shr_m mrs ->
  let '(mrs', e') := shr mrs E n in
  e' = E + Z.max n 0 /\ shr_m mrs' = shr_m mrs / 2 ^ Z.max n 0.
Proof.
  intros HM. unfold shr. destruct n as [|p|p].
  - change (Z.max 0 0) with 0. change (2 ^ 0) with 1.
    rewrite Z.div_1_r. lia.
  - rewrite Z.max_l by lia.
    destruct (shr_iter_spec p mrs HM) as [Hm _].
    split; [reflexivity | exact Hm].
  - change (Z.max (Zneg p) 0) with 0. change (2 ^ 0) with 1.
    rewrite Z.div_1_r. lia.
Qed.

Lemma shr_m_of_loc (m : Z) (l : location) : shr_m (shr_record_of_loc m l) = m.
Proof. destruct l as [|[| |]]; reflexivity. Qed.

Lemma round_nearest_even_bounds (m : Z) (l : location) :
  m <= round_nearest_even m l <= m + 1.
Proof.
  destruct l as [|[| |]]; simpl; try lia. destruct (Z.even m); lia.
Qed.

Lemma Zdigits2_le (x k : Z) : 0 <= x < 2 ^ k -> Zdigits2 x <= Z.max k 0.
Proof.
  intros [Hx Hk]. destruct x as [|p|p]; simpl; try lia.
  pose proof (digits2_pos_le p k Hk). lia.
Qed.

Lemma fexp_binary64 (x : Z) : fexp prec emax x = Z.max (x - 53) (-1074).
Proof. reflexivity. Qed.

(** Rounding a positive [mx * 2 ^ ex] to binary64. With
    [n] the number of places the mantissa is shifted, the result is
    [m1 * 2 ^ (ex + n)] where [m1] is [mx / 2 ^ n] or the next integer;
    when the input is exact, [m1] is within half a unit of the exact
    quotient. *)
Lemma binary_round_aux_spec (mx : positive) (ex : Z) (lx : location) :
  let n := Z.max (fexp prec emax (Zpos (digits2_pos mx) + ex) - ex) 0 in
  ex + n + 1 <= emax - prec ->
  exists m1,
    Zpos mx / 2 ^ n <= m1 <= Zpos mx / 2 ^ n + 1
    /\ m1 <= 2 ^ 53
    /\ (lx = loc_Exact -> m1 * 2 ^ n <= Zpos mx + 2 ^ n / 2)
    /\ binary_round_aux prec emax false (Zpos mx) ex lx
       = if m1 =? 0 then S754_zero false
         else if m1 <? 2 ^ 53 then S754_finite false (Z.to_pos m1) (ex + n)
         else S754_finite false (Z.to_pos (m1 / 2)) (ex + n + 1).
Proof.
  intros n Hfit.
  unfold binary_round_aux, shr_fexp. cbn [Zdigits2].
  set (n0 := fexp prec emax (Zpos (digits2_pos mx) + ex) - ex) in *.
  assert (0 <= shr_m (shr_record_of_loc (Zpos mx) lx)) as HM
    by (rewrite shr_m_of_loc; lia).
  pose proof (shr_m_spec (shr_record_of_loc (Zpos mx) lx) ex n0 HM) as H1.
  pose proof (round_shr_bound (Zpos mx) ex n0 ltac:(lia)) as H1x.
  cbv zeta in H1x. fold n in H1, H1x.
  assert (lx = loc_Exact ->
          shr (shr_record_of_loc (Zpos mx) lx) ex n0
          = shr (Build_shr_record (Zpos mx) false false) ex n0) as Hexact
    by (intros ->; reflexivity).
  destruct (shr (shr_record_of_loc (Zpos mx) lx) ex n0) as [mrs e'].
  destruct H1 as [He' Hm]. rewrite shr_m_of_loc in Hm.
  set (m1 := round_nearest_even (shr_m mrs) (loc_of_shr_record mrs)) in *.
  pose proof (round_nearest_even_bounds (shr_m mrs) (loc_of_shr_record mrs))
    as Hm1. fold m1 in Hm1. rewrite Hm in Hm1.
  assert (0 <= n) as Hn by (unfold n; lia).
  assert (0 < 2 ^ n) as Hpn by (apply Z.pow_pos_nonneg; lia).
  assert (Zpos (digits2_pos mx) <= 53 + n) as Hdig.
  { unfold n, n0. rewrite fexp_binary64. lia. }
  assert (-1074 <= ex + n) as Hemin.
  { unfold n, n0. rewrite fexp_binary64. lia. }
  assert (Zpos mx / 2 ^ n < 2 ^ 53) as Hmlt.
  { apply Z.div_lt_upper_bound; [assumption|].
    rewrite <- Z.pow_add_r by lia.
    destruct (digits2_pos_bounds mx) as [_ Hhi].
    eapply Z.lt_le_trans; [exact Hhi|].
    apply Z.pow_le_mono_r; lia. }
  assert (0 <= Zpos mx / 2 ^ n) as Hm0 by (apply div_pow2_nonneg; lia).
  exists m1. split; [exact Hm1|]. split; [lia|]. split.
  { intros Hlx. rewrite <- (Hexact Hlx) in H1x. fold m1 in H1x.
    destruct H1x as (_ & _ & Hb). exact Hb. }
  clear Hexact H1x.
  assert (0 <= m1) as Hm1nn by lia.
  pose proof (shr_m_spec (shr_record_of_loc m1 loc_Exact) e'
                (fexp prec emax (Zdigits2 m1 + e') - e')) as H2.
  rewrite shr_m_of_loc in H2. specialize (H2 Hm1nn).
  destruct (shr (shr_record_of_loc m1 loc_Exact) e'
              (fexp prec emax (Zdigits2 m1 + e') - e')) as [mrs2 e2].
  destruct H2 as [He2 Hm2]. rewrite Hm2, He2. subst e'.
  rewrite fexp_binary64.
  destruct (Z.eqb_spec m1 0) as [Hz|Hnz].
  - rewrite Hz. rewrite Z.div_0_l by (apply Z.pow_nonzero; lia).
    reflexivity.
  - destruct (Z.ltb_spec m1 (2 ^ 53)) as [Hlt|Hge].
    + assert (Zdigits2 m1 <= 53) as Hd
        by (apply (Zdigits2_le m1 53); lia).
      replace (Z.max (Z.max (Zdigits2 m1 + (ex + n) - 53) (-1074) - (ex + n)) 0)
        with 0 by lia.
      change (2 ^ 0) with 1. rewrite Z.div_1_r, Z.add_0_r.
      destruct m1 as [|p|p]; try lia.
      assert ((ex + n <=? emax - prec) = true) as -> by (apply Z.leb_le; lia).
      reflexivity.
    + assert (m1 = 2 ^ 53) as Heq by lia.
      rewrite Heq.
      change (Zdigits2 (2 ^ 53)) with 54.
      replace (Z.max (Z.max (54 + (ex + n) - 53) (-1074) - (ex + n)) 0)
        with 1 by lia.
      change (2 ^ 53 / 2 ^ 1) with 4503599627370496.
      change (2 ^ 53 / 2) with 4503599627370496.
      assert ((ex + n + 1 <=? emax - prec) = true) as ->
        by (apply Z.leb_le; lia).
      reflexivity.
Qed.

(** *** Exact results *)

Lemma pos_iter_xO (p d : positive) :
  Zpos (Pos.iter xO p d) = Zpos p * 2 ^ Zpos d.
Proof.
  induction d as [|d IH] using Pos.peano_ind.
  - simpl. lia.
  - rewrite Pos.iter_succ, Pos2Z.inj_xO, IH, Pos2Z.inj_succ.
    rewrite Z.pow_succ_r by lia. lia.
Qed.

(** The number of digits is fixed by the two powers of two around. *)
Lemma digits2_pos_unique (m : positive) (k : Z) :
  2 ^ (k - 1) <= Zpos m < 2 ^ k -> Zpos (digits2_pos m) = k.
Proof.
  intros [Hlo Hhi].
  pose proof (digits2_pos_le m k Hhi).
  pose proof (digits2_pos_ge m (k - 1) Hlo). lia.
Qed.

Lemma digits2_pos_mono (a b : positive) :
  (a <= b)%positive -> Zpos (digits2_pos a) <= Zpos (digits2_pos b).
Proof.
  intros Hab. apply digits2_pos_le.
  destruct (digits2_pos_bounds b) as [_ Hb]. lia.
Qed.

Lemma digits2_pos_shift (p : positive) (k : Z) :
  0 <= k ->
  Zpos (digits2_pos (Z.to_pos (Zpos p * 2 ^ k)))
  = Zpos (digits2_pos p) + k.
Proof.
  intros Hk.
  assert (0 < 2 ^ k) as Hp by (apply Z.pow_pos_nonneg; lia).
  apply digits2_pos_unique. rewrite Z2Pos.id by nia.
  destruct (digits2_pos_bounds p) as [Hlo Hhi].
  replace (Zpos (digits2_pos p) + k - 1)
    with (Zpos (digits2_pos p) - 1 + k) by lia.
  rewrite !Z.pow_add_r by lia. nia.
Qed.

(** A positive [P * 2 ^ E] that needs no rounding is represented
    exactly, in canonical form. *)
Lemma binary_round_exact (P : positive) (E : Z) :
  let e := fexp prec emax (Zpos (digits2_pos P) + E) in
  e <= E -> e + 1 <= emax - prec ->
  binary_round prec emax false P E
  = S754_finite false (Z.to_pos (Zpos P * 2 ^ (E - e))) e.
Proof.
  intros e HeE Hfit. unfold binary_round. fold e.
  assert (exists mz,
             shl_align P E e = (mz, e)
             /\ Zpos mz = Zpos P * 2 ^ (E - e)) as (mz & -> & Hmz).
  { unfold shl_align. destruct (e - E) as [|d|d] eqn:Hd; try lia.
    - exists P. assert (e = E) as -> by lia.
      rewrite Z.sub_diag. split; [reflexivity | simpl; lia].
    - exists (Pos.iter xO P d). split; [reflexivity|].
      rewrite pos_iter_xO. do 2 f_equal. lia. }
  assert (0 <= E - e) as Hsh by lia.
  assert (0 < 2 ^ (E - e)) as Hp by (apply Z.pow_pos_nonneg; lia).
  assert (Zpos (digits2_pos mz) = Zpos (digits2_pos P) + (E - e)) as Hdig.
  { rewrite <- (digits2_pos_shift P (E - e) Hsh). rewrite <- Hmz.
    rewrite Pos2Z.id. reflexivity. }
  pose proof (binary_round_aux_spec mz e loc_Exact) as Hspec.
  cbv zeta in Hspec. rewrite Hdig in Hspec.
  replace (Zpos (digits2_pos P) + (E - e) + e)
    with (Zpos (digits2_pos P) + E) in Hspec by lia.
  fold e in Hspec. rewrite Z.sub_diag in Hspec.
  change (Z.max 0 0) with 0 in Hspec. change (2 ^ 0) with 1 in Hspec.
  change (1 / 2) with 0 in Hspec.
  rewrite Z.div_1_r, !Z.add_0_r in Hspec.
  destruct (Hspec Hfit) as (m1 & Hm1 & _ & Hex & ->).
  specialize (Hex eq_refl).
  assert (m1 = Zpos mz) as -> by lia.
  assert (Zpos mz < 2 ^ 53) as Hlt.
  { destruct (digits2_pos_bounds mz) as [_ Hhi].
    eapply Z.lt_le_trans; [exact Hhi|].
    apply Z.pow_le_mono_r; [lia|]. rewrite Hdig.
    unfold e. rewrite fexp_binary64. lia. }
  assert ((Zpos mz =? 0) = false) as -> by (apply Z.eqb_neq; lia).
  assert ((Zpos mz <? 2 ^ 53) = true) as -> by (apply Z.ltb_lt; lia).
  rewrite <- Hmz. reflexivity.
Qed.

(** The number value of a positive integer below [2 ^ 53]. *)
Lemma of_Z_pos (n : Z) :
  0 < n < 2 ^ 53 ->
  of_Z n = S754_finite false
             (Z.to_pos (n * 2 ^ (53 - Zpos (digits2_pos (Z.to_pos n)))))
             (Zpos (digits2_pos (Z.to_pos n)) - 53).
Proof.
  intros [Hpos Hlt]. destruct n as [|p|p]; try lia.
  unfold of_Z, binary_normalize. rewrite Pos2Z.id.
  pose proof (digits2_pos_le p 53 Hlt) as Hd.
  pose proof (binary_round_exact p 0) as H.
  cbv zeta in H. rewrite Z.add_0_r, fexp_binary64 in H.
  replace (Z.max (Zpos (digits2_pos p) - 53) (-1074))
    with (Zpos (digits2_pos p) - 53) in H by lia.
  rewrite H by (unfold emax, prec; lia).
  replace (0 - (Zpos (digits2_pos p) - 53))
    with (53 - Zpos (digits2_pos p)) by lia.
  reflexivity.
Qed.

Lemma of_Z_zero : of_Z 0 = S754_zero false.
Proof. reflexivity. Qed.

Lemma dg_bounds (n : Z) : 0 < n -> 2 ^ (dg n - 1) <= n < 2 ^ dg n.
Proof.
  intros Hn. unfold dg.
  pose proof (digits2_pos_bounds (Z.to_pos n)) as H.
  rewrite Z2Pos.id in H by assumption. exact H.
Qed.

Lemma dg_pos (n : Z) : 0 < dg n.
Proof. unfold dg. lia. Qed.

Lemma dg_le (n k : Z) : 0 < n < 2 ^ k -> dg n <= k.
Proof.
  intros [Hn Hk]. unfold dg. apply digits2_pos_le.
  rewrite Z2Pos.id by assumption. exact Hk.
Qed.

Lemma dg_mono (a b : Z) : 0 < a <= b -> dg a <= dg b.
Proof.
  intros [Ha Hab]. apply dg_le. split; [assumption|].
  destruct (dg_bounds b) as [_ Hb]; lia.
Qed.

Lemma of_Z_dg (n : Z) :
  0 < n < 2 ^ 53 ->
  of_Z n = S754_finite false (Z.to_pos (n * 2 ^ (53 - dg n))) (dg n - 53).
Proof. apply of_Z_pos. Qed.

Lemma mant_bounds (n : Z) :
  0 < n < 2 ^ 53 -> 2 ^ 52 <= n * 2 ^ (53 - dg n) < 2 ^ 53.
Proof.
  intros Hn. destruct (dg_bounds n) as [Hlo Hhi]; [lia|].
  pose proof (dg_le n 53 Hn) as Hd. pose proof (dg_pos n) as Hd0.
  assert (0 < 2 ^ (53 - dg n)) as Hp by (apply Z.pow_pos_nonneg; lia).
  assert (2 ^ 52 = 2 ^ (dg n - 1) * 2 ^ (53 - dg n)) as ->
    by (rewrite <- Z.pow_add_r by lia; f_equal; lia).
  assert (2 ^ 53 = 2 ^ dg n * 2 ^ (53 - dg n)) as ->
    by (rewrite <- Z.pow_add_r by lia; f_equal; lia).
  nia.
Qed.

(** The remainder of two integers is computed exactly. *)
Lemma rem_of_Z (a b : Z) :
  0 <= a < 2 ^ 53 -> 0 < b < 2 ^ 53 ->
  rem (of_Z a) (of_Z b) = of_Z (a mod b).
Proof.
  intros Ha Hb.
  pose proof (mant_bounds b Hb) as Hmb.
  rewrite (of_Z_dg b Hb).
  destruct (Z.eq_dec a 0) as [->|Hane].
  { rewrite Z.mod_0_l by lia. reflexivity. }
  assert (0 < a < 2 ^ 53) as Ha' by lia.
  pose proof (mant_bounds a Ha') as Hma.
  rewrite (of_Z_dg a Ha'). unfold rem.
  rewrite !Z2Pos.id by lia.
  pose proof (dg_le a 53 Ha') as Hda. pose proof (dg_pos a) as Hda0.
  pose proof (dg_le b 53 Hb) as Hdb. pose proof (dg_pos b) as Hdb0.
  set (e0 := Z.min (dg a - 53) (dg b - 53)).
  assert (a * 2 ^ (53 - dg a) * 2 ^ (dg a - 53 - e0) = a * 2 ^ (- e0)) as ->.
  { rewrite <- Z.mul_assoc, <- Z.pow_add_r by (unfold e0; lia).
    do 2 f_equal. lia. }
  assert (b * 2 ^ (53 - dg b) * 2 ^ (dg b - 53 - e0) = b * 2 ^ (- e0)) as ->.
  { rewrite <- Z.mul_assoc, <- Z.pow_add_r by (unfold e0; lia).
    do 2 f_equal. lia. }
  assert (0 < 2 ^ (- e0)) as Hp by (apply Z.pow_pos_nonneg; unfold e0; lia).
  rewrite Z.mul_mod_distr_r by lia.
  pose proof (Z.mod_pos_bound a b ltac:(lia)) as Hv.
  pose proof (Z.mod_le a b ltac:(lia) ltac:(lia)) as Hva.
  destruct (Z.eq_dec (a mod b) 0) as [Hz|Hnz].
  { rewrite Hz. reflexivity. }
  assert (0 < a mod b < 2 ^ 53) as Hv' by lia.
  assert (((a mod b) * 2 ^ (- e0) =? 0) = false) as ->.
  { apply Z.eqb_neq.
    pose proof (Z.mul_pos_pos (a mod b) (2 ^ (- e0)) ltac:(lia) Hp). lia. }
  rewrite (of_Z_dg _ Hv').
  pose proof (dg_mono (a mod b) a ltac:(lia)) as Hdva.
  pose proof (dg_mono (a mod b) b ltac:(lia)) as Hdvb.
  pose proof (dg_pos (a mod b)) as Hdv0.
  cbn [cond_Zopp]. unfold binary_normalize.
  assert (0 < (a mod b) * 2 ^ (- e0)) as Hrpos
    by (apply Z.mul_pos_pos; lia).
  destruct ((a mod b) * 2 ^ (- e0)) as [|rp|rp] eqn:Er; try lia.
  assert (Zpos (digits2_pos rp) = dg (a mod b) + - e0) as Hdr.
  { pose proof (digits2_pos_shift (Z.to_pos (a mod b)) (- e0)
                  ltac:(unfold e0; lia)) as H.
    rewrite Z2Pos.id in H by lia. rewrite Er in H.
    rewrite Pos2Z.id in H. exact H. }
  pose proof (binary_round_exact rp e0) as H.
  cbv zeta in H. rewrite Hdr, fexp_binary64 in H.
  replace (Z.max (dg (a mod b) + - e0 + e0 - 53) (-1074))
    with (dg (a mod b) - 53) in H by lia.
  rewrite H by (unfold emax, prec, e0; lia).
  f_equal. f_equal. rewrite <- Er.
  rewrite <- Z.mul_assoc, <- Z.pow_add_r by (unfold e0; lia).
  do 2 f_equal. lia.
Qed.

Lemma digits_mant (n : Z) :
  0 < n < 2 ^ 53 ->
  Zpos (digits2_pos (Z.to_pos (n * 2 ^ (53 - dg n)))) = 53.
Proof.
  intros Hn. pose proof (mant_bounds n Hn) as H.
  apply digits2_pos_unique. rewrite Z2Pos.id by lia. exact H.
Qed.

Lemma SFdiv_core_normal (A B : positive) (ea eb : Z) :
  Zpos (digits2_pos A) = 53 -> Zpos (digits2_pos B) = 53 ->
  -1074 <= ea - eb - 53 ->
  SFdiv_core_binary prec emax (Zpos A) ea (Zpos B) eb
  = (Zpos A * 2 ^ 53 / Zpos B, ea - eb - 53,
     new_location (Zpos B) ((Zpos A * 2 ^ 53) mod Zpos B)).
Proof.
  intros HA HB Hmin. unfold SFdiv_core_binary. cbn [Zdigits2].
  rewrite HA, HB, fexp_binary64.
  replace (Z.min (Z.max (53 + ea - (53 + eb) - 53) (-1074)) (ea - eb))
    with (ea - eb - 53) by lia.
  replace (ea - eb - (ea - eb - 53)) with 53 by lia.
  rewrite Z.shiftl_mul_pow2 by lia.
  unfold Z.div, Z.modulo.
  destruct (Z.div_eucl (Zpos A * 2 ^ 53) (Zpos B)) as [q r]. reflexivity.
Qed.

(** The quotient of two integers, divided in binary64 and rounded
    down, is their integer quotient. *)
Lemma floor_div_of_Z (a b : Z) :
  0 <= a < 2 ^ 52 -> 0 < b < 2 ^ 53 ->
  floor (div (of_Z a) (of_Z b)) = of_Z (a / b).
Proof.
  intros Ha Hb.
  pose proof (mant_bounds b Hb) as Hmb.
  rewrite (of_Z_dg b Hb).
  destruct (Z.eq_dec a 0) as [->|Hane].
  { rewrite Z.div_0_l by lia. reflexivity. }
  assert (0 < a < 2 ^ 53) as Ha' by lia.
  pose proof (mant_bounds a Ha') as Hma.
  rewrite (of_Z_dg a Ha'). unfold div, SFdiv.
  pose proof (dg_le a 52 ltac:(lia)) as Hda. pose proof (dg_pos a) as Hda0.
  pose proof (dg_le b 53 Hb) as Hdb. pose proof (dg_pos b) as Hdb0.
  destruct (dg_bounds b ltac:(lia)) as [_ Hbhi].
  rewrite SFdiv_core_normal
    by (rewrite ?digits_mant by lia; lia).
  rewrite !Z2Pos.id by lia.
  set (L0 := 53 - dg a + dg b).
  replace (dg a - 53 - (dg b - 53) - 53) with (- L0) by (unfold L0; lia).
  assert (a * 2 ^ (53 - dg a) * 2 ^ 53 / (b * 2 ^ (53 - dg b))
          = a * 2 ^ L0 / b) as Hq.
  { assert (0 < 2 ^ (53 - dg b)) by (apply Z.pow_pos_nonneg; lia).
    rewrite <- (Z.div_mul_cancel_r (a * 2 ^ L0) b (2 ^ (53 - dg b))) by lia.
    f_equal. rewrite <- !Z.mul_assoc, <- !Z.pow_add_r by (unfold L0; lia).
    do 2 f_equal. unfold L0. lia. }
  rewrite Hq. clear Hq.
  set (q := a * 2 ^ L0 / b).
  assert (0 < 2 ^ L0) as HpL0 by (apply Z.pow_pos_nonneg; unfold L0; lia).
  assert (2 ^ 52 <= q < 2 ^ 54) as Hqb.
  { unfold q. split.
    - apply Z.div_le_lower_bound; [lia|].
      assert (b * 2 ^ 52 <= 2 ^ dg b * 2 ^ 52) by nia.
      assert (2 ^ dg b * 2 ^ 52 = 2 ^ (dg a - 1) * 2 ^ L0) as Heq.
      { rewrite <- !Z.pow_add_r by (unfold L0; lia). f_equal.
        unfold L0. lia. }
      destruct (dg_bounds a ltac:(lia)) as [Halo _]. nia.
    - apply Z.div_lt_upper_bound; [lia|].
      destruct (dg_bounds a ltac:(lia)) as [_ Hahi].
      destruct (dg_bounds b ltac:(lia)) as [Hblo _].
      assert (2 ^ dg a * 2 ^ L0 = 2 ^ (dg b - 1) * 2 ^ 54) as Heq.
      { rewrite <- !Z.pow_add_r by (unfold L0; lia). f_equal.
        unfold L0. lia. }
      nia. }
  destruct q as [|qp|qp] eqn:Eq; try lia.
  set (n := Zpos (digits2_pos qp) - 53).
  assert (0 <= n <= 1) as Hn.
  { unfold n.
    pose proof (digits2_pos_le qp 54 ltac:(lia)).
    pose proof (digits2_pos_ge qp 52 ltac:(lia)). lia. }
  pose proof (binary_round_aux_spec qp (- L0)
                (new_location (b * 2 ^ (53 - dg b))
                   ((a * 2 ^ (53 - dg a) * 2 ^ 53) mod (b * 2 ^ (53 - dg b)))))
    as Hspec.
  cbv zeta in Hspec. rewrite fexp_binary64 in Hspec.
  replace (Z.max (Z.max (Zpos (digits2_pos qp) + - L0 - 53) (-1074) - - L0) 0)
    with n in Hspec by (unfold n, L0 in *; lia).
  cbn [xorb].
  destruct Hspec as (m1 & Hm1 & Hm1top & _ & ->);
    [unfold emax, prec, L0; lia|].
  (* the quotient and the shifted mantissa *)
  set (h := a / b).
  set (L := L0 - n).
  assert (0 < L) as HL by (unfold L, L0; lia).
  assert (0 < 2 ^ L) as HpL by (apply Z.pow_pos_nonneg; lia).
  assert (0 < 2 ^ n) as Hpn by (apply Z.pow_pos_nonneg; lia).
  assert (2 ^ L0 = 2 ^ L * 2 ^ n) as HL0
    by (rewrite <- Z.pow_add_r by lia; f_equal; unfold L; lia).
  pose proof (Z.div_mod a b ltac:(lia)) as Hab. fold h in Hab.
  pose proof (Z.mod_pos_bound a b ltac:(lia)) as Hrho.
  assert (0 <= h) as Hh0 by (apply Z.div_pos; lia).
  assert (h < 2 ^ 52) as Hhlt.
  { apply Z.div_lt_upper_bound; [lia|]. nia. }
  pose proof (Z.mul_div_le (a * 2 ^ L0) b ltac:(lia)) as Hbq.
  fold q in Hbq.
  assert (h * 2 ^ L0 <= Zpos qp) as Hqlo.
  { rewrite <- Eq. unfold q. apply Z.div_le_lower_bound; [lia|].
    rewrite Z.mul_assoc. apply Z.mul_le_mono_nonneg_r; lia. }
  assert (Zpos qp + 2 ^ n < (h + 1) * 2 ^ L0) as Hqhi.
  { assert (b * 2 ^ n < 2 ^ L0) as Hgap.
    { assert (2 ^ dg b * 2 ^ n <= 2 ^ L0).
      { rewrite <- Z.pow_add_r by lia.
        apply Z.pow_le_mono_r; unfold L0; lia. }
      assert (b * 2 ^ n < 2 ^ dg b * 2 ^ n)
        by (apply Z.mul_lt_mono_pos_r; lia).
      lia. }
    assert ((a + 1) * 2 ^ L0 <= b * (h + 1) * 2 ^ L0) as Hup
      by (apply Z.mul_le_mono_nonneg_r; lia).
    apply (Z.mul_lt_mono_pos_l b); [lia|].
    rewrite Eq in Hbq. lia. }
  assert (h * 2 ^ L <= m1 < (h + 1) * 2 ^ L) as Hm1b.
  { split.
    - apply Z.le_trans with (Zpos qp / 2 ^ n); [|lia].
      apply Z.div_le_lower_bound; [lia|].
      replace (2 ^ n * (h * 2 ^ L)) with (h * 2 ^ L0)
        by (rewrite HL0; ring).
      exact Hqlo.
    - assert (Zpos qp / 2 ^ n < (h + 1) * 2 ^ L - 1); [|lia].
      apply Z.div_lt_upper_bound; [lia|].
      replace (2 ^ n * ((h + 1) * 2 ^ L - 1))
        with ((h + 1) * 2 ^ L0 - 2 ^ n) by (rewrite HL0; ring).
      lia. }
  assert (m1 / 2 ^ L = h) as Hfloor.
  { symmetry. apply Z.div_unique with (r := m1 - h * 2 ^ L); lia. }
  assert (2 ^ 51 <= Zpos qp / 2 ^ n) as Hm1pos.
  { apply Z.div_le_lower_bound; [lia|].
    assert (2 ^ n <= 2 ^ 1) by (apply Z.pow_le_mono_r; lia).
    change (2 ^ 1) with 2 in *. lia. }
  assert ((m1 =? 0) = false) as -> by (apply Z.eqb_neq; lia).
  replace (- L0 + n) with (- L) by (unfold L; lia).
  destruct (Z.ltb_spec m1 (2 ^ 53)) as [Hlt|Hge].
  - unfold floor.
    assert ((0 <=? - L) = false) as -> by (apply Z.leb_gt; lia).
    unfold floorZ.
    assert ((0 <=? - L) = false) as -> by (apply Z.leb_gt; lia).
    cbn [cond_Zopp]. rewrite Z2Pos.id by lia. rewrite Z.opp_involutive.
    rewrite Hfloor. destruct (Z.eqb_spec h 0) as [->|]; reflexivity.
  - assert (m1 = 2 ^ 53) as Hm1eq by lia.
    assert (2 <= L) as HL2.
    { destruct (Z_le_gt_dec 2 L); [assumption|].
      assert (L = 1) as HL1 by lia. rewrite HL1 in *.
      change (2 ^ 1) with 2 in *. lia. }
    unfold floor.
    assert ((0 <=? - L + 1) = false) as -> by (apply Z.leb_gt; lia).
    unfold floorZ.
    assert ((0 <=? - L + 1) = false) as -> by (apply Z.leb_gt; lia).
    cbn [cond_Zopp]. rewrite Hm1eq.
    change (Zpos (Z.to_pos (2 ^ 53 / 2))) with (2 ^ 52).
    replace (- (- L + 1)) with (L - 1) by lia.
    assert (2 ^ 52 / 2 ^ (L - 1) = h) as ->.
    { rewrite <- Hfloor, Hm1eq.
      assert (2 ^ L = 2 ^ (L - 1) * 2) as ->.
      { replace L with (Z.succ (L - 1)) at 1 by lia.
        rewrite Z.pow_succ_r by lia. lia. }
      change (2 ^ 53) with (2 ^ 52 * 2).
      rewrite Z.div_mul_cancel_r; [reflexivity| |lia].
      apply Z.pow_nonzero; lia. }
    destruct (Z.eqb_spec h 0) as [->|]; reflexivity.
Qed.

(** *** The milliseconds of [formatTime] *)

Lemma valid_finite (s : bool) (m : positive) (e : Z) :
  valid (S754_finite s m e) = true ->
  Zpos m < 2 ^ 53 /\ -1074 <= e <= 971
  /\ (e = -1074 \/ 2 ^ 52 <= Zpos m).
Proof.
  unfold valid, valid_binary, bounded, canonical_mantissa.
  rewrite andb_true_iff, Z.eqb_eq, Z.leb_le, fexp_binary64.
  intros [Hc He]. unfold emax, prec in He.
  destruct (digits2_pos_bounds m) as [Hlo Hhi].
  assert (Zpos (digits2_pos m) <= 53) as Hd by lia.
  split; [|split; [lia|]].
  - eapply Z.lt_le_trans; [exact Hhi|]. apply Z.pow_le_mono_r; lia.
  - destruct (Z.eq_dec e (-1074)); [left; assumption | right].
    assert (Zpos (digits2_pos m) = 53) as Hd53 by lia.
    rewrite Hd53 in Hlo. exact Hlo.
Qed.

Lemma of_Z_1 : of_Z 1 = S754_finite false 4503599627370496 (-52).
Proof. reflexivity. Qed.

Lemma of_Z_1000 : of_Z 1000 = S754_finite false 8796093022208000 (-43).
Proof. reflexivity. Qed.

(** The fractional part of a positive number: zero, or a number below
    one. *)
Lemma rem_one (m : positive) (e : Z) :
  valid (S754_finite false m e) = true ->
  rem (S754_finite false m e) (of_Z 1) = S754_zero false
  \/ exists mz ez,
       rem (S754_finite false m e) (of_Z 1) = S754_finite false mz ez
       /\ Zpos mz < 2 ^ 53 /\ -1074 <= ez <= -53.
Proof.
  intros Hv. destruct (valid_finite _ _ _ Hv) as (Hm & He & _).
  rewrite of_Z_1. unfold rem.
  set (e0 := Z.min e (-52)).
  set (X := Zpos m * 2 ^ (e - e0)).
  set (Y := 4503599627370496 * 2 ^ (-52 - e0)).
  assert (0 < 2 ^ (- e0)) as Hp by (apply Z.pow_pos_nonneg; unfold e0; lia).
  assert (Y = 2 ^ (- e0)) as HY.
  { unfold Y. change 4503599627370496 with (2 ^ 52).
    rewrite <- Z.pow_add_r by (unfold e0; lia). f_equal. lia. }
  assert (0 < X) as HX.
  { unfold X. apply Z.mul_pos_pos; [lia|].
    apply Z.pow_pos_nonneg; unfold e0; lia. }
  pose proof (Z.mod_pos_bound X Y ltac:(lia)) as Hr.
  pose proof (Z.mod_le X Y ltac:(lia) ltac:(lia)) as HrX.
  destruct (Z.eqb_spec (X mod Y) 0) as [Hz|Hnz]; [left; reflexivity|].
  right. cbn [cond_Zopp]. unfold binary_normalize.
  destruct (X mod Y) as [|rp|rp] eqn:Er; try lia.
  assert (Zpos rp < 2 ^ 53) as Hrp53.
  { destruct (Z_le_gt_dec e (-52)).
    - assert (X = Zpos m) as HXm.
      { unfold X, e0. rewrite Z.min_l by lia. rewrite Z.sub_diag. simpl. lia. }
      lia.
    - assert (Y = 2 ^ 52) as HY52.
      { rewrite HY. unfold e0. rewrite Z.min_r by lia. reflexivity. }
      change (2 ^ 53) with (2 * 2 ^ 52). lia. }
  pose proof (digits2_pos_le rp 53 Hrp53) as Hd53.
  pose proof (digits2_pos_le rp (- e0) ltac:(lia)) as Hd0.
  pose proof (binary_round_exact rp e0) as H.
  cbv zeta in H. rewrite fexp_binary64 in H.
  set (ec := Z.max (Zpos (digits2_pos rp) + e0 - 53) (-1074)) in *.
  assert (ec <= e0) as Hec by (unfold ec, e0 in *; lia).
  rewrite H by (unfold emax, prec; lia).
  eexists _, ec. split; [reflexivity|].
  assert (0 < 2 ^ (e0 - ec)) as Hp2 by (apply Z.pow_pos_nonneg; lia).
  split; [|unfold ec; lia].
  rewrite Z2Pos.id by (apply Z.mul_pos_pos; lia).
  destruct (digits2_pos_bounds rp) as [_ Hhi].
  apply Z.lt_le_trans with (2 ^ Zpos (digits2_pos rp) * 2 ^ (e0 - ec)).
  - apply Z.mul_lt_mono_pos_r; lia.
  - rewrite <- Z.pow_add_r by lia. apply Z.pow_le_mono_r; unfold ec; lia.
Qed.

(** A fraction below one, times 1000 and rounded down, is an integer
    from 0 to 999. *)
Lemma floor_mul_1000 (mz : positive) (ez : Z) :
  Zpos mz < 2 ^ 53 -> -1074 <= ez <= -53 ->
  exists k,
    0 <= k <= 999
    /\ floor (mul (S754_finite false mz ez) (of_Z 1000)) = of_Z k.
Proof.
  intros Hmz Hez. rewrite of_Z_1000. unfold mul, SFmul. cbn [xorb].
  set (K := 8796093022208000%positive).
  pose proof (binary_round_aux_spec (mz * K) (ez + -43) loc_Exact) as Hspec.
  cbv zeta in Hspec. rewrite fexp_binary64 in Hspec.
  set (E := ez + -43) in *.
  set (n := Z.max (Z.max (Zpos (digits2_pos (mz * K)) + E - 53) (-1074) - E) 0)
    in *.
  assert (Zpos (mz * K) < 2 ^ 106) as HM.
  { rewrite Pos2Z.inj_mul. change (2 ^ 106) with (2 ^ 53 * 2 ^ 53).
    assert (Zpos K < 2 ^ 53) by (unfold K; reflexivity).
    apply Z.mul_lt_mono_nonneg; lia. }
  pose proof (digits2_pos_le _ 106 HM) as Hd.
  assert (0 <= n <= 53) as Hn by (unfold n, E; lia).
  destruct Hspec as (m1 & Hm1 & Hm1top & Hex & ->);
    [unfold emax, prec, E; lia|].
  specialize (Hex eq_refl).
  assert (0 < 2 ^ n) as Hpn by (apply Z.pow_pos_nonneg; lia).
  assert (0 <= Zpos (mz * K) / 2 ^ n) as Hq0 by (apply div_pow2_nonneg; lia).
  set (L := - (E + n)).
  assert (43 <= L) as HL by (unfold L, E; lia).
  assert (0 < 2 ^ L) as HpL by (apply Z.pow_pos_nonneg; lia).
  assert (m1 < 1000 * 2 ^ L) as Hbound.
  { assert (m1 * 2 ^ n < 1000 * 2 ^ L * 2 ^ n) as Hlt;
      [|apply (Z.mul_lt_mono_pos_r (2 ^ n)); assumption].
    assert (2 ^ n / 2 <= 2 ^ 52) as Hhalf.
    { apply Z.div_le_upper_bound; [lia|].
      change (2 * 2 ^ 52) with (2 ^ 53). apply Z.pow_le_mono_r; lia. }
    assert (Zpos (mz * K) <= (2 ^ 53 - 1) * Zpos K) as HMle.
    { rewrite Pos2Z.inj_mul. apply Z.mul_le_mono_nonneg_r; lia. }
    assert ((2 ^ 53 - 1) * Zpos K + 2 ^ 52 < 1000 * 2 ^ 96) as Hc
      by (unfold K; reflexivity).
    assert (1000 * 2 ^ 96 <= 1000 * 2 ^ L * 2 ^ n) as Hpow.
    { rewrite <- Z.mul_assoc, <- Z.pow_add_r by lia.
      apply Z.mul_le_mono_nonneg_l; [lia|].
      apply Z.pow_le_mono_r; unfold L, E; lia. }
    lia. }
  set (k := m1 / 2 ^ L).
  assert (0 <= k <= 999) as Hk.
  { unfold k. split.
    - apply Z.div_pos; lia.
    - assert (m1 / 2 ^ L < 1000); [|lia].
      apply Z.div_lt_upper_bound; lia. }
  exists k. split; [exact Hk|].
  destruct (Z.eqb_spec m1 0) as [Hz|Hnz].
  { assert (k = 0) as -> by (unfold k; rewrite Hz; apply Z.div_0_l; lia).
    reflexivity. }
  replace (E + n) with (- L) by (unfold L; lia).
  destruct (Z.ltb_spec m1 (2 ^ 53)) as [Hlt|Hge].
  - unfold floor.
    assert ((0 <=? - L) = false) as -> by (apply Z.leb_gt; lia).
    unfold floorZ.
    assert ((0 <=? - L) = false) as -> by (apply Z.leb_gt; lia).
    cbn [cond_Zopp]. rewrite Z2Pos.id by lia. rewrite Z.opp_involutive.
    fold k. destruct (Z.eqb_spec k 0) as [->|]; reflexivity.
  - assert (m1 = 2 ^ 53) as Hm1eq by lia.
    unfold floor.
    assert ((0 <=? - L + 1) = false) as -> by (apply Z.leb_gt; lia).
    unfold floorZ.
    assert ((0 <=? - L + 1) = false) as -> by (apply Z.leb_gt; lia).
    cbn [cond_Zopp]. rewrite Hm1eq.
    change (Zpos (Z.to_pos (2 ^ 53 / 2))) with (2 ^ 52).
    replace (- (- L + 1)) with (L - 1) by lia.
    assert (2 ^ 52 / 2 ^ (L - 1) = k) as ->.
    { unfold k. rewrite Hm1eq.
      assert (2 ^ L = 2 ^ (L - 1) * 2) as ->.
      { replace L with (Z.succ (L - 1)) at 1 by lia.
        rewrite Z.pow_succ_r by lia. lia. }
      change (2 ^ 53) with (2 ^ 52 * 2).
      rewrite Z.div_mul_cancel_r; [reflexivity| |lia].
      apply Z.pow_nonzero; lia. }
    destruct (Z.eqb_spec k 0) as [->|]; reflexivity.
Qed.

Lemma lt_finite (m m' : positive) (e e' : Z) :
  lt (S754_finite false m e) (S754_finite false m' e') = true ->
  e < e' \/ e = e' /\ Zpos m < Zpos m'.
Proof.
  unfold lt, SFltb, SFcompare.
  change (Pos.compare_cont Eq m m') with (Pos.compare m m').
  destruct (Z.compare_spec e e') as [Heq|Hl|Hg]; try discriminate.
  - destruct (Pos.compare_spec m m'); try discriminate.
    intros _. right. split; [assumption | lia].
  - intros _. left. assumption.
Qed.

Lemma of_Z_360000 :
  of_Z 360000 = S754_finite false 6184752906240000 (-34).
Proof. reflexivity. Qed.

(** The whole seconds of a positive number below 360000. *)
Lemma floor_below_360000 (m : positive) (e : Z) :
  valid (S754_finite false m e) = true ->
  lt (S754_finite false m e) (of_Z 360000) = true ->
  exists total,
    0 <= total < 360000 /\ floor (S754_finite false m e) = of_Z total.
Proof.
  intros Hv Hlt. destruct (valid_finite _ _ _ Hv) as (Hm & He & _).
  rewrite of_Z_360000 in Hlt. apply lt_finite in Hlt.
  assert (e < -34 \/ e = -34 /\ Zpos m < 6184752906240000) as Hcase
    by exact Hlt.
  clear Hlt.
  set (total := Zpos m / 2 ^ (- e)).
  assert (0 < 2 ^ (- e)) as Hp by (apply Z.pow_pos_nonneg; lia).
  assert (0 <= total < 360000) as Ht.
  { unfold total. split; [apply Z.div_pos; lia|].
    apply Z.div_lt_upper_bound; [lia|].
    destruct Hcase as [Hl|[-> Hmlt]].
    - assert (2 ^ 35 <= 2 ^ (- e)) by (apply Z.pow_le_mono_r; lia).
      assert (2 ^ 53 <= 2 ^ 35 * 360000) by (vm_compute; discriminate).
      nia.
    - change (2 ^ (- -34) * 360000) with 6184752906240000. lia. }
  exists total. split; [exact Ht|].
  unfold floor, floorZ.
  assert ((0 <=? e) = false) as -> by (apply Z.leb_gt; lia).
  cbn [cond_Zopp]. fold total.
  destruct (Z.eqb_spec total 0) as [->|]; reflexivity.
Qed.

Lemma all_from_spec (k : nat) (n : Z) (f : Z -> bool) :
  Props.all_from k n f = true ->
  forall i, n <= i < n + Z.of_nat k -> f i = true.
Proof.
  revert n. induction k as [|k IH]; intros n H i Hi; [lia|].
  simpl in H. destruct (f n) eqn:Hn; [|discriminate].
  destruct (Z.eq_dec i n) as [->|Hne]; [assumption|].
  apply (IH (n + 1) H). lia.
Qed.
End Rounding.

(** ** [formatTime] (C10) *)

Section FormatTime.
Import JSNumber JS Overlay Props.

Lemma pads_checked : all_from 1000 0 pads_exact = true.
Proof. vm_compute. reflexivity. Qed.

Lemma three_of_Z (k : Z) :
  0 <= k <= 999 -> three (of_Z k) = digits3 k.
Proof.
  intros Hk.
  pose proof (all_from_spec 1000 0 pads_exact pads_checked k ltac:(lia)) as H.
  unfold pads_exact in H. apply andb_true_iff in H. destruct H as [H _].
  apply String.eqb_eq. exact H.
Qed.

Lemma two_of_Z (k : Z) :
  0 <= k < 100 -> two (of_Z k) = digits2 k.
Proof.
  intros Hk.
  pose proof (all_from_spec 1000 0 pads_exact pads_checked k ltac:(lia)) as H.
  unfold pads_exact in H. apply andb_true_iff in H. destruct H as [_ H].
  apply orb_true_iff in H. destruct H as [H|H].
  - apply Z.leb_le in H. lia.
  - apply String.eqb_eq. exact H.
Qed.

Lemma is_digit_digit (n : Z) : is_digit (digit n) = true.
Proof.
  unfold digit. pose proof (Z.mod_pos_bound n 10 ltac:(lia)) as H.
  assert (n mod 10 = 0 \/ n mod 10 = 1 \/ n mod 10 = 2 \/ n mod 10 = 3
          \/ n mod 10 = 4 \/ n mod 10 = 5 \/ n mod 10 = 6 \/ n mod 10 = 7
          \/ n mod 10 = 8 \/ n mod 10 = 9) as Hc by lia.
  repeat (destruct Hc as [-> | Hc]; [reflexivity|]). rewrite Hc. reflexivity.
Qed.

(** Two digits, a colon, two digits, a colon, two digits, a comma and
    three digits have the shape [HH:MM:SS,mmm]. *)
Lemma hms_shape_digits (h m sec ms : Z) :
  hms_shape (digits2 h ++ ":" ++ digits2 m ++ ":" ++ digits2 sec ++ ","
               ++ digits3 ms) = true.
Proof.
  unfold digits3, digits2, hms_shape. cbn [append list_ascii_of_string forallb].
  rewrite !is_digit_digit. reflexivity.
Qed.

Lemma num_eq_of_Z (k : Z) : 0 <= k < 2 ^ 53 -> num_eq (of_Z k) (of_Z k).
Proof.
  intros Hk. apply compare_refl.
  destruct (Z.eq_dec k 0) as [->|]; [reflexivity|].
  rewrite of_Z_dg by lia. reflexivity.
Qed.

Context {rt : Runtime}.

(** What [formatTime] computes from the whole seconds and the
    milliseconds. *)
Lemma formatTime_parts (s : number) (total ms : Z) :
  floor s = of_Z total -> 0 <= total < 360000 ->
  floor (mul (rem s (of_Z 1)) (of_Z 1000)) = of_Z ms -> 0 <= ms <= 999 ->
  formatTime (Val (JNum s))
  = Ok (digits2 (total / 3600) ++ ":" ++ digits2 (total mod 3600 / 60) ++ ":"
          ++ digits2 (total mod 60) ++ "," ++ digits3 ms).
Proof.
  intros Htotal Ht Hms Hm.
  unfold formatTime. cbn [ToNumber bind].
  rewrite Hms, Htotal.
  assert (360000 < 2 ^ 52) as Hbig by reflexivity.
  pose proof (Z.mod_pos_bound total 3600 ltac:(lia)) as Hr.
  pose proof (Z.mod_pos_bound total 60 ltac:(lia)) as Hs.
  rewrite !rem_of_Z by (split; try reflexivity; lia).
  rewrite !floor_div_of_Z by (split; try reflexivity; lia).
  assert (0 <= total / 3600 < 100) as Hh.
  { split; [apply Z.div_pos; lia|]. apply Z.div_lt_upper_bound; lia. }
  assert (0 <= total mod 3600 / 60 < 60) as Hmin.
  { split; [apply Z.div_pos; lia|]. apply Z.div_lt_upper_bound; lia. }
  rewrite !two_of_Z by lia. rewrite three_of_Z by lia.
  reflexivity.
Qed.

(** C10 (amended). For every number of seconds [s] from 0 up to, but
    not including, 360000 (one hundred hours), [formatTime s] is the
    string [HH:MM:SS,mmm]: with [total] the whole seconds
    [Math.floor(s)], the hours are [total / 3600] on two digits, the
    minutes [(total mod 3600) / 60] and the seconds [total mod 60] are in
    the range 0 to 59 on two digits, and the milliseconds
    [Math.floor((s % 1) * 1000)] are in the range 0 to 999 on three
    digits. *)
Theorem formatTime_below_100_hours (s : number) :
  valid s = true -> le (of_Z 0) s = true -> lt s (of_Z 360000) = true ->
  exists total ms,
    num_eq (floor s) (of_Z total)
    /\ num_eq (floor (mul (rem s (of_Z 1)) (of_Z 1000))) (of_Z ms)
    /\ 0 <= total / 3600 < 100
    /\ 0 <= total mod 3600 / 60 <= 59
    /\ 0 <= total mod 60 <= 59
    /\ 0 <= ms <= 999
    /\ formatTime (Val (JNum s))
       = Ok (digits2 (total / 3600) ++ ":" ++ digits2 (total mod 3600 / 60)
               ++ ":" ++ digits2 (total mod 60) ++ "," ++ digits3 ms)
    /\ forall out, formatTime (Val (JNum s)) = Ok out -> hms_shape out = true.
Proof.
  intros Hv Hge Hlt.
  assert (forall total ms,
             0 <= total < 360000 -> 0 <= ms <= 999 ->
             num_eq (floor s) (of_Z total) ->
             num_eq (floor (mul (rem s (of_Z 1)) (of_Z 1000))) (of_Z ms) ->
             formatTime (Val (JNum s))
             = Ok (digits2 (total / 3600) ++ ":"
                     ++ digits2 (total mod 3600 / 60) ++ ":"
                     ++ digits2 (total mod 60) ++ "," ++ digits3 ms) ->
             exists total ms,
               num_eq (floor s) (of_Z total)
               /\ num_eq (floor (mul (rem s (of_Z 1)) (of_Z 1000))) (of_Z ms)
               /\ 0 <= total / 3600 < 100
               /\ 0 <= total mod 3600 / 60 <= 59
               /\ 0 <= total mod 60 <= 59
               /\ 0 <= ms <= 999
               /\ formatTime (Val (JNum s))
                  = Ok (digits2 (total / 3600) ++ ":"
                          ++ digits2 (total mod 3600 / 60) ++ ":"
                          ++ digits2 (total mod 60) ++ "," ++ digits3 ms)
               /\ forall out,
                   formatTime (Val (JNum s)) = Ok out -> hms_shape out = true)
    as Hpack.
  { intros total ms Ht Hm Hnt Hnm Hfmt. exists total, ms.
    pose proof (Z.mod_pos_bound total 3600 ltac:(lia)) as Hr.
    pose proof (Z.mod_pos_bound total 60 ltac:(lia)) as Hs.
    split; [exact Hnt|]. split; [exact Hnm|].
    split; [split; [apply Z.div_pos; lia | apply Z.div_lt_upper_bound; lia]|].
    split.
    { split; [apply Z.div_pos; lia|].
      assert (total mod 3600 / 60 < 60); [|lia].
      apply Z.div_lt_upper_bound; lia. }
    split; [lia|]. split; [exact Hm|]. split; [exact Hfmt|].
    intros out Hout. rewrite Hfmt in Hout. inversion Hout; subst.
    apply hms_shape_digits. }
  destruct s as [b | b | | b m e].
  - (* zero, of either sign *)
    apply (Hpack 0 0); try lia; destruct b; reflexivity.
  - destruct b; vm_compute in Hge, Hlt; discriminate.
  - vm_compute in Hge. discriminate.
  - destruct b; [vm_compute in Hge; discriminate|].
    destruct (floor_below_360000 m e Hv Hlt) as (total & Ht & Htotal).
    assert (exists ms, 0 <= ms <= 999
                       /\ floor (mul (rem (S754_finite false m e) (of_Z 1))
                                   (of_Z 1000)) = of_Z ms)
      as (ms & Hm & Hms).
    { destruct (rem_one m e Hv) as [Hz | (mz & ez & Hr & Hmz & Hez)].
      - rewrite Hz. exists 0. split; [lia | reflexivity].
      - rewrite Hr. apply floor_mul_1000; assumption. }
    apply (Hpack total ms Ht Hm).
    + rewrite Htotal. apply num_eq_of_Z.
      assert (360000 < 2 ^ 53) by reflexivity. lia.
    + rewrite Hms. apply num_eq_of_Z.
      assert (999 < 2 ^ 53) by reflexivity. lia.
    + apply formatTime_parts; assumption.
Qed.
End FormatTime.

(** C10, the claim as worded: at one hundred hours the hours field takes
    three digits, so the result is not of the shape [HH:MM:SS,mmm]. *)
Lemma formatTime_100_hours_not_hms :
  ~ (forall (rt : JS.Runtime) (s : JSNumber.number),
        JSNumber.valid s = true ->
        JSNumber.le (JSNumber.of_Z 0) s = true ->
        exists out,
          Overlay.formatTime (JS.Val (JS.JNum s)) = JS.Ok out
          /\ Props.hms_shape out = true).
Proof.
  intros H.
  destruct (H Props.sample_runtime (JSNumber.of_Z 360000) eq_refl eq_refl)
    as (out & Hout & Hshape).
  vm_compute in Hout. inversion Hout; subst. vm_compute in Hshape.
  discriminate.
Qed.

Lemma formatTime_below_100_hours_witness :
  let s := JSNumber.div (JSNumber.of_Z 3661001) (JSNumber.of_Z 1000) in
  JSNumber.valid s = true
  /\ JSNumber.le (JSNumber.of_Z 0) s = true
  /\ JSNumber.lt s (JSNumber.of_Z 360000) = true
  /\ @Overlay.formatTime Props.sample_runtime (JS.Val (JS.JNum s))
     = JS.Ok "01:01:01,001"
  /\ (forall out,
        @Overlay.formatTime Props.sample_runtime (JS.Val (JS.JNum s)) = JS.Ok out ->
        Props.hms_shape out = true).
Proof.
  intros s.
  destruct (@formatTime_below_100_hours Props.sample_runtime s
              eq_refl eq_refl eq_refl)
    as (total & ms & _ & _ & _ & _ & _ & _ & _ & Hshape).
  split; [vm_compute; reflexivity|].
  split; [vm_compute; reflexivity|].
  split; [vm_compute; reflexivity|].
  split; [vm_compute; reflexivity|].
  exact Hshape.
Defined.

(** ** Cues from the response to the overlay (C1) *)

Section StoredCues.
Import JSNumber JS Web Overlay Props.
Context {rt : Runtime}.

Lemma nth_error_replace_nth {A} (i : nat) (x : option A) (l : list A) (a : A) :
  nth_error l i = Some a ->
  nth_error (replace_nth i x l) i
  = match x with Some b => Some b | None => nth_error l (S i) end.
Proof.
  intros H. unfold replace_nth.
  assert (i < List.length l)%nat as Hi by (apply nth_error_Some; congruence).
  assert (List.length (firstn i l) = i) as Hlen
    by (rewrite length_firstn; lia).
  rewrite nth_error_app2 by lia. rewrite Hlen, Nat.sub_diag.
  destruct x as [b|]; cbn [app]; [reflexivity|].
  rewrite nth_error_skipn. f_equal. lia.
Qed.

(** A response carries a cues array exactly when it is an object whose
    own [cues] property is an array. *)
Lemma response_cues_spec (data : json) (items : list json) :
  response_cues data = Some items <->
  exists fields, data = JObj fields /\ lookup "cues" fields = Some (JArr items).
Proof.
  unfold response_cues. split.
  - destruct data as [|b|x|s|l|fields]; simpl; try discriminate.
    + destruct b; discriminate.
    + destruct (JSNumber.truthy x); discriminate.
    + destruct (negb (s =? "")%string); discriminate.
    + destruct (lookup "cues" fields) as [[| | | |l|]|] eqn:E; try discriminate.
      intros H. inversion H; subst. exists fields. auto.
  - intros (fields & -> & H). simpl. rewrite H. reflexivity.
Qed.




End StoredCues.


(** ** Requests (C2), presence checks (C3) and backend errors (C4) *)

Section Requests.
Import JSNumber JS Web Props.

Ltac resume_cases H :=
  repeat match type of H with
    | context [if ?c then _ else _] => destruct c
    | context [match Overlay.response_cues ?d with _ => _ end] =>
        destruct (Overlay.response_cues d)
    end;
  inversion H; subst; clear H.

Lemma overlay_resume_no_request t o s next s' effects :
  Overlay.resume t o s = Some (next, s', effects) -> requests effects = [].
Proof.
  intros H. unfold Overlay.resume in H.
  destruct t; destruct o; try discriminate; resume_cases H; reflexivity.
Qed.

Lemma upload_resume_no_effect t o s next s' effects :
  Upload.resume t o s = Some (next, s', effects) -> effects = [].
Proof.
  intros H. unfold Upload.resume in H.
  destruct t; destruct o; try discriminate; resume_cases H; reflexivity.
Qed.

Lemma overlay_settle_no_request s i o s' effects :
  Overlay.step s (Overlay.Settle i o) = Some (s', effects) ->
  requests effects = [].
Proof.
  cbn [Overlay.step]. destruct (nth_error (Overlay.tasks s) i) as [t|]; [|discriminate].
  destruct (Overlay.resume t o s) as [[[next s1] eff]|] eqn:E; [|discriminate].
  intros H. inversion H; subst. eapply overlay_resume_no_request, E.
Qed.

Lemma upload_settle_no_effect envUrl s i o s' effects :
  Upload.step envUrl s (Upload.Settle i o) = Some (s', effects) ->
  effects = [].
Proof.
  cbn [Upload.step]. destruct (nth_error (Upload.tasks s) i) as [t|]; [|discriminate].
  destruct (Upload.may_settle s t o); [|discriminate].
  destruct (Upload.resume t o s) as [[[next s1] eff]|] eqn:E; [|discriminate].
  intros H. inversion H; subst. eapply upload_resume_no_effect, E.
Qed.

(** What the two calls of the overlay application send. *)
Lemma callRepositionAPI_request (s : Overlay.state) (r : request) :
  In r (requests (snd (Overlay.callRepositionAPI s))) ->
  exists video sub,
    Overlay.videoFile s = Some video /\ Overlay.subtitleFile s = Some sub
    /\ r = {| req_url := Overlay.backendBaseUrl s ++ "/reposition/subtitles";
              req_method := "POST";
              req_body := FormData [("video", FormFile video);
                                    ("subtitles_file", FormFile sub)];
              req_signal := None |}.
Proof.
  unfold Overlay.callRepositionAPI, Overlay.validateInputs.
  destruct (Overlay.videoFile s) as [video|] eqn:Ev; [|intros []].
  destruct (Overlay.subtitleFile s) as [sub|] eqn:Es; [|intros []].
  cbn [negb Overlay.backendBaseUrl Overlay.setError].
  destruct (Overlay.backendBaseUrl s =? "")%string; [intros []|].
  cbn [snd requests In Overlay.videoFile Overlay.subtitleFile
         Overlay.backendBaseUrl Overlay.setProgress Overlay.setStatus
         Overlay.setIsProcessing Overlay.setError].
  rewrite Ev, Es. intros [<-|[]]. exists video, sub. auto.
Qed.

Lemma downloadRepositionedSRT_request (s : Overlay.state) (r : request) :
  In r (requests (snd (Overlay.downloadRepositionedSRT s))) ->
  exists video sub,
    Overlay.videoFile s = Some video /\ Overlay.subtitleFile s = Some sub
    /\ r = {| req_url := Overlay.backendBaseUrl s
                         ++ "/reposition/subtitles/download";
              req_method := "POST";
              req_body :=
                FormData [("video", FormFile video);
                          ("subtitles_file", FormFile sub);
                          ("include_position_hint",
                           FormString (if Overlay.includePositionHint s
                                       then "true" else "false"))];
              req_signal := None |}.
Proof.
  unfold Overlay.downloadRepositionedSRT, Overlay.validateInputs.
  destruct (Overlay.videoFile s) as [video|] eqn:Ev; [|intros []].
  destruct (Overlay.subtitleFile s) as [sub|] eqn:Es; [|intros []].
  cbn [negb Overlay.backendBaseUrl Overlay.setError].
  destruct (Overlay.backendBaseUrl s =? "")%string; [intros []|].
  cbn [snd requests In Overlay.videoFile Overlay.subtitleFile
         Overlay.backendBaseUrl Overlay.setProgress Overlay.setStatus
         Overlay.setIsProcessing Overlay.setError Overlay.includePositionHint].
  rewrite Ev, Es. intros [<-|[]]. exists video, sub. auto.
Qed.

(** What a submission of the upload application sends. *)
Lemma handleSubmit_request envUrl (s : Upload.state) (r : request) :
  In r (requests (snd (Upload.handleSubmit envUrl s))) ->
  exists video sub,
    Upload.videoFile s = Some video /\ Upload.subtitleFile s = Some sub
    /\ Upload.supported (file_name sub) = true
    /\ r = {| req_url := Upload.getBackendUrl envUrl ++ "/reposition";
              req_method := "POST";
              req_body := FormData [("video", FormFile video);
                                    ("subtitle", FormFile sub)];
              req_signal := Some (Upload.controllers s) |}.
Proof.
  unfold Upload.handleSubmit, Upload.validateInputs.
  cbn [Upload.videoFile Upload.subtitleFile Upload.setProgress
         Upload.resetResult Upload.setResultFilename Upload.setDownloadUrl].
  destruct (Upload.videoFile s) as [video|] eqn:Ev; [|intros []].
  destruct (Upload.subtitleFile s) as [sub|] eqn:Es; [|intros []].
  destruct (Upload.supported (file_name sub)) eqn:Esup; [|intros []].
  cbn [negb snd requests In].
  intros [<-|[]]. exists video, sub.
  cbn [Upload.videoFile Upload.subtitleFile Upload.controllers
         Upload.setStatus Upload.setMessage Upload.setResultFilename
         Upload.setProgress Upload.setDownloadUrl Upload.resetResult].
  rewrite ?Ev, ?Es. repeat split; try reflexivity; assumption.
Qed.

(** C2. Every request either application issues is a POST whose body is
    multipart form data carrying the selected video and subtitle files,
    addressed to [/reposition/subtitles] or
    [/reposition/subtitles/download] (overlay application) or to
    [/reposition] (upload application) on the backend. *)
Theorem every_request_is_a_multipart_post :
  (forall s e s' effects r,
      Overlay.step s e = Some (s', effects) -> In r (requests effects) ->
      req_method r = "POST"
      /\ (exists video sub,
             Overlay.videoFile s = Some video
             /\ Overlay.subtitleFile s = Some sub
             /\ carries_files (req_body r) video sub)
      /\ (req_url r = Overlay.backendBaseUrl s ++ "/reposition/subtitles"
          \/ req_url r = Overlay.backendBaseUrl s
                         ++ "/reposition/subtitles/download"))
  /\ (forall envUrl s e s' effects r,
         Upload.step envUrl s e = Some (s', effects) -> In r (requests effects) ->
         req_method r = "POST"
         /\ (exists video sub,
                Upload.videoFile s = Some video
                /\ Upload.subtitleFile s = Some sub
                /\ carries_files (req_body r) video sub)
         /\ req_url r = Upload.getBackendUrl envUrl ++ "/reposition").
Proof.
  split.
  - intros s e s' effects r Hstep Hin.
    destruct e; cbn [Overlay.step] in Hstep;
      try (inversion Hstep; subst; destruct Hin; fail).
    + destruct (Overlay.videoUrl s); inversion Hstep; subst; destruct Hin.
    + destruct (Overlay.actions_disabled s); [discriminate|].
      inversion Hstep as [Hcall].
      assert (effects = snd (Overlay.callRepositionAPI s)) as ->
        by (rewrite Hcall; reflexivity).
      destruct (callRepositionAPI_request s r Hin)
        as (video & sub & Hv & Hs & ->).
      cbn [req_method req_body req_url]. split; [reflexivity|].
      split; [|left; reflexivity].
      exists video, sub. repeat split; try assumption.
      exists "subtitles_file", []. reflexivity.
    + destruct (Overlay.actions_disabled s); [discriminate|].
      inversion Hstep as [Hcall].
      assert (effects = snd (Overlay.downloadRepositionedSRT s)) as ->
        by (rewrite Hcall; reflexivity).
      destruct (downloadRepositionedSRT_request s r Hin)
        as (video & sub & Hv & Hs & ->).
      cbn [req_method req_body req_url]. split; [reflexivity|].
      split; [|right; reflexivity].
      exists video, sub. repeat split; try assumption.
      eexists "subtitles_file", _. reflexivity.
    + rewrite (overlay_settle_no_request _ _ _ _ _ Hstep) in Hin.
      destruct Hin.
  - intros envUrl s e s' effects r Hstep Hin.
    destruct e; cbn [Upload.step] in Hstep;
      try (inversion Hstep; subst; destruct Hin; fail).
    + destruct (Upload.allowSubmit s); [|discriminate].
      inversion Hstep as [Hcall].
      assert (effects = snd (Upload.handleSubmit envUrl s)) as ->
        by (rewrite Hcall; reflexivity).
      destruct (handleSubmit_request envUrl s r Hin)
        as (video & sub & Hv & Hs & _ & ->).
      cbn [req_method req_body req_url]. split; [reflexivity|].
      split; [|reflexivity].
      exists video, sub. repeat split; try assumption.
      exists "subtitle", []. reflexivity.
    + destruct (Upload.uploading s); inversion Hstep; subst; destruct Hin.
    + destruct (Upload.downloadUrl s); inversion Hstep; subst; destruct Hin.
    + destruct (Upload.tick i s); inversion Hstep; subst; destruct Hin.
    + rewrite (upload_settle_no_effect envUrl s i o s' effects Hstep) in Hin.
      destruct Hin.
Qed.
End Requests.

Lemma every_request_is_a_multipart_post_witness :
  exists r,
    Upload.step None Props.upload_ready Upload.SubmitClick
    = Some (fst (Upload.handleSubmit None Props.upload_ready), [Web.Fetch r])
    /\ Web.req_method r = "POST"
    /\ Props.carries_files (Web.req_body r) Props.sample_video Props.sample_subtitles
    /\ Web.req_url r = "http://subtitle_backend:3001/reposition".
Proof.
  exists (hd {| Web.req_url := ""; Web.req_method := "";
                Web.req_body := Web.FormData []; Web.req_signal := None |}
            (Props.requests (snd (Upload.handleSubmit None Props.upload_ready)))).
  assert (Upload.step None Props.upload_ready Upload.SubmitClick
          = Some (fst (Upload.handleSubmit None Props.upload_ready),
                  [Web.Fetch
                     (hd {| Web.req_url := ""; Web.req_method := "";
                            Web.req_body := Web.FormData []; Web.req_signal := None |}
                        (Props.requests
                           (snd (Upload.handleSubmit None Props.upload_ready))))]))
    as Hstep by (vm_compute; reflexivity).
  split; [exact Hstep|].
  destruct (proj2 every_request_is_a_multipart_post None Props.upload_ready
              Upload.SubmitClick _ _ _ Hstep (or_introl eq_refl))
    as (Hmethod & (video & sub & Hv & Hs & Hfiles) & Hurl).
  split; [exact Hmethod|].
  split.
  - vm_compute in Hv, Hs. inversion Hv; inversion Hs; subst. exact Hfiles.
  - rewrite Hurl. vm_compute. reflexivity.
Defined.

(** ** Presence checks (C3) *)

Section PresenceChecks.
Import JSNumber JS Web Props.

(** C3. Each of the three actions (reposition and download in the
    overlay application, submit in the upload application) first checks
    that a video file and then that a subtitle file is selected. When one
    is missing, the action only sets the error message that names the
    missing input (and, in the upload application, the error status),
    issues no request and starts no call. A request is issued only when
    both files are selected. *)
Theorem missing_file_sets_error_and_sends_nothing :
  (forall s,
      (Overlay.videoFile s = None ->
       Overlay.callRepositionAPI s
       = (Overlay.setError "Please select a video file." s, [])
       /\ Overlay.downloadRepositionedSRT s
          = (Overlay.setError "Please select a video file." s, []))
      /\ (Overlay.videoFile s <> None -> Overlay.subtitleFile s = None ->
          Overlay.callRepositionAPI s
          = (Overlay.setError "Please select a subtitle file (SRT)." s, [])
          /\ Overlay.downloadRepositionedSRT s
             = (Overlay.setError "Please select a subtitle file (SRT)." s, []))
      /\ (requests (snd (Overlay.callRepositionAPI s)) <> []
          \/ requests (snd (Overlay.downloadRepositionedSRT s)) <> [] ->
          Overlay.videoFile s <> None /\ Overlay.subtitleFile s <> None))
  /\ (forall envUrl s,
         let s0 := Upload.setProgress (of_Z 0) (Upload.resetResult s) in
         (Upload.videoFile s = None ->
          Upload.handleSubmit envUrl s
          = (Upload.setMessage "Please select a video file."
               (Upload.setStatus "error" s0), []))
         /\ (Upload.videoFile s <> None -> Upload.subtitleFile s = None ->
             Upload.handleSubmit envUrl s
             = (Upload.setMessage
                  "Please select a subtitle file (.srt, .ass, .ssa, .vtt)."
                  (Upload.setStatus "error" s0), []))
         /\ (requests (snd (Upload.handleSubmit envUrl s)) <> [] ->
             Upload.videoFile s <> None /\ Upload.subtitleFile s <> None)).
Proof.
  split.
  - intros s. split; [|split].
    + intros Hv.
      unfold Overlay.callRepositionAPI, Overlay.downloadRepositionedSRT,
        Overlay.validateInputs.
      rewrite Hv. split; reflexivity.
    + intros Hv Hs.
      unfold Overlay.callRepositionAPI, Overlay.downloadRepositionedSRT,
        Overlay.validateInputs.
      destruct (Overlay.videoFile s); [|congruence].
      rewrite Hs. split; reflexivity.
    + intros H.
      assert (exists r, In r (requests (snd (Overlay.callRepositionAPI s)))
                        \/ In r (requests (snd (Overlay.downloadRepositionedSRT s))))
        as (r & Hr).
      { destruct H as [H|H].
        - destruct (requests (snd (Overlay.callRepositionAPI s))) as [|r l];
            [congruence|]. exists r. left. left. reflexivity.
        - destruct (requests (snd (Overlay.downloadRepositionedSRT s))) as [|r l];
            [congruence|]. exists r. right. left. reflexivity. }
      destruct Hr as [Hr|Hr].
      * destruct (callRepositionAPI_request s r Hr) as (v & f & -> & -> & _).
        split; discriminate.
      * destruct (downloadRepositionedSRT_request s r Hr) as (v & f & -> & -> & _).
        split; discriminate.
  - intros envUrl s s0. split; [|split].
    + intros Hv. unfold Upload.handleSubmit, Upload.validateInputs.
      cbn [Upload.videoFile Upload.setProgress Upload.resetResult
             Upload.setResultFilename Upload.setDownloadUrl].
      rewrite Hv. reflexivity.
    + intros Hv Hs. unfold Upload.handleSubmit, Upload.validateInputs.
      cbn [Upload.videoFile Upload.subtitleFile Upload.setProgress
             Upload.resetResult Upload.setResultFilename
             Upload.setDownloadUrl].
      destruct (Upload.videoFile s); [|congruence].
      rewrite Hs. reflexivity.
    + intros H.
      destruct (requests (snd (Upload.handleSubmit envUrl s))) as [|r l] eqn:E;
        [congruence|].
      destruct (handleSubmit_request envUrl s r) as (v & f & -> & -> & _).
      { rewrite E. left. reflexivity. }
      split; discriminate.
Qed.
End PresenceChecks.

Lemma missing_file_sets_error_and_sends_nothing_witness :
  Overlay.videoFile Overlay.initial = None
  /\ Overlay.callRepositionAPI Overlay.initial
     = (Overlay.setError "Please select a video file." Overlay.initial, [])
  /\ Upload.videoFile (Upload.setVideoFile (Some Props.sample_video) Upload.initial)
     <> None
  /\ Upload.subtitleFile (Upload.setVideoFile (Some Props.sample_video) Upload.initial)
     = None
  /\ Upload.message
       (fst (Upload.handleSubmit None
               (Upload.setVideoFile (Some Props.sample_video) Upload.initial)))
     = "Please select a subtitle file (.srt, .ass, .ssa, .vtt).".
Proof.
  split; [reflexivity|].
  split.
  { apply (proj1 (proj1 missing_file_sets_error_and_sends_nothing Overlay.initial)).
    reflexivity. }
  assert (Upload.videoFile
            (Upload.setVideoFile (Some Props.sample_video) Upload.initial) <> None)
    as Hv by discriminate.
  split; [exact Hv|]. split; [reflexivity|].
  rewrite (proj1 (proj2 (proj2 missing_file_sets_error_and_sends_nothing None
                           (Upload.setVideoFile (Some Props.sample_video)
                              Upload.initial))) Hv eq_refl).
  reflexivity.
Defined.

(** ** Backend errors (C4) *)

Section BackendErrors.
Import JSNumber JS Web Props.

Lemma append_empty_r (s : string) : (s ++ "")%string = s.
Proof. induction s as [|c s IH]; simpl; [reflexivity | rewrite IH; reflexivity]. Qed.

Lemma append_assoc' (a b c : string) :
  ((a ++ b) ++ c)%string = (a ++ b ++ c)%string.
Proof. induction a as [|x a IH]; simpl; [reflexivity | rewrite IH; reflexivity]. Qed.

Lemma occurs_at_end (prefix text : string) : occurs_in text (prefix ++ text).
Proof. exists prefix, "". rewrite append_empty_r. reflexivity. Qed.

Lemma occurs_in_self (text : string) : occurs_in text text.
Proof. exists "", "". simpl. rewrite append_empty_r. reflexivity. Qed.

Lemma empty_occurs (whole : string) : occurs_in "" whole.
Proof. exists whole, "". simpl. rewrite append_empty_r. reflexivity. Qed.

Lemma replace_nth_twice {A} (i : nat) (l : list A) (a b : A) :
  nth_error l i = Some a ->
  replace_nth i None (replace_nth i (Some b) l) = replace_nth i None l.
Proof.
  intros H. unfold replace_nth.
  assert (i < List.length l)%nat as Hi by (apply nth_error_Some; congruence).
  assert (List.length (firstn i l) = i) as Hlen
    by (rewrite length_firstn; lia).
  rewrite firstn_app, skipn_app, Hlen, Nat.sub_diag, firstn_firstn, Nat.min_id.
  rewrite (skipn_all2 (firstn i l)) by lia.
  replace (S i - i)%nat with 1%nat by lia.
  cbn [firstn skipn app]. rewrite app_nil_r. reflexivity.
Qed.

Lemma backend_error_message (status : Z) (text fallback : string) :
  message_or (Overlay.backend_error status text) fallback
  = ("Backend error (" ++ JSNumber.to_string (of_Z status) ++ "): " ++ text)%string.
Proof. reflexivity. Qed.

Lemma request_failed_message (status : Z) (text fallback : string) :
  message_or (Upload.request_failed status text) fallback
  = if (text =? "")%string
    then ("Request failed with status " ++ JSNumber.to_string (of_Z status))%string
    else text.
Proof.
  unfold message_or, Upload.request_failed. cbn [exn_message Error].
  destruct (text =? "")%string eqn:E; [reflexivity|]. rewrite E. reflexivity.
Qed.

(** C4. When the backend answers a request with a status outside 200 to
    299, the call reads the body text, puts it into the error string
    shown to the user, enters the error state and ends (it leaves the pending calls): the two steps
    issue no further request, and no step that settles a promise ever
    issues one, so each action sends exactly the one request of its
    click. *)
Theorem backend_error_is_shown_once :
  (forall s i resp text,
      nth_error (Overlay.tasks s) i = Some Overlay.RepositionFetch ->
      resp_ok resp = false ->
      exists s1 s2,
        Overlay.step s (Overlay.Settle i (Responded resp)) = Some (s1, [])
        /\ Overlay.step s1 (Overlay.Settle i (BodyText text)) = Some (s2, [])
        /\ Overlay.status s2 = "Error"
        /\ Overlay.error s2
           = ("Backend error (" ++ JSNumber.to_string (of_Z (resp_status resp))
                ++ "): " ++ text)%string
        /\ occurs_in text (Overlay.error s2)
        /\ Overlay.isProcessing s2 = false
        /\ Overlay.tasks s2 = replace_nth i None (Overlay.tasks s))
  /\ (forall s i sub resp text,
         nth_error (Overlay.tasks s) i = Some (Overlay.DownloadFetch sub) ->
         resp_ok resp = false ->
         exists s1 s2,
           Overlay.step s (Overlay.Settle i (Responded resp)) = Some (s1, [])
           /\ Overlay.step s1 (Overlay.Settle i (BodyText text)) = Some (s2, [])
           /\ Overlay.status s2 = "Error"
           /\ Overlay.error s2
              = ("Backend error ("
                   ++ JSNumber.to_string (of_Z (resp_status resp))
                   ++ "): " ++ text)%string
           /\ occurs_in text (Overlay.error s2)
           /\ Overlay.isProcessing s2 = false
           /\ Overlay.tasks s2 = replace_nth i None (Overlay.tasks s))
  /\ (forall envUrl s i ctrl resp text,
         nth_error (Upload.tasks s) i = Some (Upload.SubmitFetch ctrl) ->
         existsb (Nat.eqb ctrl) (Upload.aborted s) = false ->
         resp_ok resp = false ->
         exists s1 s2,
           Upload.step envUrl s (Upload.Settle i (Responded resp)) = Some (s1, [])
           /\ Upload.step envUrl s1 (Upload.Settle i (BodyText text))
              = Some (s2, [])
           /\ Upload.status s2 = "error"
           /\ Upload.message s2
              = (if (text =? "")%string
                 then ("Request failed with status "
                         ++ JSNumber.to_string (of_Z (resp_status resp)))%string
                 else text)
           /\ occurs_in text (Upload.message s2)
           /\ Upload.progress s2 = of_Z 0
           /\ Upload.tasks s2 = replace_nth i None (Upload.tasks s))
  /\ (forall s i o s' effects,
         Overlay.step s (Overlay.Settle i o) = Some (s', effects) ->
         requests effects = [])
  /\ (forall envUrl s i o s' effects,
         Upload.step envUrl s (Upload.Settle i o) = Some (s', effects) ->
         requests effects = [])
  /\ (forall s,
         (List.length (requests (snd (Overlay.callRepositionAPI s))) <= 1)%nat
         /\ (List.length (requests (snd (Overlay.downloadRepositionedSRT s)))
             <= 1)%nat)
  /\ (forall envUrl s,
         (List.length (requests (snd (Upload.handleSubmit envUrl s))) <= 1)%nat).
Proof.
  split; [|split; [|split; [|split; [|split; [|split]]]]].
  - intros s i resp text Htask Hok.
    eexists _, _. split; [|split].
    + cbn [Overlay.step]. rewrite Htask. cbn [Overlay.resume]. rewrite Hok.
      reflexivity.
    + cbn [Overlay.step Overlay.tasks Overlay.setTasks Overlay.setProgress
             Overlay.setStatus].
      rewrite (nth_error_replace_nth i _ _ _ Htask).
      cbn [Overlay.resume]. reflexivity.
    + cbn [Overlay.status Overlay.error Overlay.isProcessing Overlay.tasks
             Overlay.setTasks Overlay.failed Overlay.setIsProcessing
             Overlay.setStatus Overlay.setError Overlay.setProgress].
      rewrite backend_error_message.
      split; [reflexivity|]. split; [reflexivity|]. split.
      { rewrite <- !append_assoc'. apply occurs_at_end. }
      split; [reflexivity|].
      eapply replace_nth_twice, Htask.
  - intros s i sub resp text Htask Hok.
    eexists _, _. split; [|split].
    + cbn [Overlay.step]. rewrite Htask. cbn [Overlay.resume]. rewrite Hok.
      reflexivity.
    + cbn [Overlay.step Overlay.tasks Overlay.setTasks].
      rewrite (nth_error_replace_nth i _ _ _ Htask).
      cbn [Overlay.resume]. reflexivity.
    + cbn [Overlay.status Overlay.error Overlay.isProcessing Overlay.tasks
             Overlay.setTasks Overlay.failed Overlay.setIsProcessing
             Overlay.setStatus Overlay.setError Overlay.setProgress].
      rewrite backend_error_message.
      split; [reflexivity|]. split; [reflexivity|]. split.
      { rewrite <- !append_assoc'. apply occurs_at_end. }
      split; [reflexivity|].
      eapply replace_nth_twice, Htask.
  - intros envUrl s i ctrl resp text Htask Hab Hok.
    eexists _, _. split; [|split].
    + cbn [Upload.step]. rewrite Htask.
      unfold Upload.may_settle. cbn [Upload.task_ctrl]. rewrite Hab.
      cbn [negb Upload.resume]. rewrite Hok. reflexivity.
    + cbn [Upload.step Upload.tasks Upload.setTasks].
      rewrite (nth_error_replace_nth i _ _ _ Htask).
      unfold Upload.may_settle.
      cbn [Upload.task_ctrl Upload.aborted Upload.setTasks]. rewrite Hab.
      cbn [negb Upload.resume]. reflexivity.
    + unfold Upload.failed.
      assert ((exn_name (Upload.request_failed (resp_status resp) text)
               =? "AbortError")%string = false) as -> by reflexivity.
      cbn [Upload.status Upload.message Upload.progress Upload.tasks
             Upload.setTasks Upload.setAbortControllerRef Upload.setProgress
             Upload.setMessage Upload.setStatus].
      rewrite request_failed_message.
      split; [reflexivity|]. split; [reflexivity|]. split.
      { destruct (text =? "")%string eqn:E.
        - apply String.eqb_eq in E. subst. apply empty_occurs.
        - apply occurs_in_self. }
      split; [reflexivity|].
      eapply replace_nth_twice, Htask.
  - apply overlay_settle_no_request.
  - intros envUrl s i o s' effects H.
    rewrite (upload_settle_no_effect envUrl s i o s' effects H). reflexivity.
  - intros s. split.
    + unfold Overlay.callRepositionAPI.
      destruct (Overlay.validateInputs s) as [[|] s0]; cbn [negb];
        [destruct (Overlay.backendBaseUrl s0 =? "")%string|]; simpl; lia.
    + unfold Overlay.downloadRepositionedSRT.
      destruct (Overlay.validateInputs s) as [[|] s0]; cbn [negb];
        [destruct (Overlay.backendBaseUrl s0 =? "")%string|]; simpl; lia.
  - intros envUrl s. unfold Upload.handleSubmit.
    destruct (Upload.validateInputs
                (Upload.setProgress (of_Z 0) (Upload.resetResult s)))
      as [[|] s0]; cbn [negb]; simpl; lia.
Qed.
End BackendErrors.

Lemma backend_error_is_shown_once_witness :
  let s := Overlay.exec Props.overlay_ready [Overlay.RepositionClick] in
  let resp := {| Web.resp_status := 500 |} in
  nth_error (Overlay.tasks s) 0 = Some Overlay.RepositionFetch
  /\ Web.resp_ok resp = false
  /\ exists s1 s2,
      Overlay.step s (Overlay.Settle 0 (Web.Responded resp)) = Some (s1, [])
      /\ Overlay.step s1 (Overlay.Settle 0 (Web.BodyText "no cues")) = Some (s2, [])
      /\ Overlay.status s2 = "Error"
      /\ Overlay.error s2 = "Backend error (500): no cues"
      /\ Overlay.tasks s2 = [].
Proof.
  intros s resp.
  assert (nth_error (Overlay.tasks s) 0 = Some Overlay.RepositionFetch) as Htask
      by (vm_compute; reflexivity).
  assert (Web.resp_ok resp = false) as Hresp by (vm_compute; reflexivity).
  split; [exact Htask|]. split; [exact Hresp|].
  destruct (proj1 backend_error_is_shown_once s 0%nat resp "no cues" Htask Hresp)
    as (s1 & s2 & H1 & H2 & Hstatus & Herror & _ & _ & Htasks).
  exists s1, s2.
  split; [exact H1|]. split; [exact H2|]. split; [exact Hstatus|].
  split.
  - rewrite Herror. vm_compute. reflexivity.
  - rewrite Htasks. vm_compute. reflexivity.
Defined.

(** ** The status label (C5) *)

Section StatusLabel.
Import JSNumber JS Web Props.

Lemma overlay_reachable_exec (events : list Overlay.event) :
  forall s, Overlay.reachable s -> Overlay.reachable (Overlay.exec s events).
Proof.
  induction events as [|e rest IH]; intros s Hs; [exact Hs|].
  unfold Overlay.exec. cbn [fold_left]. apply IH.
  destruct (Overlay.step s e) as [[s' effects]|] eqn:E; [|exact Hs].
  eapply Overlay.reachable_step; eauto.
Qed.

Lemma upload_reachable_exec envUrl (events : list Upload.event) :
  forall s, Upload.reachable envUrl s ->
            Upload.reachable envUrl (Upload.exec envUrl s events).
Proof.
  induction events as [|e rest IH]; intros s Hs; [exact Hs|].
  unfold Upload.exec. cbn [fold_left]. apply IH.
  destruct (Upload.step envUrl s e) as [[s' effects]|] eqn:E; [|exact Hs].
  eapply Upload.reachable_step; eauto.
Qed.

Ltac status_cases H :=
  repeat match type of H with
    | context [if ?c then _ else _] => destruct c
    | context [match Overlay.response_cues ?d with _ => _ end] =>
        destruct (Overlay.response_cues d)
    end;
  inversion H; subst; clear H.

Lemma overlay_step_status s e s' effects :
  Overlay.step s e = Some (s', effects) ->
  Overlay.status s' = Overlay.status s
  \/ In (Overlay.status s') overlay_statuses.
Proof.
  intros H. destruct e; cbn [Overlay.step] in H.
  - inversion H; subst. left.
    unfold Overlay.mount.
    destruct envUrl as [u|]; [destruct (negb (u =? "")%string)|];
      try (destruct location as [[proto host]|]); reflexivity.
  - inversion H; subst. left. reflexivity.
  - inversion H; subst. left. reflexivity.
  - inversion H; subst. left. reflexivity.
  - inversion H; subst. right. cbn. auto.
  - inversion H; subst. left. reflexivity.
  - destruct (Overlay.videoUrl s) eqn:E; [|discriminate].
    inversion H; subst. left. unfold Overlay.onTimeUpdate. rewrite E.
    reflexivity.
  - destruct (Overlay.actions_disabled s); [discriminate|].
    inversion H as [Hc]. clear H. unfold Overlay.callRepositionAPI in Hc.
    unfold Overlay.validateInputs in Hc.
    destruct (Overlay.videoFile s); [destruct (Overlay.subtitleFile s)|];
      cbn [negb] in Hc;
      try (destruct (Overlay.backendBaseUrl _ =? "")%string);
      inversion Hc; subst; cbn; auto.
  - destruct (Overlay.actions_disabled s); [discriminate|].
    inversion H as [Hc]. clear H. unfold Overlay.downloadRepositionedSRT in Hc.
    unfold Overlay.validateInputs in Hc.
    destruct (Overlay.videoFile s); [destruct (Overlay.subtitleFile s)|];
      cbn [negb] in Hc;
      try (destruct (Overlay.backendBaseUrl _ =? "")%string);
      inversion Hc; subst; cbn; auto 10.
  - destruct (nth_error (Overlay.tasks s) i) as [t|]; [|discriminate].
    destruct (Overlay.resume t o s) as [[[next s1] eff]|] eqn:E; [|discriminate].
    inversion H; subst. clear H. unfold Overlay.resume in E.
    destruct t; destruct o; try discriminate; status_cases E; cbn; auto 10.
Qed.

Lemma overlay_status_invariant s :
  Overlay.reachable s -> In (Overlay.status s) overlay_statuses.
Proof.
  induction 1 as [|s e s' effects Hs IH Hstep]; [cbn; auto|].
  destruct (overlay_step_status s e s' effects Hstep) as [->|H]; assumption.
Qed.

Lemma upload_step_status envUrl s e s' effects :
  Upload.step envUrl s e = Some (s', effects) ->
  Upload.status s' = Upload.status s
  \/ In (Upload.status s') upload_statuses.
Proof.
  intros H. destruct e; cbn [Upload.step] in H.
  - inversion H; subst. left. reflexivity.
  - inversion H; subst. left. unfold Upload.onPickVideo.
    destruct (hd_error files); reflexivity.
  - inversion H; subst. unfold Upload.onPickSubtitle.
    destruct (hd_error files) as [file|]; [|left; reflexivity].
    destruct (negb (Upload.supported (file_name file)));
      [right; cbn; auto 10 | left; reflexivity].
  - destruct (Upload.allowSubmit s); [|discriminate].
    inversion H as [Hc]. clear H.
    unfold Upload.handleSubmit, Upload.validateInputs in Hc.
    cbn [Upload.videoFile Upload.subtitleFile Upload.setProgress
           Upload.resetResult Upload.setResultFilename Upload.setDownloadUrl]
      in Hc.
    destruct (Upload.videoFile s); [destruct (Upload.subtitleFile s) as [sub|]|];
      try (destruct (negb (Upload.supported (file_name sub))));
      cbn [negb] in Hc; inversion Hc; subst; right; cbn; auto 10.
  - destruct (Upload.uploading s); [|discriminate].
    inversion H; subst. left. unfold Upload.cancelUpload.
    destruct (Upload.abortControllerRef s); reflexivity.
  - destruct (Upload.downloadUrl s); [|discriminate].
    inversion H; subst. right. cbn. auto.
  - destruct (Upload.tick i s) as [s1|] eqn:E; [|discriminate].
    inversion H; subst. left. unfold Upload.tick in E.
    destruct (nth_error (Upload.timers s) i); [|discriminate].
    inversion E; subst. reflexivity.
  - destruct (nth_error (Upload.tasks s) i) as [t|]; [|discriminate].
    destruct (Upload.may_settle s t o); [|discriminate].
    destruct (Upload.resume t o s) as [[[next s1] eff]|] eqn:E; [|discriminate].
    inversion H; subst. clear H. unfold Upload.resume in E.
    destruct t; destruct o; try discriminate; status_cases E;
      try (left; reflexivity);
      try (right; cbn; auto 10; fail);
      right; unfold Upload.failed; cbn [Upload.status Upload.setTasks
        Upload.setAbortControllerRef Upload.setProgress];
      match goal with
      | |- context [if ?c then _ else _] => destruct c
      end; cbn; auto 10.
Qed.

Lemma upload_status_invariant envUrl s :
  Upload.reachable envUrl s -> In (Upload.status s) upload_statuses.
Proof.
  induction 1 as [|s e s' effects Hs IH Hstep]; [cbn; auto|].
  destruct (upload_step_status envUrl s e s' effects Hstep) as [->|H];
    assumption.
Qed.

(** Each of the seven values is taken in some reachable state of the
    overlay application. *)
Lemma overlay_statuses_reached (x : string) :
  In x overlay_statuses ->
  exists s, Overlay.reachable s /\ Overlay.status s = x.
Proof.
  intros H.
  assert (forall events,
             Overlay.status (Overlay.exec overlay_ready events) = x ->
             exists s, Overlay.reachable s /\ Overlay.status s = x) as Hrun.
  { intros events Hx. eexists. split; [|exact Hx].
    apply overlay_reachable_exec. unfold overlay_ready.
    apply overlay_reachable_exec. constructor. }
  cbn in H.
  destruct H as [<-|[<-|[<-|[<-|[<-|[<-|[<-|[]]]]]]]].
  - apply (Hrun []). reflexivity.
  - apply (Hrun [Overlay.RepositionClick]). reflexivity.
  - apply (Hrun [Overlay.RepositionClick; Overlay.Settle 0 ok200]).
    reflexivity.
  - apply (Hrun [Overlay.RepositionClick; Overlay.Settle 0 ok200;
                 Overlay.Settle 0 (BodyJson (JObj [("cues", JArr [])]))]).
    reflexivity.
  - apply (Hrun [Overlay.RepositionClick;
                 Overlay.Settle 0 (Rejected (TypeError "Failed to fetch"))]).
    reflexivity.
  - apply (Hrun [Overlay.DownloadClick]). reflexivity.
  - apply (Hrun [Overlay.DownloadClick; Overlay.Settle 0 ok200;
                 Overlay.Settle 0 (BodyBlob "1")]).
    reflexivity.
Qed.

Lemma upload_statuses_reached envUrl (x : string) :
  In x upload_statuses ->
  exists s, Upload.reachable envUrl s /\ Upload.status s = x.
Proof.
  intros H.
  assert (forall events,
             Upload.status (Upload.exec envUrl Upload.initial events) = x ->
             exists s, Upload.reachable envUrl s /\ Upload.status s = x) as Hrun.
  { intros events Hx. eexists. split; [|exact Hx].
    apply upload_reachable_exec. constructor. }
  cbn in H.
  destruct H as [<-|[<-|[<-|[<-|[<-|[]]]]]].
  - apply (Hrun []). reflexivity.
  - apply (Hrun [Upload.PickVideo [sample_video];
                 Upload.PickSubtitle [sample_subtitles]; Upload.SubmitClick]).
    reflexivity.
  - apply (Hrun [Upload.PickVideo [sample_video];
                 Upload.PickSubtitle [sample_subtitles]; Upload.SubmitClick;
                 Upload.Settle 0 ok200]).
    reflexivity.
  - apply (Hrun [Upload.PickVideo [sample_video];
                 Upload.PickSubtitle [sample_subtitles]; Upload.SubmitClick;
                 Upload.Settle 0 ok200; Upload.Settle 0 (BodyBlob "1")]).
    reflexivity.
  - apply (Hrun [Upload.PickSubtitle [sample_video]]). reflexivity.
Qed.

(** C5 (amended). In the overlay application the status label takes
    exactly seven values (Idle, Uploading..., Processing..., Done, Error,
    Requesting download..., Downloaded). In the upload application it
    takes exactly five values between two handlers (idle, uploading,
    processing, success, error): [validating] is assigned and overwritten
    within [handleSubmit], before the call first waits. *)
Theorem status_values :
  (forall s, Overlay.reachable s -> In (Overlay.status s) overlay_statuses)
  /\ (forall x, In x overlay_statuses ->
                exists s, Overlay.reachable s /\ Overlay.status s = x)
  /\ NoDup overlay_statuses /\ List.length overlay_statuses = 7%nat
  /\ (forall envUrl s,
         Upload.reachable envUrl s -> In (Upload.status s) upload_statuses)
  /\ (forall envUrl x,
         In x upload_statuses ->
         exists s, Upload.reachable envUrl s /\ Upload.status s = x)
  /\ NoDup upload_statuses /\ List.length upload_statuses = 5%nat
  /\ (forall envUrl s,
         Upload.reachable envUrl s -> Upload.status s <> "validating").
Proof.
  split; [exact overlay_status_invariant|].
  split; [exact overlay_statuses_reached|].
  split.
  { unfold overlay_statuses.
    repeat (constructor; [cbn; intuition discriminate|]). constructor. }
  split; [reflexivity|].
  split; [exact upload_status_invariant|].
  split; [exact upload_statuses_reached|].
  split.
  { unfold upload_statuses.
    repeat (constructor; [cbn; intuition discriminate|]). constructor. }
  split; [reflexivity|].
  intros envUrl s Hs Heq.
  pose proof (upload_status_invariant envUrl s Hs) as Hin.
  rewrite Heq in Hin. cbn in Hin. intuition discriminate.
Qed.
End StatusLabel.

(** C5, the claim as worded: no five values cover the status label of the
    overlay application, which takes seven. *)
Lemma overlay_status_is_not_five_valued :
  ~ (exists l : list string,
        List.length l = 5%nat
        /\ forall s, Overlay.reachable s -> In (Overlay.status s) l).
Proof.
  intros (l & Hlen & Hcover).
  assert (incl Props.overlay_statuses l) as Hincl.
  { intros x Hx. destruct (overlay_statuses_reached x Hx) as (s & Hs & <-).
    apply Hcover, Hs. }
  assert (NoDup Props.overlay_statuses) as Hnd.
  { unfold Props.overlay_statuses.
    repeat (constructor; [cbn; intuition discriminate|]). constructor. }
  pose proof (NoDup_incl_length Hnd Hincl) as Hle.
  rewrite Hlen in Hle. cbn in Hle. lia.
Qed.

(** ** Cancelling (C6) *)

Section Cancelling.
Import JSNumber JS Web Props.

Lemma existsb_eqb_In (c : nat) (l : list nat) :
  In c l -> existsb (Nat.eqb c) l = true.
Proof.
  intros H. apply existsb_exists. exists c. split; [exact H|].
  apply Nat.eqb_refl.
Qed.

(** A submission issues at most one request, with the signal of a new
    controller that [abortControllerRef] then holds. *)
Lemma handleSubmit_one_request envUrl (s : Upload.state) :
  requests (snd (Upload.handleSubmit envUrl s)) = []
  \/ exists r,
      requests (snd (Upload.handleSubmit envUrl s)) = [r]
      /\ req_signal r = Some (Upload.controllers s)
      /\ Upload.abortControllerRef (fst (Upload.handleSubmit envUrl s))
         = Some (Upload.controllers s)
      /\ Upload.controllers (fst (Upload.handleSubmit envUrl s))
         = S (Upload.controllers s)
      /\ Upload.tasks (fst (Upload.handleSubmit envUrl s))
         = (Upload.tasks s ++ [Upload.SubmitFetch (Upload.controllers s)])%list.
Proof.
  unfold Upload.handleSubmit.
  destruct (Upload.validateInputs
              (Upload.setProgress (of_Z 0) (Upload.resetResult s)))
    as [[|] s0] eqn:E; cbn [negb]; [|left; reflexivity].
  right. eexists. split; [reflexivity|].
  assert (Upload.controllers s0 = Upload.controllers s
          /\ Upload.tasks s0 = Upload.tasks s) as [Hc Ht].
  { unfold Upload.validateInputs in E.
    cbn [Upload.videoFile Upload.subtitleFile Upload.setProgress
           Upload.resetResult Upload.setResultFilename Upload.setDownloadUrl]
      in E.
    destruct (Upload.videoFile s); [destruct (Upload.subtitleFile s) as [sub|]|];
      try (destruct (negb (Upload.supported (file_name sub))));
      inversion E; subst; split; reflexivity. }
  cbn. rewrite Hc, Ht. repeat split; reflexivity.
Qed.

(** C6 (amended). In the upload application a submission issues at
    most one request; the request carries the signal of a new abort
    controller, which [abortControllerRef] holds. Cancelling aborts that
    controller. Once it is aborted, the pending fetch, or the pending
    read of the blob, can only settle by rejecting with an [AbortError],
    after which the status is [error], the message [Upload canceled.]
    and the progress 0, and no request is sent. The requests of the
    overlay application carry no abort signal. *)
Theorem upload_request_is_cancellable :
  (forall envUrl s,
      requests (snd (Upload.handleSubmit envUrl s)) = []
      \/ exists r,
          requests (snd (Upload.handleSubmit envUrl s)) = [r]
          /\ req_signal r = Some (Upload.controllers s)
          /\ Upload.abortControllerRef (fst (Upload.handleSubmit envUrl s))
             = Some (Upload.controllers s)
          /\ Upload.tasks (fst (Upload.handleSubmit envUrl s))
             = (Upload.tasks s
                ++ [Upload.SubmitFetch (Upload.controllers s)])%list)
  /\ (forall s ctrl,
         Upload.abortControllerRef s = Some ctrl ->
         Upload.cancelUpload s = Upload.setAborted (ctrl :: Upload.aborted s) s)
  /\ (forall envUrl s i ctrl,
         nth_error (Upload.tasks s) i = Some (Upload.SubmitFetch ctrl)
         \/ nth_error (Upload.tasks s) i = Some (Upload.SubmitBlob ctrl) ->
         In ctrl (Upload.aborted s) ->
         (exists s',
             Upload.step envUrl s (Upload.Settle i (Rejected AbortError))
             = Some (s', []))
         /\ forall o s' effects,
             Upload.step envUrl s (Upload.Settle i o) = Some (s', effects) ->
             Upload.status s' = "error"
             /\ Upload.message s' = "Upload canceled."
             /\ Upload.progress s' = of_Z 0
             /\ Upload.abortControllerRef s' = None
             /\ Upload.tasks s' = replace_nth i None (Upload.tasks s)
             /\ effects = [])
  /\ (forall s e s' effects r,
         Overlay.step s e = Some (s', effects) -> In r (requests effects) ->
         req_signal r = None).
Proof.
  split; [|split; [|split]].
  - intros envUrl s.
    destruct (handleSubmit_one_request envUrl s)
      as [H | (r & H1 & H2 & H3 & _ & H4)]; [left; exact H|].
    right. exists r. auto.
  - intros s ctrl H. unfold Upload.cancelUpload. rewrite H. reflexivity.
  - intros envUrl s i ctrl Htask Hab.
    pose proof (existsb_eqb_In ctrl _ Hab) as Hex.
    split.
    + cbn [Upload.step]. unfold Upload.may_settle.
      destruct Htask as [Ht|Ht]; rewrite Ht; cbn [Upload.task_ctrl];
        rewrite Hex; cbn; eexists; reflexivity.
    + intros o s' effects Hstep. cbn [Upload.step] in Hstep.
      unfold Upload.may_settle in Hstep.
      destruct Htask as [Ht|Ht]; rewrite Ht in Hstep;
        cbn [Upload.task_ctrl] in Hstep; rewrite Hex in Hstep;
        (destruct o as [resp|text|data|blob|err];
         cbn [negb] in Hstep; try discriminate);
        (destruct (exn_name err =? "AbortError")%string eqn:En;
         [|discriminate]);
        cbn [Upload.resume] in Hstep; inversion Hstep; subst; clear Hstep;
        unfold Upload.failed; rewrite En;
        repeat split; reflexivity.
  - intros s e s' effects r Hstep Hin.
    destruct e; cbn [Overlay.step] in Hstep;
      try (inversion Hstep; subst; destruct Hin; fail).
    + destruct (Overlay.videoUrl s); inversion Hstep; subst; destruct Hin.
    + destruct (Overlay.actions_disabled s); [discriminate|].
      inversion Hstep as [Hcall].
      assert (effects = snd (Overlay.callRepositionAPI s)) as ->
        by (rewrite Hcall; reflexivity).
      destruct (callRepositionAPI_request s r Hin) as (v & f & _ & _ & ->).
      reflexivity.
    + destruct (Overlay.actions_disabled s); [discriminate|].
      inversion Hstep as [Hcall].
      assert (effects = snd (Overlay.downloadRepositionedSRT s)) as ->
        by (rewrite Hcall; reflexivity).
      destruct (downloadRepositionedSRT_request s r Hin) as (v & f & _ & _ & ->).
      reflexivity.
    + rewrite (overlay_settle_no_request _ _ _ _ _ Hstep) in Hin.
      destruct Hin.
Qed.
End Cancelling.

Lemma upload_request_is_cancellable_witness :
  let s := Upload.exec None Props.upload_ready
             [Upload.SubmitClick; Upload.CancelClick] in
  nth_error (Upload.tasks s) 0 = Some (Upload.SubmitFetch 0)
  /\ In 0%nat (Upload.aborted s)
  /\ Upload.step None s (Upload.Settle 0 Props.ok200) = None
  /\ exists s',
      Upload.step None s (Upload.Settle 0 (Web.Rejected Web.AbortError))
      = Some (s', [])
      /\ Upload.status s' = "error"
      /\ Upload.message s' = "Upload canceled.".
Proof.
  intros s.
  assert (nth_error (Upload.tasks s) 0 = Some (Upload.SubmitFetch 0)) as Htask
      by (vm_compute; reflexivity).
  assert (In 0%nat (Upload.aborted s)) as Hab by (vm_compute; left; reflexivity).
  split; [exact Htask|]. split; [exact Hab|].
  split; [vm_compute; reflexivity|].
  destruct (proj1 (proj2 (proj2 upload_request_is_cancellable)) None s 0%nat 0%nat
              (or_introl Htask) Hab) as [[s' Hstep] Hall].
  exists s'. split; [exact Hstep|].
  destruct (Hall _ _ _ Hstep) as (Hstatus & Hmessage & _).
  split; assumption.
Defined.

(** C6, the claim as worded: the request of a reposition click in the
    overlay application carries no abort signal, so it cannot be
    cancelled. *)
Lemma overlay_request_has_no_abort_signal :
  ~ (forall s e s' effects r,
        Overlay.step s e = Some (s', effects) ->
        In r (Props.requests effects) ->
        Web.req_signal r <> None).
Proof.
  intros H.
  refine (H Props.overlay_ready Overlay.RepositionClick _ _ _ eq_refl _ _).
  - left. reflexivity.
  - reflexivity.
Qed.

(** ** The progress indicator (C7) *)

Section Progress.
Import JSNumber JS Web Props.

Lemma hd_error_map {A B} (f : A -> B) (l : list A) :
  hd_error (map f l) = option_map f (hd_error l).
Proof. destruct l; reflexivity. Qed.

Lemma replace_nth_map {A B} (f : A -> B) (i : nat) (x : option A) (l : list A) :
  replace_nth i (option_map f x) (map f l) = map f (replace_nth i x l).
Proof.
  unfold replace_nth. rewrite !map_app, firstn_map, skipn_map.
  destruct x; reflexivity.
Qed.

(** *** The upload application *)

Lemma upload_step_erase envUrl (s : Upload.state) (e : Upload.event) :
  option_map fst (Upload.step envUrl (erase_upload s) (erase_upload_event e))
  = option_map (fun p => erase_upload (fst p)) (Upload.step envUrl s e).
Proof.
  destruct s as [th vf sf st msg pr dl rf ref ctrls ab tms tks].
  unfold erase_upload at 1.
  cbn [Upload.theme Upload.videoFile Upload.subtitleFile Upload.status
         Upload.message Upload.progress Upload.downloadUrl
         Upload.resultFilename Upload.abortControllerRef Upload.controllers
         Upload.aborted Upload.timers Upload.tasks].
  destruct e as [|files|files| | | |i|i o];
    cbn [erase_upload_event Upload.step].
  - reflexivity.
  - destruct files; reflexivity.
  - destruct files as [|file rest]; [reflexivity|].
    cbn [map erase_upload option_map fst Upload.onPickSubtitle hd_error
           erase_file file_name].
    destruct (negb (Upload.supported (file_name file))); reflexivity.
  - unfold Upload.allowSubmit. cbn [erase_upload Upload.videoFile
      Upload.subtitleFile Upload.status option_map].
    destruct vf as [v|]; [|reflexivity].
    destruct sf as [f|]; [|reflexivity].
    cbn [option_map].
    destruct (negb (st =? "uploading")%string && negb (st =? "processing")%string);
      [|reflexivity].
    unfold Upload.handleSubmit, Upload.validateInputs.
    cbn [Upload.videoFile Upload.subtitleFile Upload.setProgress
           Upload.resetResult Upload.setResultFilename Upload.setDownloadUrl
           erase_file file_name].
    destruct (negb (Upload.supported (file_name f))); reflexivity.
  - unfold Upload.uploading. cbn [erase_upload Upload.status].
    destruct ((st =? "uploading")%string || (st =? "processing")%string);
      [|reflexivity].
    unfold Upload.cancelUpload. cbn [erase_upload Upload.abortControllerRef].
    destruct ref; reflexivity.
  - cbn [erase_upload Upload.downloadUrl]. destruct dl; reflexivity.
  - unfold Upload.tick. cbn [erase_upload Upload.timers].
    destruct (nth_error tms i) as [tm|]; [|reflexivity].
    reflexivity.
  - cbn [erase_upload Upload.tasks].
    destruct (nth_error tks i) as [t|]; [|reflexivity].
    unfold Upload.may_settle. cbn [Upload.aborted].
    match goal with
    | |- context [if ?c then _ else _] => destruct c; [|reflexivity]
    end.
    unfold Upload.resume.
    destruct t; destruct o; try reflexivity;
      try (destruct (resp_ok r)); try reflexivity;
      unfold Upload.failed;
      repeat match goal with
        | |- context [if ?c then _ else _] => destruct c
        end; reflexivity.
Qed.

Lemma upload_run_erase envUrl (events : list Upload.event) :
  forall s,
    map Upload.progress (fst (Upload.run envUrl s events))
    = map Upload.progress
        (fst (Upload.run envUrl (erase_upload s)
                (map erase_upload_event events))).
Proof.
  induction events as [|e rest IH]; intros s; [reflexivity|].
  cbn [map Upload.run].
  pose proof (upload_step_erase envUrl s e) as H.
  destruct (Upload.step envUrl s e) as [[s' eff]|];
    destruct (Upload.step envUrl (erase_upload s) (erase_upload_event e))
      as [[s'' eff']|]; try discriminate.
  - cbn [option_map fst] in H. inversion H; subst.
    specialize (IH s').
    destruct (Upload.run envUrl s' rest) as [states effs].
    destruct (Upload.run envUrl (erase_upload s')
                (map erase_upload_event rest)) as [states' effs'].
    cbn [fst map] in *. rewrite IH. reflexivity.
  - apply IH.
Qed.

(** *** The overlay application *)

Ltac overlay_fields :=
  unfold erase_overlay, Overlay.add_task, Overlay.failed;
  cbn [option_map fst Overlay.tasks Overlay.setTasks Overlay.setProgress
         Overlay.setStatus Overlay.setIsProcessing Overlay.setCues
         Overlay.setError Overlay.subtitleFile Overlay.videoFile
         Overlay.theme Overlay.videoUrl Overlay.status Overlay.progress
         Overlay.error Overlay.cues Overlay.isProcessing
         Overlay.includePositionHint Overlay.backendBaseUrl
         Overlay.currentTime].

Lemma overlay_step_erase (s : Overlay.state) (e : Overlay.event) :
  option_map fst (Overlay.step (erase_overlay s) (erase_overlay_event e))
  = option_map (fun p => erase_overlay (fst p)) (Overlay.step s e).
Proof.
  destruct s as [th vf sf vu st pr er cs ip hint base ct tks].
  unfold erase_overlay at 1.
  cbn [Overlay.theme Overlay.videoFile Overlay.subtitleFile Overlay.videoUrl
         Overlay.status Overlay.progress Overlay.error Overlay.cues
         Overlay.isProcessing Overlay.includePositionHint
         Overlay.backendBaseUrl Overlay.currentTime Overlay.tasks].
  destruct e as [envUrl location| |files|files| |checked|t| | |i o];
    cbn [erase_overlay_event Overlay.step].
  - unfold Overlay.mount.
    destruct envUrl as [u|]; [destruct (negb (u =? "")%string)|];
      try (destruct location as [[proto host]|]); reflexivity.
  - reflexivity.
  - destruct files; reflexivity.
  - destruct files; reflexivity.
  - reflexivity.
  - reflexivity.
  - cbn [erase_overlay Overlay.videoUrl]. unfold Overlay.onTimeUpdate.
    cbn [Overlay.videoUrl].
    destruct vu; reflexivity.
  - unfold Overlay.actions_disabled.
    cbn [erase_overlay Overlay.isProcessing Overlay.videoFile
           Overlay.subtitleFile].
    destruct ip; [reflexivity|].
    destruct vf as [v|]; [|reflexivity].
    destruct sf as [f|]; [|reflexivity].
    cbn [option_map orb].
    unfold Overlay.callRepositionAPI, Overlay.validateInputs.
    cbn [Overlay.videoFile Overlay.subtitleFile negb Overlay.setError
           Overlay.backendBaseUrl].
    destruct (base =? "")%string; [reflexivity|].
    overlay_fields. rewrite map_app. reflexivity.
  - unfold Overlay.actions_disabled.
    cbn [erase_overlay Overlay.isProcessing Overlay.videoFile
           Overlay.subtitleFile].
    destruct ip; [reflexivity|].
    destruct vf as [v|]; [|reflexivity].
    destruct sf as [f|]; [|reflexivity].
    cbn [option_map orb].
    unfold Overlay.downloadRepositionedSRT, Overlay.validateInputs.
    cbn [Overlay.videoFile Overlay.subtitleFile negb Overlay.setError
           Overlay.backendBaseUrl].
    destruct (base =? "")%string; [reflexivity|].
    overlay_fields. rewrite map_app. reflexivity.
  - cbn [erase_overlay Overlay.tasks].
    rewrite nth_error_map.
    destruct (nth_error tks i) as [t|]; [|reflexivity].
    cbn [option_map].
    destruct t; destruct o; cbn [erase_overlay_task Overlay.resume];
      try reflexivity;
      try (destruct (resp_ok r));
      try (destruct (Overlay.response_cues j));
      overlay_fields; rewrite <- replace_nth_map; reflexivity.
Qed.

Lemma overlay_run_erase (events : list Overlay.event) :
  forall s,
    map Overlay.progress (fst (Overlay.run s events))
    = map Overlay.progress
        (fst (Overlay.run (erase_overlay s)
                (map erase_overlay_event events))).
Proof.
  induction events as [|e rest IH]; intros s; [reflexivity|].
  cbn [map Overlay.run].
  pose proof (overlay_step_erase s e) as H.
  destruct (Overlay.step s e) as [[s' eff]|];
    destruct (Overlay.step (erase_overlay s) (erase_overlay_event e))
      as [[s'' eff']|]; try discriminate.
  - cbn [option_map fst] in H. inversion H; subst.
    specialize (IH s').
    destruct (Overlay.run s' rest) as [states effs].
    destruct (Overlay.run (erase_overlay s')
                (map erase_overlay_event rest)) as [states' effs'].
    cbn [fst map] in *. rewrite IH. reflexivity.
  - apply IH.
Qed.

(** *** Set points and timers *)

Ltac progress_cases H :=
  repeat match type of H with
    | context [if ?c then _ else _] => destruct c
    | context [match Overlay.response_cues ?d with _ => _ end] =>
        destruct (Overlay.response_cues d)
    end;
  inversion H; subst; clear H.

Lemma overlay_step_progress s e s' effects :
  Overlay.step s e = Some (s', effects) ->
  Overlay.progress s' = Overlay.progress s
  \/ In (Overlay.progress s') overlay_progress_values.
Proof.
  intros H. destruct e; cbn [Overlay.step] in H.
  - inversion H; subst. left.
    unfold Overlay.mount.
    destruct envUrl as [u|]; [destruct (negb (u =? "")%string)|];
      try (destruct location as [[proto host]|]); reflexivity.
  - inversion H; subst. left. reflexivity.
  - inversion H; subst. left. reflexivity.
  - inversion H; subst. left. reflexivity.
  - inversion H; subst. right. cbn. auto.
  - inversion H; subst. left. reflexivity.
  - destruct (Overlay.videoUrl s) eqn:E; [|discriminate].
    inversion H; subst. left. unfold Overlay.onTimeUpdate. rewrite E.
    reflexivity.
  - destruct (Overlay.actions_disabled s); [discriminate|].
    inversion H as [Hc]. clear H. unfold Overlay.callRepositionAPI in Hc.
    unfold Overlay.validateInputs in Hc.
    destruct (Overlay.videoFile s); [destruct (Overlay.subtitleFile s)|];
      cbn [negb] in Hc;
      try (destruct (Overlay.backendBaseUrl _ =? "")%string);
      inversion Hc; subst; cbn; auto.
  - destruct (Overlay.actions_disabled s); [discriminate|].
    inversion H as [Hc]. clear H. unfold Overlay.downloadRepositionedSRT in Hc.
    unfold Overlay.validateInputs in Hc.
    destruct (Overlay.videoFile s); [destruct (Overlay.subtitleFile s)|];
      cbn [negb] in Hc;
      try (destruct (Overlay.backendBaseUrl _ =? "")%string);
      inversion Hc; subst; cbn; auto 10.
  - destruct (nth_error (Overlay.tasks s) i) as [t|]; [|discriminate].
    destruct (Overlay.resume t o s) as [[[next s1] eff]|] eqn:E; [|discriminate].
    inversion H; subst. clear H. unfold Overlay.resume in E.
    destruct t; destruct o; try discriminate; progress_cases E; cbn; auto 10.
Qed.

Lemma overlay_progress_invariant s :
  Overlay.reachable s -> In (Overlay.progress s) overlay_progress_values.
Proof.
  induction 1 as [|s e s' effects Hs IH Hstep]; [cbn; auto|].
  destruct (overlay_step_progress s e s' effects Hstep) as [->|H]; assumption.
Qed.

Lemma Forall_replace_nth {A} (P : A -> Prop) (i : nat) (x : option A) (l : list A) :
  Forall P l -> (forall a, x = Some a -> P a) -> Forall P (replace_nth i x l).
Proof.
  intros Hl Hx. unfold replace_nth.
  assert (Forall P (firstn i l)) as Hf.
  { rewrite <- (firstn_skipn i l) in Hl. apply Forall_app in Hl. apply Hl. }
  assert (Forall P (skipn (S i) l)) as Hk.
  { rewrite <- (firstn_skipn (S i) l) in Hl. apply Forall_app in Hl. apply Hl. }
  apply Forall_app. split; [exact Hf|].
  apply Forall_app. split; [|exact Hk].
  destruct x as [a|]; constructor; auto.
Qed.

Lemma simulateProgress_timers (from to durationMs : number) (s : Upload.state) :
  Upload.timers (Upload.simulateProgress from to durationMs s)
  = (Upload.timers s
     ++ [ {| Upload.tm_current := from; Upload.tm_count := of_Z 0;
             Upload.tm_increment := div (sub to from) (of_Z 15);
             Upload.tm_steps := of_Z 15; Upload.tm_to := to;
             Upload.tm_delay := div durationMs (of_Z 15) |} ])%list.
Proof. reflexivity. Qed.

Lemma started_timer_fixed (from to durationMs : number) :
  In (to, div (sub to from) (of_Z 15), div durationMs (of_Z 15)) timer_plans ->
  fixed_timer {| Upload.tm_current := from; Upload.tm_count := of_Z 0;
                 Upload.tm_increment := div (sub to from) (of_Z 15);
                 Upload.tm_steps := of_Z 15; Upload.tm_to := to;
                 Upload.tm_delay := div durationMs (of_Z 15) |}.
Proof. intros H. split; [reflexivity|exact H]. Qed.

Lemma upload_plan : In (of_Z 60, div (sub (of_Z 60) (of_Z 10)) (of_Z 15),
                        div (of_Z 800) (of_Z 15)) timer_plans.
Proof. left. reflexivity. Qed.

Lemma processing_plan : In (of_Z 90, div (sub (of_Z 90) (of_Z 60)) (of_Z 15),
                            div (of_Z 600) (of_Z 15)) timer_plans.
Proof. right. left. reflexivity. Qed.

Lemma finishing_plan : In (of_Z 100, div (sub (of_Z 100) (of_Z 90)) (of_Z 15),
                           div (of_Z 200) (of_Z 15)) timer_plans.
Proof. right. right. left. reflexivity. Qed.

Lemma simulateProgress_fixed (from to durationMs : number) (s : Upload.state) :
  In (to, div (sub to from) (of_Z 15), div durationMs (of_Z 15)) timer_plans ->
  Forall fixed_timer (Upload.timers s) ->
  Forall fixed_timer (Upload.timers (Upload.simulateProgress from to durationMs s)).
Proof.
  intros Hp Hs. rewrite simulateProgress_timers. apply Forall_app.
  split; [exact Hs|]. constructor; [|constructor].
  apply started_timer_fixed, Hp.
Qed.

Lemma add_task_timers (t : Upload.task) (s : Upload.state) :
  Upload.timers (Upload.add_task t s) = Upload.timers s.
Proof. reflexivity. Qed.

Lemma handleSubmit_timers envUrl (s : Upload.state) :
  Forall fixed_timer (Upload.timers s) ->
  Forall fixed_timer (Upload.timers (fst (Upload.handleSubmit envUrl s))).
Proof.
  intros Hs.
  unfold Upload.handleSubmit, Upload.validateInputs.
  cbn [Upload.videoFile Upload.subtitleFile Upload.setProgress
         Upload.resetResult Upload.setResultFilename Upload.setDownloadUrl].
  destruct (Upload.videoFile s); [destruct (Upload.subtitleFile s) as [sub|]|];
    try (destruct (negb (Upload.supported (file_name sub))));
    cbn [negb fst]; try exact Hs.
  rewrite add_task_timers.
  apply simulateProgress_fixed; [exact upload_plan|exact Hs].
Qed.

Lemma upload_step_timers envUrl s e s' effects :
  Upload.step envUrl s e = Some (s', effects) ->
  Forall fixed_timer (Upload.timers s) -> Forall fixed_timer (Upload.timers s').
Proof.
  intros H Hs. destruct e; cbn [Upload.step] in H.
  - inversion H; subst. exact Hs.
  - inversion H; subst. unfold Upload.onPickVideo.
    destruct (hd_error files); exact Hs.
  - inversion H; subst. unfold Upload.onPickSubtitle.
    destruct (hd_error files) as [file|]; [|exact Hs].
    destruct (negb (Upload.supported (file_name file))); exact Hs.
  - destruct (Upload.allowSubmit s); [|discriminate].
    assert (s' = fst (Upload.handleSubmit envUrl s)) as ->
        by (injection H as H; rewrite H; reflexivity).
    apply handleSubmit_timers, Hs.
  - destruct (Upload.uploading s); [|discriminate].
    inversion H; subst. unfold Upload.cancelUpload.
    destruct (Upload.abortControllerRef s); exact Hs.
  - destruct (Upload.downloadUrl s); [|discriminate].
    inversion H; subst. exact Hs.
  - destruct (Upload.tick i s) as [s1|] eqn:E; [|discriminate].
    inversion H; subst. unfold Upload.tick in E.
    destruct (nth_error (Upload.timers s) i) as [tm|] eqn:Et; [|discriminate].
    inversion E; subst. cbn [Upload.timers Upload.setTimers Upload.setProgress].
    apply Forall_replace_nth; [exact Hs|].
    intros a Ha.
    assert (fixed_timer tm) as Htm.
    { rewrite Forall_forall in Hs. apply Hs. eapply nth_error_In, Et. }
    destruct (ge _ _); inversion Ha; subst. exact Htm.
  - destruct (nth_error (Upload.tasks s) i) as [t|]; [|discriminate].
    destruct (Upload.may_settle s t o); [|discriminate].
    destruct (Upload.resume t o s) as [[[next s1] eff]|] eqn:E; [|discriminate].
    inversion H; subst. clear H. unfold Upload.resume in E.
    destruct t; destruct o; try discriminate; progress_cases E;
      cbn [Upload.timers Upload.setTasks Upload.setAbortControllerRef
             Upload.setProgress Upload.setMessage Upload.setStatus
             Upload.setDownloadUrl];
      try exact Hs;
      try (apply simulateProgress_fixed;
           [first [exact processing_plan | exact finishing_plan]|exact Hs]);
      unfold Upload.failed;
      match goal with
      | |- context [if ?c then _ else _] => destruct c
      end; exact Hs.
Qed.

Lemma upload_timers_invariant envUrl s :
  Upload.reachable envUrl s -> Forall fixed_timer (Upload.timers s).
Proof.
  induction 1 as [|s e s' effects Hs IH Hstep]; [constructor|].
  eapply upload_step_timers; eauto.
Qed.

(** C7. The progress indicator does not depend on the sizes or contents
    of the files: two runs of either application whose states and events
    agree up to the sizes and contents of the files (same clicks, same
    timer ticks, same outcomes of the requests, in the same order) show
    the same sequence of progress values. The values come from fixed
    set points and timers: in the overlay application the progress is
    always 0, 10, 30, 50 or 100; in the upload application every timer
    counts 15 ticks towards one of the three fixed targets with a fixed
    increment and delay. *)
Theorem progress_ignores_file_contents :
  (forall envUrl s1 s2 events1 events2,
      erase_upload s1 = erase_upload s2 ->
      map erase_upload_event events1 = map erase_upload_event events2 ->
      map Upload.progress (fst (Upload.run envUrl s1 events1))
      = map Upload.progress (fst (Upload.run envUrl s2 events2)))
  /\ (forall s1 s2 events1 events2,
         erase_overlay s1 = erase_overlay s2 ->
         map erase_overlay_event events1 = map erase_overlay_event events2 ->
         map Overlay.progress (fst (Overlay.run s1 events1))
         = map Overlay.progress (fst (Overlay.run s2 events2)))
  /\ (forall envUrl s,
         Upload.reachable envUrl s -> Forall fixed_timer (Upload.timers s))
  /\ (forall s,
         Overlay.reachable s -> In (Overlay.progress s) overlay_progress_values).
Proof.
  split; [|split; [|split]].
  - intros envUrl s1 s2 events1 events2 Hs He.
    rewrite (upload_run_erase envUrl events1 s1).
    rewrite (upload_run_erase envUrl events2 s2).
    rewrite Hs, He. reflexivity.
  - intros s1 s2 events1 events2 Hs He.
    rewrite (overlay_run_erase events1 s1).
    rewrite (overlay_run_erase events2 s2).
    rewrite Hs, He. reflexivity.
  - exact upload_timers_invariant.
  - exact overlay_progress_invariant.
Qed.
End Progress.

Lemma progress_ignores_file_contents_witness :
  let clicks v f :=
    [ Upload.PickVideo [v]; Upload.PickSubtitle [f]; Upload.SubmitClick;
      Upload.Tick 0; Upload.Tick 0; Upload.Settle 0 Props.ok200;
      Upload.Settle 0 (Web.BodyBlob "1"); Upload.Tick 0 ] in
  map Props.erase_upload_event (clicks Props.sample_video Props.sample_subtitles)
  = map Props.erase_upload_event (clicks Props.other_video Props.other_subtitles)
  /\ Props.sample_video <> Props.other_video
  /\ Props.sample_subtitles <> Props.other_subtitles
  /\ map Upload.progress
       (fst (Upload.run None Upload.initial
               (clicks Props.sample_video Props.sample_subtitles)))
     = map Upload.progress
         (fst (Upload.run None Upload.initial
                 (clicks Props.other_video Props.other_subtitles))).
Proof.
  intros clicks.
  split; [reflexivity|]. split; [discriminate|]. split; [discriminate|].
  apply (proj1 progress_ignores_file_contents None Upload.initial Upload.initial);
    reflexivity.
Defined.

(** ** Backend addresses *)

Section BackendUrls.
Import JSNumber JS Web Props.

Lemma strip_slashes_only (k : nat) : strip_trailing_slashes (slashes k) = "".
Proof.
  induction k as [|k IH]; [reflexivity|].
  cbn [slashes strip_trailing_slashes]. rewrite IH. reflexivity.
Qed.

Lemma strip_is_prefix (s : string) :
  exists k, s = strip_trailing_slashes s ++ slashes k.
Proof.
  induction s as [|c rest [k IH]]; [exists 0%nat; reflexivity|].
  cbn [strip_trailing_slashes].
  destruct (strip_trailing_slashes rest) as [|d r] eqn:E.
  - cbn [append] in IH. destruct (Ascii.eqb c "/") eqn:Ec.
    + apply Ascii.eqb_eq in Ec. subst c. exists (S k). rewrite IH. reflexivity.
    + exists k. rewrite IH. reflexivity.
  - exists k. cbn [append] in *. rewrite <- IH. reflexivity.
Qed.

Lemma last_char_cons (c : ascii) (s : string) :
  s <> "" -> last_char (String c s) = last_char s.
Proof.
  intros Hs. cbn [last_char]. destruct s as [|d r]; [congruence|].
  cbn [last_char]. destruct (last_char r); reflexivity.
Qed.

Lemma strip_no_slash (s : string) :
  ends_with_slash (strip_trailing_slashes s) = false.
Proof.
  unfold ends_with_slash.
  induction s as [|c rest IH]; [reflexivity|].
  cbn [strip_trailing_slashes].
  destruct (strip_trailing_slashes rest) as [|d r] eqn:E.
  - destruct (Ascii.eqb c "/") eqn:Ec; [reflexivity|].
    cbn [last_char]. exact Ec.
  - rewrite last_char_cons by discriminate. exact IH.
Qed.

Lemma strip_app_slashes (p : string) (k : nat) :
  ends_with_slash p = false -> strip_trailing_slashes (p ++ slashes k) = p.
Proof.
  induction p as [|c p' IH]; intros Hp.
  - apply strip_slashes_only.
  - cbn [append strip_trailing_slashes].
    destruct p' as [|d r].
    + cbn [append]. rewrite strip_slashes_only.
      unfold ends_with_slash in Hp. cbn [last_char] in Hp. rewrite Hp.
      reflexivity.
    + rewrite IH.
      * reflexivity.
      * unfold ends_with_slash in *. rewrite last_char_cons in Hp by discriminate.
        exact Hp.
Qed.

Lemma last_char_app (a b : string) :
  last_char (a ++ b)
  = match last_char b with Some c => Some c | None => last_char a end.
Proof.
  induction a as [|c a' IH]; cbn [append last_char].
  - destruct (last_char b); reflexivity.
  - rewrite IH. destruct (last_char b); reflexivity.
Qed.

Lemma slashes_nonempty (k : nat) : slashes (S k) <> "".
Proof. discriminate. Qed.

(** X1. [s.replace(/\/+$/, '')], which both applications apply to
    [REACT_APP_BACKEND_URL], removes the slashes at the end of the string
    and nothing else: the result is the string without some number of
    final slashes, it never ends in a slash, and a string that does not
    end in a slash, followed by any number of slashes, gives back that
    string (so stripping twice changes nothing more). *)
Theorem strip_trailing_slashes_spec :
  (forall s, exists k, s = strip_trailing_slashes s ++ slashes k)
  /\ (forall s, ends_with_slash (strip_trailing_slashes s) = false)
  /\ (forall p k,
         ends_with_slash p = false -> strip_trailing_slashes (p ++ slashes k) = p)
  /\ (forall s,
         strip_trailing_slashes (strip_trailing_slashes s)
         = strip_trailing_slashes s).
Proof.
  split; [exact strip_is_prefix|].
  split; [exact strip_no_slash|].
  split; [exact strip_app_slashes|].
  intros s.
  rewrite <- (append_empty_r (strip_trailing_slashes s)) at 1.
  apply (strip_app_slashes _ 0), strip_no_slash.
Qed.

(** X2. [getBackendUrl] of the upload application never ends in a
    slash; it is the default [http://subtitle_backend:3001] when the
    environment variable is unset or empty; and it is the empty string
    exactly when the variable consists of slashes only, in which case the
    request goes to the relative address [/reposition]. *)
Theorem getBackendUrl_spec :
  (forall envUrl, ends_with_slash (Upload.getBackendUrl envUrl) = false)
  /\ Upload.getBackendUrl None = "http://subtitle_backend:3001"
  /\ Upload.getBackendUrl (Some "") = "http://subtitle_backend:3001"
  /\ (forall envUrl,
         Upload.getBackendUrl envUrl = ""
         <-> exists k, envUrl = Some (slashes (S k)))
  /\ (forall u,
         u <> "" -> ends_with_slash u = false ->
         Upload.getBackendUrl (Some u) = u).
Proof.
  split; [|split; [reflexivity|split; [reflexivity|split]]].
  - intros [u|]; unfold Upload.getBackendUrl; [|reflexivity].
    destruct (negb (u =? "")%string); [apply strip_no_slash|reflexivity].
  - intros envUrl. unfold Upload.getBackendUrl. split.
    + destruct envUrl as [u|]; [|discriminate].
      destruct (u =? "")%string eqn:Eu; cbn [negb]; [discriminate|].
      intros Hstrip. destruct (strip_is_prefix u) as [k Hk].
      rewrite Hstrip in Hk. cbn [append] in Hk.
      destruct k as [|k].
      * rewrite Hk in Eu. discriminate.
      * exists k. rewrite Hk. reflexivity.
    + intros [k ->]. cbn [slashes String.eqb Ascii.eqb Bool.eqb negb].
      apply (strip_slashes_only (S k)).
  - intros u Hu Hslash. unfold Upload.getBackendUrl.
    destruct (u =? "")%string eqn:Eu.
    + apply String.eqb_eq in Eu. contradiction.
    + cbn [negb]. rewrite <- (append_empty_r u) at 1.
      apply (strip_app_slashes u 0 Hslash).
Qed.

End BackendUrls.

Lemma strip_trailing_slashes_spec_witness :
  Props.ends_with_slash "http://backend:3001" = false
  /\ Web.strip_trailing_slashes "http://backend:3001///" = "http://backend:3001".
Proof.
  split; [reflexivity|].
  apply (proj1 (proj2 (proj2 strip_trailing_slashes_spec)) "http://backend:3001" 3%nat).
  reflexivity.
Defined.

Lemma getBackendUrl_spec_witness :
  (exists k, Some "//" = Some (Props.slashes (S k)))
  /\ Upload.getBackendUrl (Some "//") = "".
Proof.
  assert (exists k, Some "//" = Some (Props.slashes (S k))) as H
      by (exists 1%nat; reflexivity).
  split; [exact H|].
  apply (proj2 (proj1 (proj2 (proj2 (proj2 getBackendUrl_spec))) (Some "//")) H).
Defined.

Section OverlayBase.
Import JSNumber JS Web Props.

Lemma default_base_no_slash (proto host : string) :
  ends_with_slash (proto ++ "//" ++ host ++ ":3001") = false.
Proof.
  unfold ends_with_slash. rewrite !last_char_app. reflexivity.
Qed.

Lemma default_base_nonempty (proto host : string) :
  proto ++ "//" ++ host ++ ":3001" <> "".
Proof.
  intros H. apply (f_equal last_char) in H. rewrite !last_char_app in H.
  discriminate.
Qed.

Lemma mount_base_no_slash envUrl location (s : Overlay.state) :
  ends_with_slash (Overlay.backendBaseUrl (Overlay.mount envUrl location s)) = false.
Proof.
  unfold Overlay.mount.
  destruct envUrl as [u|]; [destruct (negb (u =? "")%string)|];
    try (destruct location as [[proto host]|]);
    cbn [Overlay.backendBaseUrl Overlay.setBackendBaseUrl];
    first [apply strip_no_slash | apply default_base_no_slash | reflexivity].
Qed.

Ltac base_cases H :=
  repeat match type of H with
    | context [if ?c then _ else _] => destruct c
    | context [match Overlay.response_cues ?d with _ => _ end] =>
        destruct (Overlay.response_cues d)
    end;
  inversion H; subst; clear H.

Lemma overlay_step_base s e s' effects :
  Overlay.step s e = Some (s', effects) ->
  Overlay.backendBaseUrl s' = Overlay.backendBaseUrl s
  \/ exists envUrl location,
      e = Overlay.Mount envUrl location /\ s' = Overlay.mount envUrl location s.
Proof.
  intros H. destruct e; cbn [Overlay.step] in H.
  - inversion H; subst. right. eauto.
  - inversion H; subst. left. reflexivity.
  - inversion H; subst. left. reflexivity.
  - inversion H; subst. left. reflexivity.
  - inversion H; subst. left. reflexivity.
  - inversion H; subst. left. reflexivity.
  - destruct (Overlay.videoUrl s) eqn:E; [|discriminate].
    inversion H; subst. left. unfold Overlay.onTimeUpdate. rewrite E.
    reflexivity.
  - destruct (Overlay.actions_disabled s); [discriminate|].
    inversion H as [Hc]. clear H. unfold Overlay.callRepositionAPI in Hc.
    unfold Overlay.validateInputs in Hc.
    destruct (Overlay.videoFile s); [destruct (Overlay.subtitleFile s)|];
      cbn [negb] in Hc;
      try (destruct (Overlay.backendBaseUrl _ =? "")%string);
      inversion Hc; subst; left; reflexivity.
  - destruct (Overlay.actions_disabled s); [discriminate|].
    inversion H as [Hc]. clear H. unfold Overlay.downloadRepositionedSRT in Hc.
    unfold Overlay.validateInputs in Hc.
    destruct (Overlay.videoFile s); [destruct (Overlay.subtitleFile s)|];
      cbn [negb] in Hc;
      try (destruct (Overlay.backendBaseUrl _ =? "")%string);
      inversion Hc; subst; left; reflexivity.
  - destruct (nth_error (Overlay.tasks s) i) as [t|]; [|discriminate].
    destruct (Overlay.resume t o s) as [[[next s1] eff]|] eqn:E; [|discriminate].
    inversion H; subst. clear H. unfold Overlay.resume in E.
    destruct t; destruct o; try discriminate; base_cases E; left; reflexivity.
Qed.

(** X3. In the overlay application the backend base address never ends
    in a slash, in any state the application can reach, so a request
    address joins it to [/reposition/subtitles] with exactly one slash.
    The effect that sets it at mount leaves it empty (the state in which
    both actions answer [Backend URL is not configured.]) exactly when
    the environment variable consists of slashes only, or is unset or
    empty while reading [window.location] throws. *)
Theorem overlay_base_url_has_no_final_slash :
  (forall s, Overlay.reachable s ->
             ends_with_slash (Overlay.backendBaseUrl s) = false)
  /\ (forall envUrl location s,
         Overlay.backendBaseUrl (Overlay.mount envUrl location s) = ""
         <-> (exists k, envUrl = Some (slashes (S k)))
             \/ (location = None /\ (envUrl = None \/ envUrl = Some ""))).
Proof.
  split.
  - induction 1 as [|s e s' effects Hs IH Hstep]; [reflexivity|].
    destruct (overlay_step_base s e s' effects Hstep)
      as [-> | (envUrl & location & _ & ->)]; [exact IH|].
    apply mount_base_no_slash.
  - intros envUrl location s. unfold Overlay.mount. split.
    + destruct envUrl as [u|].
      * destruct (u =? "")%string eqn:Eu; cbn [negb].
        -- apply String.eqb_eq in Eu. subst u.
           destruct location as [[proto host]|];
             cbn [Overlay.backendBaseUrl Overlay.setBackendBaseUrl]; intros H.
           ++ destruct (default_base_nonempty _ _ H).
           ++ right. auto.
        -- cbn [Overlay.backendBaseUrl Overlay.setBackendBaseUrl]. intros H.
           left. destruct (strip_is_prefix u) as [k Hk].
           rewrite H in Hk. cbn [append] in Hk. destruct k as [|k].
           ++ rewrite Hk in Eu. discriminate.
           ++ exists k. rewrite Hk. reflexivity.
      * destruct location as [[proto host]|];
          cbn [Overlay.backendBaseUrl Overlay.setBackendBaseUrl]; intros H.
        -- destruct (default_base_nonempty _ _ H).
        -- right. auto.
    + intros [[k ->] | [-> [-> | ->]]].
      * cbn [slashes String.eqb Ascii.eqb Bool.eqb negb
               Overlay.backendBaseUrl Overlay.setBackendBaseUrl].
        apply (strip_slashes_only (S k)).
      * reflexivity.
      * reflexivity.
Qed.
End OverlayBase.

Lemma overlay_base_url_has_no_final_slash_witness :
  Overlay.reachable Props.overlay_ready
  /\ Overlay.backendBaseUrl Props.overlay_ready = "http://backend:3001"
  /\ Props.ends_with_slash (Overlay.backendBaseUrl Props.overlay_ready) = false.
Proof.
  assert (Overlay.reachable Props.overlay_ready) as H
      by (apply overlay_reachable_exec; constructor).
  split; [exact H|]. split; [reflexivity|].
  apply (proj1 overlay_base_url_has_no_final_slash _ H).
Defined.

(** ** Names of the downloaded files *)

Section FileNames.
Import JSNumber JS Web Props.

Lemma lacks_last_index (c : ascii) (s : string) :
  lacks c s = true -> last_index c s = None.
Proof.
  induction s as [|d rest IH]; [reflexivity|].
  cbn [lacks last_index]. intros H. apply andb_true_iff in H as [Hd Hrest].
  rewrite (IH Hrest). apply negb_true_iff in Hd. rewrite Hd. reflexivity.
Qed.

Lemma last_index_after_stem (c : ascii) (stem e : string) :
  lacks c e = true ->
  last_index c (stem ++ String c e) = Some (String.length stem).
Proof.
  intros He. induction stem as [|d st IH].
  - cbn [append last_index String.length]. rewrite (lacks_last_index c e He).
    rewrite Ascii.eqb_refl. reflexivity.
  - cbn [append last_index String.length]. rewrite IH. reflexivity.
Qed.

Lemma length_app (a b : string) :
  String.length (a ++ b) = (String.length a + String.length b)%nat.
Proof.
  induction a as [|c a IH]; [reflexivity|].
  cbn [append String.length]. rewrite IH. reflexivity.
Qed.

Lemma substring_stem (a b : string) : substring 0 (String.length a) (a ++ b) = a.
Proof.
  induction a as [|c a IH]; cbn [append String.length substring].
  - destruct b; reflexivity.
  - rewrite IH. reflexivity.
Qed.

Lemma substring_rest (a b : string) :
  substring (String.length a) (String.length b) (a ++ b) = b.
Proof.
  induction a as [|c a IH]; cbn [append String.length].
  - induction b as [|d b IHb]; [reflexivity|].
    cbn [String.length substring]. rewrite IHb. reflexivity.
  - cbn [substring]. exact IH.
Qed.

Lemma substring_none (n : nat) (s : string) : substring n 0 s = "".
Proof.
  revert n. induction s as [|c s IH]; intros [|n]; cbn [substring];
    try reflexivity.
  apply IH.
Qed.

Lemma strip_extension_stem (stem e : string) :
  e <> "" -> lacks "." e = true ->
  strip_extension (stem ++ "." ++ e) = stem.
Proof.
  intros Hne He. unfold strip_extension.
  change ("." ++ e) with (String "." e).
  rewrite (last_index_after_stem "." stem e He), length_app.
  cbn [String.length].
  destruct e as [|c e']; [congruence|]. cbn [String.length].
  replace (S (String.length stem) <? String.length stem + S (S (String.length e')))%nat
    with true by (symmetry; apply Nat.ltb_lt; lia).
  apply substring_stem.
Qed.

Lemma strip_extension_no_dot (s : string) :
  lacks "." s = true -> strip_extension s = s.
Proof.
  intros H. unfold strip_extension. rewrite (lacks_last_index _ _ H).
  reflexivity.
Qed.

Lemma strip_extension_final_dot (stem : string) :
  strip_extension (stem ++ ".") = stem ++ ".".
Proof.
  unfold strip_extension.
  rewrite (last_index_after_stem "." stem "" eq_refl), length_app.
  cbn [String.length].
  replace (S (String.length stem) <? String.length stem + 1)%nat
    with false by (symmetry; apply Nat.ltb_ge; lia).
  reflexivity.
Qed.

(** X4. The name under which the overlay application saves the download
    is the name of the subtitle file without its extension, followed by
    [_repositioned.srt]: the extension is what follows the last dot, when
    something does. A name without a dot, or one that ends in a dot, is
    kept whole; with no subtitle file, or one whose name is empty, the
    name is [subtitles_repositioned.srt]. *)
Theorem download_name_spec :
  (forall f stem e,
      file_name f = stem ++ "." ++ e -> e <> "" -> lacks "." e = true ->
      Overlay.download_name (Some f) = stem ++ "_repositioned.srt")
  /\ (forall f,
         file_name f <> "" -> lacks "." (file_name f) = true ->
         Overlay.download_name (Some f) = file_name f ++ "_repositioned.srt")
  /\ (forall f stem,
         file_name f = stem ++ "." ->
         Overlay.download_name (Some f) = stem ++ "." ++ "_repositioned.srt")
  /\ (forall f,
         file_name f = "" ->
         Overlay.download_name (Some f) = "subtitles_repositioned.srt")
  /\ Overlay.download_name None = "subtitles_repositioned.srt".
Proof.
  split; [|split; [|split; [|split; [|reflexivity]]]].
  - intros f stem e Hname Hne He. unfold Overlay.download_name.
    rewrite Hname.
    destruct (stem ++ "." ++ e =? "")%string eqn:E.
    + apply String.eqb_eq in E. destruct stem; discriminate.
    + rewrite (strip_extension_stem stem e Hne He). reflexivity.
  - intros f Hne Hdot. unfold Overlay.download_name.
    destruct (file_name f =? "")%string eqn:E.
    + apply String.eqb_eq in E. contradiction.
    + rewrite (strip_extension_no_dot _ Hdot). reflexivity.
  - intros f stem Hname. unfold Overlay.download_name. rewrite Hname.
    destruct (stem ++ "." =? "")%string eqn:E.
    + apply String.eqb_eq in E. destruct stem; discriminate.
    + rewrite strip_extension_final_dot. rewrite append_assoc'. reflexivity.
  - intros f Hname. unfold Overlay.download_name. rewrite Hname. reflexivity.
Qed.

(** *** The result name of the upload application *)

Lemma prefix_self (s : string) : prefix s s = true.
Proof.
  induction s as [|c s IH]; [reflexivity|].
  cbn [prefix]. destruct (ascii_dec c c) as [_|Hne]; [exact IH|congruence].
Qed.

Lemma index_after_stem (stem e : string) :
  lacks "." stem = true ->
  index 0 (String "." e) (stem ++ String "." e) = Some (String.length stem).
Proof.
  intros Hstem. induction stem as [|c st IH].
  - cbn [append String.length index]. rewrite prefix_self. reflexivity.
  - cbn [lacks] in Hstem. apply andb_true_iff in Hstem as [Hc Hst].
    specialize (IH Hst). cbn [append String.length index prefix] in *.
    destruct (ascii_dec "." c) as [Heq|_].
    + subst c. discriminate.
    + rewrite IH. reflexivity.
Qed.

Lemma index_no_dot (e s : string) :
  lacks "." s = true -> index 0 (String "." e) s = None.
Proof.
  induction s as [|c s IH]; [reflexivity|].
  cbn [lacks]. intros H. apply andb_true_iff in H as [Hc Hs].
  cbn [index prefix]. destruct (ascii_dec "." c) as [Heq|_].
  - subst c. discriminate.
  - rewrite (IH Hs). reflexivity.
Qed.

Lemma substitution_plain (repl matched before after : string) :
  lacks "$" repl = true ->
  Upload.substitution repl matched before after = repl.
Proof.
  induction repl as [|c rest IH]; [reflexivity|].
  cbn [lacks]. intros H. apply andb_true_iff in H as [Hc Hrest].
  cbn [Upload.substitution].
  destruct (Ascii.eqb "$" c) eqn:Ec; [discriminate|].
  assert (c <> "$"%char) as Hne.
  { intros ->. discriminate. }
  destruct c as [[|] [|] [|] [|] [|] [|] [|] [|]];
    try (rewrite (IH Hrest); reflexivity).
  congruence.
Qed.

Lemma lacks_app (c : ascii) (a b : string) :
  lacks c (a ++ b) = lacks c a && lacks c b.
Proof.
  induction a as [|d a IH]; [reflexivity|].
  cbn [append lacks]. rewrite IH. apply andb_assoc.
Qed.

Lemma inferResultFilename_name (s : Upload.state) (f : File) :
  Upload.subtitleFile s = Some f ->
  Upload.inferResultFilename s
  = let name := file_name f in
    let ext :=
      match last_index "." name with
      | Some dot => substring dot (String.length name - dot) name
      | None => ".srt"
      end in
    Upload.replace name ext (".repositioned" ++ ext).
Proof. intros H. unfold Upload.inferResultFilename. rewrite H. reflexivity. Qed.

(** X5. The name the upload application proposes for the result: with a
    subtitle file named [stem.ext], where neither part has a dot and the
    extension has no dollar sign, it is [stem.repositioned.ext]; a name
    without any dot is proposed unchanged (the pattern [.srt] does not
    occur in it); without a subtitle file it is
    [repositioned_subtitles.srt]. *)
Theorem inferResultFilename_spec :
  (forall s f stem e,
      Upload.subtitleFile s = Some f ->
      file_name f = stem ++ "." ++ e ->
      lacks "." stem = true -> lacks "." e = true -> lacks "$" e = true ->
      Upload.inferResultFilename s = stem ++ ".repositioned." ++ e)
  /\ (forall s f,
         Upload.subtitleFile s = Some f -> lacks "." (file_name f) = true ->
         Upload.inferResultFilename s = file_name f)
  /\ (forall s,
         Upload.subtitleFile s = None ->
         Upload.inferResultFilename s = "repositioned_subtitles.srt").
Proof.
  split; [|split].
  - intros s f stem e Hsub Hname Hstem He Hdollar.
    rewrite (inferResultFilename_name s f Hsub). cbn zeta. rewrite Hname.
    change ("." ++ e) with (String "." e).
    rewrite (last_index_after_stem "." stem e He), length_app.
    replace (String.length stem + String.length (String "." e) - String.length stem)%nat
      with (String.length (String "." e)) by lia.
    rewrite substring_rest.
    unfold Upload.replace.
    rewrite (index_after_stem stem e Hstem), length_app.
    replace (String.length stem + String.length (String "." e)
             - (String.length stem + String.length (String "." e)))%nat
      with 0%nat by lia.
    rewrite substring_none, substring_stem, append_empty_r.
    rewrite substitution_plain.
    + reflexivity.
    + change (".repositioned" ++ String "." e) with (".repositioned." ++ e).
      rewrite lacks_app, Hdollar. reflexivity.
  - intros s f Hsub Hdot.
    rewrite (inferResultFilename_name s f Hsub). cbn zeta.
    rewrite (lacks_last_index _ _ Hdot). unfold Upload.replace.
    rewrite (index_no_dot "srt" _ Hdot). reflexivity.
  - intros s Hsub. unfold Upload.inferResultFilename. rewrite Hsub. reflexivity.
Qed.
End FileNames.

Lemma download_name_spec_witness :
  Overlay.download_name
    (Some {| Web.file_name := "my.film.srt"; Web.file_size := 1;
             Web.file_content := "x" |})
  = "my.film_repositioned.srt".
Proof.
  apply (proj1 download_name_spec _ "my.film" "srt"); [reflexivity|discriminate|reflexivity].
Defined.

Lemma inferResultFilename_spec_witness :
  Upload.inferResultFilename Props.upload_ready = "clip.repositioned.srt".
Proof.
  apply (proj1 inferResultFilename_spec Props.upload_ready Props.sample_subtitles
           "clip" "srt"); reflexivity.
Defined.

(** ** Calls of the overlay application *)

Section OverlayCalls.
Import JSNumber JS Web Props.

Lemma callRepositionAPI_call (s : Overlay.state) :
  (same_call s (fst (Overlay.callRepositionAPI s))
   /\ snd (Overlay.callRepositionAPI s) = [])
  \/ (Overlay.tasks (fst (Overlay.callRepositionAPI s))
      = (Overlay.tasks s ++ [Overlay.RepositionFetch])%list
      /\ Overlay.isProcessing (fst (Overlay.callRepositionAPI s)) = true
      /\ Overlay.currentTime (fst (Overlay.callRepositionAPI s))
         = Overlay.currentTime s
      /\ Overlay.videoFile s <> None /\ Overlay.subtitleFile s <> None
      /\ Overlay.backendBaseUrl s <> ""
      /\ exists r, snd (Overlay.callRepositionAPI s) = [Fetch r]).
Proof.
  unfold Overlay.callRepositionAPI, Overlay.validateInputs, same_call.
  destruct (Overlay.videoFile s) as [v|]; [|left; repeat split; reflexivity].
  destruct (Overlay.subtitleFile s) as [f|]; [|left; repeat split; reflexivity].
  cbn [negb Overlay.backendBaseUrl Overlay.setError].
  destruct (Overlay.backendBaseUrl s =? "")%string eqn:E;
    [left; repeat split; reflexivity|].
  right. cbn [fst snd].
  split; [reflexivity|]. split; [reflexivity|]. split; [reflexivity|].
  split; [discriminate|]. split; [discriminate|].
  split; [intros H; rewrite H in E; discriminate|].
  eexists. reflexivity.
Qed.

Lemma downloadRepositionedSRT_call (s : Overlay.state) :
  (same_call s (fst (Overlay.downloadRepositionedSRT s))
   /\ snd (Overlay.downloadRepositionedSRT s) = [])
  \/ (Overlay.tasks (fst (Overlay.downloadRepositionedSRT s))
      = (Overlay.tasks s ++ [Overlay.DownloadFetch (Overlay.subtitleFile s)])%list
      /\ Overlay.isProcessing (fst (Overlay.downloadRepositionedSRT s)) = true
      /\ Overlay.currentTime (fst (Overlay.downloadRepositionedSRT s))
         = Overlay.currentTime s
      /\ Overlay.videoFile s <> None /\ Overlay.subtitleFile s <> None
      /\ Overlay.backendBaseUrl s <> ""
      /\ exists r, snd (Overlay.downloadRepositionedSRT s) = [Fetch r]).
Proof.
  unfold Overlay.downloadRepositionedSRT, Overlay.validateInputs, same_call.
  destruct (Overlay.videoFile s) as [v|] eqn:Ev;
    [|left; repeat split; reflexivity].
  destruct (Overlay.subtitleFile s) as [f|] eqn:Ef;
    [|left; repeat split; reflexivity].
  cbn [negb Overlay.backendBaseUrl Overlay.setError].
  destruct (Overlay.backendBaseUrl s =? "")%string eqn:E;
    [left; repeat split; reflexivity|].
  right. cbn [fst snd].
  split.
  { unfold Overlay.add_task.
    cbn [Overlay.tasks Overlay.setTasks Overlay.subtitleFile Overlay.setProgress
           Overlay.setStatus Overlay.setIsProcessing Overlay.setError].
    rewrite Ef. reflexivity. }
  split; [reflexivity|]. split; [reflexivity|].
  split; [discriminate|]. split; [discriminate|].
  split; [intros H; rewrite H in E; discriminate|].
  eexists. reflexivity.
Qed.

Ltac resume_branches H :=
  repeat match type of H with
    | context [if ?c then _ else _] => destruct c
    | context [match Overlay.response_cues ?d with _ => _ end] =>
        destruct (Overlay.response_cues d)
    end;
  inversion H; subst; clear H.

Lemma resume_call t o s next s1 effects :
  Overlay.resume t o s = Some (next, s1, effects) ->
  Overlay.tasks s1 = Overlay.tasks s
  /\ Overlay.currentTime s1 = Overlay.currentTime s
  /\ Overlay.isProcessing s1
     = match next with Some _ => Overlay.isProcessing s | None => false end.
Proof.
  intros E. unfold Overlay.resume in E.
  destruct t; destruct o; try discriminate; resume_branches E;
    repeat split; reflexivity.
Qed.

(** The events that start or resume no call. *)
Lemma overlay_step_call s e s' effects :
  Overlay.step s e = Some (s', effects) ->
  match e with
  | Overlay.RepositionClick =>
      Overlay.actions_disabled s = false
      /\ s' = fst (Overlay.callRepositionAPI s)
      /\ effects = snd (Overlay.callRepositionAPI s)
  | Overlay.DownloadClick =>
      Overlay.actions_disabled s = false
      /\ s' = fst (Overlay.downloadRepositionedSRT s)
      /\ effects = snd (Overlay.downloadRepositionedSRT s)
  | Overlay.Settle i o =>
      exists t next s1,
        nth_error (Overlay.tasks s) i = Some t
        /\ Overlay.resume t o s = Some (next, s1, effects)
        /\ s' = Overlay.setTasks (replace_nth i next (Overlay.tasks s1)) s1
  | Overlay.TimeUpdate t =>
      Overlay.tasks s' = Overlay.tasks s
      /\ Overlay.isProcessing s' = Overlay.isProcessing s
      /\ Overlay.currentTime s' = (if JSNumber.truthy t then t else of_Z 0)
  | _ => same_call s s'
  end.
Proof.
  intros H. destruct e; cbn [Overlay.step] in H.
  - injection H as <- _. unfold Overlay.mount, same_call.
    destruct envUrl as [u|]; [destruct (negb (u =? "")%string)|];
      try (destruct location as [[proto host]|]); repeat split; reflexivity.
  - injection H as <- _. repeat split; reflexivity.
  - injection H as <- _. repeat split; reflexivity.
  - injection H as <- _. repeat split; reflexivity.
  - injection H as <- _. repeat split; reflexivity.
  - injection H as <- _. repeat split; reflexivity.
  - destruct (Overlay.videoUrl s) eqn:E; [|discriminate].
    injection H as <- _. unfold Overlay.onTimeUpdate. rewrite E.
    repeat split; reflexivity.
  - destruct (Overlay.actions_disabled s); [discriminate|].
    injection H as H. rewrite H. repeat split; reflexivity.
  - destruct (Overlay.actions_disabled s); [discriminate|].
    injection H as H. rewrite H. repeat split; reflexivity.
  - destruct (nth_error (Overlay.tasks s) i) as [t|] eqn:En; [|discriminate].
    destruct (Overlay.resume t o s) as [[[next s1] eff]|] eqn:E; [|discriminate].
    injection H as <- <-. exists t, next, s1.
    split; [reflexivity|]. split; [exact E|reflexivity].
Qed.

Lemma one_call_same s s' : same_call s s' -> one_call s -> one_call s'.
Proof.
  intros (Ht & Hp & _) [[H1 H2] | (t & H1 & H2)]; [left|right; exists t];
    rewrite Ht, Hp; auto.
Qed.

Lemma actions_enabled_idle (s : Overlay.state) :
  Overlay.actions_disabled s = false -> Overlay.isProcessing s = false.
Proof.
  unfold Overlay.actions_disabled. destruct (Overlay.isProcessing s);
    [discriminate|reflexivity].
Qed.

Lemma overlay_step_one_call s e s' effects :
  Overlay.step s e = Some (s', effects) -> one_call s -> one_call s'.
Proof.
  intros Hstep Hinv. pose proof (overlay_step_call s e s' effects Hstep) as H.
  destruct e; try (eapply one_call_same; eassumption).
  - destruct H as (Ht & Hp & _). destruct Hinv as [[H1 H2] | (t0 & H1 & H2)];
      [left|right; exists t0]; rewrite Ht, Hp; auto.
  - destruct H as (Hen & -> & _). apply actions_enabled_idle in Hen.
    destruct Hinv as [[H1 H2] | (t0 & _ & H2)]; [|congruence].
    destruct (callRepositionAPI_call s) as [[Hsame _] | (Ht & Hp & _)].
    + eapply one_call_same; [exact Hsame|left; auto].
    + right. eexists. rewrite Ht, H1. split; [reflexivity|exact Hp].
  - destruct H as (Hen & -> & _). apply actions_enabled_idle in Hen.
    destruct Hinv as [[H1 H2] | (t0 & _ & H2)]; [|congruence].
    destruct (downloadRepositionedSRT_call s) as [[Hsame _] | (Ht & Hp & _)].
    + eapply one_call_same; [exact Hsame|left; auto].
    + right. eexists. rewrite Ht, H1. split; [reflexivity|exact Hp].
  - destruct H as (t & next & s1 & Hnth & Hres & ->).
    destruct (resume_call _ _ _ _ _ _ Hres) as (Ht & _ & Hp).
    destruct Hinv as [[H1 _] | (t0 & H1 & H2)].
    + rewrite H1 in Hnth. destruct i; discriminate.
    + rewrite H1 in Hnth. destruct i as [|i]; [|destruct i; discriminate].
      unfold one_call.
      cbn [Overlay.tasks Overlay.isProcessing Overlay.setTasks].
      rewrite Ht, H1, Hp. destruct next as [t'|].
      * right. exists t'. split; [reflexivity|exact H2].
      * left. split; reflexivity.
Qed.

Lemma overlay_one_call (s : Overlay.state) : Overlay.reachable s -> one_call s.
Proof.
  induction 1 as [|s e s' effects Hs IH Hstep]; [left; split; reflexivity|].
  eapply overlay_step_one_call; eauto.
Qed.

(** X6. The overlay application never has two calls in flight: in every
    state it can reach at most one call is waiting for the backend,
    [isProcessing] is true exactly while one is, and both action buttons
    are disabled during that time, so a click that starts a call finds
    none pending. *)
Theorem overlay_at_most_one_call :
  forall s,
    Overlay.reachable s ->
    (List.length (Overlay.tasks s) <= 1)%nat
    /\ (Overlay.isProcessing s = true <-> Overlay.tasks s <> [])
    /\ (Overlay.tasks s <> [] -> Overlay.actions_disabled s = true)
    /\ (forall e s' effects r,
           Overlay.step s e = Some (s', effects) -> In r (requests effects) ->
           Overlay.tasks s = [] /\ List.length (Overlay.tasks s') = 1%nat).
Proof.
  intros s Hs. pose proof (overlay_one_call s Hs) as Hinv.
  split; [|split; [|split]].
  - destruct Hinv as [[H _] | (t & H & _)]; rewrite H; cbn; lia.
  - destruct Hinv as [[H1 H2] | (t & H1 & H2)]; rewrite H1, H2; split;
      congruence.
  - intros Hne. unfold Overlay.actions_disabled.
    destruct Hinv as [[H1 _] | (t & _ & H2)]; [contradiction|].
    rewrite H2. reflexivity.
  - intros e s' effects r Hstep Hin.
    pose proof (overlay_step_call s e s' effects Hstep) as H.
    pose proof (overlay_settle_no_request s) as Hsettle.
    destruct e; cbn [Overlay.step] in Hstep;
      try (injection Hstep as _ <-; destruct Hin; fail).
    + destruct (Overlay.videoUrl s); [|discriminate].
      injection Hstep as _ <-. destruct Hin.
    + destruct H as (Hen & -> & ->). apply actions_enabled_idle in Hen.
      destruct Hinv as [[H1 H2] | (t0 & _ & H2)]; [|congruence].
      split; [exact H1|].
      destruct (callRepositionAPI_call s) as [[_ Hno] | (Ht & _)].
      * rewrite Hno in Hin. destruct Hin.
      * rewrite Ht, H1. reflexivity.
    + destruct H as (Hen & -> & ->). apply actions_enabled_idle in Hen.
      destruct Hinv as [[H1 H2] | (t0 & _ & H2)]; [|congruence].
      split; [exact H1|].
      destruct (downloadRepositionedSRT_call s) as [[_ Hno] | (Ht & _)].
      * rewrite Hno in Hin. destruct Hin.
      * rewrite Ht, H1. reflexivity.
    + assert (Overlay.step s (Overlay.Settle i o) = Some (s', effects)) as Hstep'
          by exact Hstep.
      rewrite (Hsettle i o s' effects Hstep') in Hin. destruct Hin.
Qed.
End OverlayCalls.

Lemma overlay_at_most_one_call_witness :
  let s := Overlay.exec Props.overlay_ready [Overlay.RepositionClick] in
  Overlay.reachable s
  /\ Overlay.tasks s = [Overlay.RepositionFetch]
  /\ Overlay.actions_disabled s = true
  /\ (Overlay.isProcessing s = true <-> Overlay.tasks s <> []).
Proof.
  intros s.
  assert (Overlay.reachable s) as H
      by (apply overlay_reachable_exec, overlay_reachable_exec; constructor).
  split; [exact H|]. split; [reflexivity|]. split; [reflexivity|].
  apply (overlay_at_most_one_call s H).
Defined.

(** ** Guards and edge cases of the overlay application *)

Section OverlayGuards.
Import JSNumber JS Web Props.

(** X7. A click on either action of the overlay application sends a
    request exactly when a video file and a subtitle file are selected
    and the backend base address is not empty. With both files and an
    empty address the click only sets the error
    [Backend URL is not configured.]: no call starts and [isProcessing]
    keeps its value. *)
Theorem overlay_request_iff_configured :
  forall s,
    (requests (snd (Overlay.callRepositionAPI s)) <> []
     <-> Overlay.videoFile s <> None /\ Overlay.subtitleFile s <> None
         /\ Overlay.backendBaseUrl s <> "")
    /\ (requests (snd (Overlay.downloadRepositionedSRT s)) <> []
        <-> Overlay.videoFile s <> None /\ Overlay.subtitleFile s <> None
            /\ Overlay.backendBaseUrl s <> "")
    /\ (Overlay.videoFile s <> None -> Overlay.subtitleFile s <> None ->
        Overlay.backendBaseUrl s = "" ->
        Overlay.callRepositionAPI s
        = (Overlay.setError "Backend URL is not configured."
             (Overlay.setError "" s), [])
        /\ Overlay.downloadRepositionedSRT s
           = (Overlay.setError "Backend URL is not configured."
                (Overlay.setError "" s), [])).
Proof.
  intros s. split; [|split].
  - split.
    + intros Hreq.
      destruct (callRepositionAPI_call s) as [[_ Hno] | (_ & _ & _ & Hv & Hf & Hb & _)].
      * rewrite Hno in Hreq. contradiction.
      * auto.
    + intros (Hv & Hf & Hb).
      unfold Overlay.callRepositionAPI, Overlay.validateInputs.
      destruct (Overlay.videoFile s); [|contradiction].
      destruct (Overlay.subtitleFile s); [|contradiction].
      cbn [negb Overlay.backendBaseUrl Overlay.setError].
      destruct (Overlay.backendBaseUrl s =? "")%string eqn:E.
      * apply String.eqb_eq in E. contradiction.
      * discriminate.
  - split.
    + intros Hreq.
      destruct (downloadRepositionedSRT_call s)
        as [[_ Hno] | (_ & _ & _ & Hv & Hf & Hb & _)].
      * rewrite Hno in Hreq. contradiction.
      * auto.
    + intros (Hv & Hf & Hb).
      unfold Overlay.downloadRepositionedSRT, Overlay.validateInputs.
      destruct (Overlay.videoFile s); [|contradiction].
      destruct (Overlay.subtitleFile s); [|contradiction].
      cbn [negb Overlay.backendBaseUrl Overlay.setError].
      destruct (Overlay.backendBaseUrl s =? "")%string eqn:E.
      * apply String.eqb_eq in E. contradiction.
      * discriminate.
  - intros Hv Hf Hb.
    unfold Overlay.callRepositionAPI, Overlay.downloadRepositionedSRT,
      Overlay.validateInputs.
    destruct (Overlay.videoFile s); [|contradiction].
    destruct (Overlay.subtitleFile s); [|contradiction].
    cbn [negb Overlay.backendBaseUrl Overlay.setError]. rewrite Hb.
    split; reflexivity.
Qed.

(** *** The playback time *)

Lemma overlay_step_time s e s' effects :
  Overlay.step s e = Some (s', effects) ->
  Overlay.currentTime s' = Overlay.currentTime s
  \/ exists t, Overlay.currentTime s' = (if JSNumber.truthy t then t else of_Z 0).
Proof.
  intros Hstep. pose proof (overlay_step_call s e s' effects Hstep) as H.
  destruct e; try (left; apply H).
  - right. exists t. apply H.
  - destruct H as (_ & -> & _).
    destruct (callRepositionAPI_call s) as [[(_ & _ & Ht) _] | (_ & _ & Ht & _)];
      left; exact Ht.
  - destruct H as (_ & -> & _).
    destruct (downloadRepositionedSRT_call s)
      as [[(_ & _ & Ht) _] | (_ & _ & Ht & _)]; left; exact Ht.
  - destruct H as (t & next & s1 & _ & Hres & ->).
    destruct (resume_call _ _ _ _ _ _ Hres) as (_ & Ht & _).
    left. exact Ht.
Qed.

(** X8. The playback time the overlay application keeps is never [NaN]
    and never negative zero: [onTimeUpdate] stores
    [videoRef.current.currentTime || 0], so in every reachable state the
    time is [0] or a number that is truthy. *)
Theorem overlay_time_is_a_number :
  forall s,
    Overlay.reachable s ->
    (Overlay.currentTime s = of_Z 0
     \/ JSNumber.truthy (Overlay.currentTime s) = true)
    /\ is_nan (Overlay.currentTime s) = false
    /\ Overlay.currentTime s <> S754_zero true.
Proof.
  intros s Hs.
  assert (Overlay.currentTime s = of_Z 0
          \/ JSNumber.truthy (Overlay.currentTime s) = true) as H.
  { induction Hs as [|s e s' effects Hs IH Hstep]; [left; reflexivity|].
    destruct (overlay_step_time s e s' effects Hstep) as [-> | [t ->]];
      [exact IH|].
    destruct (JSNumber.truthy t) eqn:E; [right; exact E|left; reflexivity]. }
  split; [exact H|].
  destruct H as [-> | H]; [split; [reflexivity|discriminate]|].
  destruct (Overlay.currentTime s); try discriminate; split;
    try reflexivity; discriminate.
Qed.

(** *** Responses *)

(** X9. The Reset button clears the cues, the status, the progress and
    the error, but it cancels nothing: the pending call and
    [isProcessing] stay, and when the response of a call started before
    the reset arrives, its cues are stored and the status becomes
    [Done] as if there had been no reset. *)
Theorem reset_does_not_cancel :
  forall s i data items,
    nth_error (Overlay.tasks s) i = Some Overlay.RepositionJson ->
    Overlay.response_cues data = Some items ->
    let s1 := Overlay.resetClick s in
    Overlay.cues s1 = [] /\ Overlay.status s1 = "Idle"
    /\ Overlay.progress s1 = of_Z 0 /\ Overlay.error s1 = ""
    /\ Overlay.tasks s1 = Overlay.tasks s
    /\ Overlay.isProcessing s1 = Overlay.isProcessing s
    /\ Overlay.videoFile s1 = Overlay.videoFile s
    /\ Overlay.subtitleFile s1 = Overlay.subtitleFile s
    /\ exists s2,
        Overlay.step s1 (Overlay.Settle i (BodyJson data)) = Some (s2, [])
        /\ Overlay.cues s2 = items /\ Overlay.status s2 = "Done"
        /\ Overlay.progress s2 = of_Z 100 /\ Overlay.isProcessing s2 = false.
Proof.
  intros s i data items Hnth Hdata s1.
  repeat (split; [reflexivity|]).
  assert (Overlay.tasks s1 = Overlay.tasks s) as Ht by reflexivity.
  eexists. split.
  - cbn [Overlay.step]. rewrite Ht, Hnth. cbn [Overlay.resume].
    rewrite Hdata. reflexivity.
  - repeat split; reflexivity.
Qed.

(** X10. A response of the reposition endpoint that is not an object
    with an array under [cues] (for instance [null], a number, or an
    object whose [cues] is a string) ends the call with the error
    [Unexpected response format from backend.] and the status [Error];
    the cues shown before and the progress stay as they were. *)
Theorem malformed_response_keeps_cues :
  forall s i data,
    nth_error (Overlay.tasks s) i = Some Overlay.RepositionJson ->
    (forall fields items,
        data = JObj fields -> lookup "cues" fields <> Some (JArr items)) ->
    exists s',
      Overlay.step s (Overlay.Settle i (BodyJson data)) = Some (s', [])
      /\ Overlay.error s' = "Unexpected response format from backend."
      /\ Overlay.status s' = "Error"
      /\ Overlay.cues s' = Overlay.cues s
      /\ Overlay.progress s' = Overlay.progress s
      /\ Overlay.isProcessing s' = false
      /\ Overlay.tasks s' = replace_nth i None (Overlay.tasks s).
Proof.
  intros s i data Hnth Hdata.
  assert (Overlay.response_cues data = None) as Hnone.
  { destruct (Overlay.response_cues data) as [items|] eqn:E; [|reflexivity].
    apply response_cues_spec in E. destruct E as (fields & -> & Hl).
    destruct (Hdata fields items eq_refl Hl). }
  eexists. split.
  - cbn [Overlay.step]. rewrite Hnth. cbn [Overlay.resume].
    rewrite Hnone. reflexivity.
  - repeat split; reflexivity.
Qed.
End OverlayGuards.

Section CueShapes.
Import JSNumber JS Web Props.
Context {rt : Runtime}.

Lemma filter_result_throws (t : number) (pre post : list json) (c : json) (e : exn) :
  Forall timed pre -> Overlay.is_active t c = Throw e ->
  Overlay.filter_result (Overlay.is_active t) (pre ++ c :: post) = Throw e.
Proof.
  intros Hpre Hc. induction Hpre as [|p pre Hp _ IH]; cbn [app Overlay.filter_result].
  - rewrite Hc. reflexivity.
  - rewrite (is_active_timed t p Hp). cbn [bind]. rewrite IH. reflexivity.
Qed.

(** X11. The cues of a response are not checked one by one. A cue that
    is not an object (a number, a string, a boolean or an array), or an
    object without a [start], is never active. A cue that is [null]
    makes the computation of the active cues throw a [TypeError] as soon
    as the cues before it are well formed, whatever the playback time. *)
Theorem cue_shapes :
  (forall t c,
      match c with
      | JBool _ | JNum _ | JStr _ | JArr _ => True
      | JObj fields => lookup "start" fields = None
      | JNull => False
      end ->
      Overlay.is_active t c = Ok false)
  /\ (forall t pre post,
         Forall timed pre ->
         Overlay.activeCues (pre ++ JNull :: post) t
         = Throw (TypeError "Cannot read properties of null (reading 'start')")).
Proof.
  split.
  - intros t c Hc. unfold Overlay.is_active.
    destruct c as [|b|x|str|items|fields]; try contradiction;
      cbn [get bind prop_name]; try rewrite Hc;
      cbn [bind ge_value ToNumber]; unfold ge, SFleb;
      destruct t; reflexivity.
  - intros t pre post Hpre. unfold Overlay.activeCues.
    destruct (pre ++ JNull :: post)%list eqn:E.
    + destruct pre; discriminate.
    + rewrite <- E. apply filter_result_throws; [exact Hpre|reflexivity].
Qed.
End CueShapes.

Lemma overlay_request_iff_configured_witness :
  let s := Overlay.exec Overlay.initial
             [Overlay.VideoChange [Props.sample_video];
              Overlay.SubChange [Props.sample_subtitles]] in
  Overlay.videoFile s <> None /\ Overlay.subtitleFile s <> None
  /\ Overlay.backendBaseUrl s = ""
  /\ Overlay.error (fst (Overlay.callRepositionAPI s))
     = "Backend URL is not configured.".
Proof.
  intros s.
  assert (Overlay.videoFile s <> None) as Hv by (vm_compute; discriminate).
  assert (Overlay.subtitleFile s <> None) as Hf by (vm_compute; discriminate).
  assert (Overlay.backendBaseUrl s = "") as Hb by reflexivity.
  split; [exact Hv|]. split; [exact Hf|]. split; [exact Hb|].
  rewrite (proj1 (proj2 (proj2 (overlay_request_iff_configured s)) Hv Hf Hb)).
  reflexivity.
Defined.

Lemma overlay_time_is_a_number_witness :
  let s := Overlay.exec Props.overlay_ready [Overlay.TimeUpdate JSNumber.NaN] in
  Overlay.reachable s /\ Overlay.currentTime s = JSNumber.of_Z 0
  /\ JSNumber.is_nan (Overlay.currentTime s) = false.
Proof.
  intros s.
  assert (Overlay.reachable s) as H
      by (apply overlay_reachable_exec, overlay_reachable_exec; constructor).
  split; [exact H|]. split; [reflexivity|].
  apply (overlay_time_is_a_number s H).
Defined.

Lemma reset_does_not_cancel_witness :
  let s := Overlay.exec Props.overlay_ready
             [Overlay.RepositionClick; Overlay.Settle 0 Props.ok200] in
  let data := JS.JObj [("cues", JS.JArr Props.sample_cues)] in
  nth_error (Overlay.tasks s) 0 = Some Overlay.RepositionJson
  /\ Overlay.response_cues data = Some Props.sample_cues
  /\ Overlay.status (Overlay.resetClick s) = "Idle"
  /\ exists s2,
      Overlay.step (Overlay.resetClick s) (Overlay.Settle 0 (Web.BodyJson data))
      = Some (s2, [])
      /\ Overlay.cues s2 = Props.sample_cues /\ Overlay.status s2 = "Done".
Proof.
  intros s data.
  assert (nth_error (Overlay.tasks s) 0 = Some Overlay.RepositionJson) as H1
      by (vm_compute; reflexivity).
  assert (Overlay.response_cues data = Some Props.sample_cues) as H2
      by reflexivity.
  split; [exact H1|]. split; [exact H2|].
  destruct (reset_does_not_cancel s 0%nat data Props.sample_cues H1 H2)
    as (_ & Hst & _ & _ & _ & _ & _ & _ & s2 & Hstep & Hc & Hd & _).
  split; [exact Hst|]. exists s2. auto.
Defined.

Lemma malformed_response_keeps_cues_witness :
  let s := Overlay.exec Props.overlay_ready
             [Overlay.RepositionClick; Overlay.Settle 0 Props.ok200] in
  nth_error (Overlay.tasks s) 0 = Some Overlay.RepositionJson
  /\ exists s',
      Overlay.step s (Overlay.Settle 0 (Web.BodyJson JS.JNull)) = Some (s', [])
      /\ Overlay.error s' = "Unexpected response format from backend."
      /\ Overlay.status s' = "Error".
Proof.
  intros s.
  assert (nth_error (Overlay.tasks s) 0 = Some Overlay.RepositionJson) as H1
      by (vm_compute; reflexivity).
  split; [exact H1|].
  destruct (malformed_response_keeps_cues s 0%nat JS.JNull H1
              ltac:(discriminate))
    as (s' & Hstep & He & Hst & _).
  exists s'. auto.
Defined.

Lemma cue_shapes_witness :
  Forall Props.timed [Props.sample_cue 1 3 "first" "top"]
  /\ @Overlay.activeCues Props.sample_runtime
       [Props.sample_cue 1 3 "first" "top"; JS.JNull] (JSNumber.of_Z 2)
     = JS.Throw (JS.TypeError "Cannot read properties of null (reading 'start')").
Proof.
  assert (Forall Props.timed [Props.sample_cue 1 3 "first" "top"]) as H.
  { constructor; [vm_compute; discriminate|constructor]. }
  split; [exact H|].
  apply (proj2 (@cue_shapes Props.sample_runtime) (JSNumber.of_Z 2)
           [Props.sample_cue 1 3 "first" "top"] [] H).
Defined.

(** ** The progress of the upload application *)

Section UploadProgress.
Import JSNumber JS Web Props.

Lemma number_eqb_eq (x y : number) : number_eqb x y = true -> x = y.
Proof.
  destruct x as [a|a| |a m e], y as [b|b| |b m' e']; cbn [number_eqb];
    try discriminate; try reflexivity.
  - intros H. apply Bool.eqb_prop in H. congruence.
  - intros H. apply Bool.eqb_prop in H. congruence.
  - intros H. apply andb_true_iff in H as [H He].
    apply andb_true_iff in H as [Hs Hm].
    apply Bool.eqb_prop in Hs. apply Pos.eqb_eq in Hm. apply Z.eqb_eq in He.
    congruence.
Qed.

Lemma timer_eqb_eq (a b : Upload.timer) : timer_eqb a b = true -> a = b.
Proof.
  unfold timer_eqb. intros H.
  repeat match type of H with
         | (_ && _)%bool = true => apply andb_true_iff in H as [H ?]
         end.
  destruct a, b. cbn in *.
  repeat match goal with
         | Heq : number_eqb _ _ = true |- _ => apply number_eqb_eq in Heq
         end.
  congruence.
Qed.

Lemma is_percent_In (x : number) : is_percent x = true -> In x percents.
Proof.
  unfold is_percent. intros H. apply existsb_exists in H as (y & Hy & Heq).
  apply number_eqb_eq in Heq. subst y. exact Hy.
Qed.

Lemma is_percent_whole (x : number) : is_percent x = true -> whole_percent x.
Proof.
  intros H. apply is_percent_In in H. unfold percents in H.
  apply in_map_iff in H as (k & <- & Hk). apply in_seq in Hk.
  exists (Z.of_nat k). split; [lia|reflexivity].
Qed.

Lemma is_live_In (tm : Upload.timer) : is_live tm = true -> In tm live_timers.
Proof.
  unfold is_live. intros H. apply existsb_exists in H as (y & Hy & Heq).
  apply timer_eqb_eq in Heq. subst y. exact Hy.
Qed.

Lemma ticks_closed : forallb tick_closed live_timers = true.
Proof. vm_compute. reflexivity. Qed.

(** The progress is a whole percentage and every timer is live. *)
Lemma ticked_percent (p : number) (tm : Upload.timer) :
  is_percent p = true -> is_live tm = true -> is_percent (ticked p tm) = true.
Proof.
  intros Hp Htm. apply is_percent_In in Hp. apply is_live_In in Htm.
  pose proof ticks_closed as H. rewrite forallb_forall in H.
  specialize (H tm Htm). unfold tick_closed in H.
  apply andb_true_iff in H as [H _]. rewrite forallb_forall in H.
  exact (H p Hp).
Qed.

Lemma advance_live (tm : Upload.timer) :
  is_live tm = true ->
  ge (Upload.tm_count (advance tm)) (Upload.tm_steps tm) = false ->
  is_live (advance tm) = true.
Proof.
  intros Htm Hge. apply is_live_In in Htm.
  pose proof ticks_closed as H. rewrite forallb_forall in H.
  specialize (H tm Htm). unfold tick_closed in H.
  apply andb_true_iff in H as [_ H]. rewrite Hge in H. exact H.
Qed.

Lemma raise_percent (p from : number) :
  raise_closed from = true -> is_percent p = true ->
  is_percent (JSNumber.max p from) = true.
Proof.
  intros H Hp. apply is_percent_In in Hp. unfold raise_closed in H.
  rewrite forallb_forall in H. exact (H p Hp).
Qed.

Lemma simulateProgress_progress (from to durationMs : number) (s : Upload.state) :
  Upload.progress (Upload.simulateProgress from to durationMs s)
  = JSNumber.max (Upload.progress s) from.
Proof. reflexivity. Qed.

Lemma simulateProgress_ok (from to durationMs : number) (s : Upload.state) :
  raise_closed from = true -> is_live (started from to durationMs) = true ->
  progress_ok s -> progress_ok (Upload.simulateProgress from to durationMs s).
Proof.
  intros Hraise Hlive [Hp Ht]. split.
  - rewrite simulateProgress_progress. apply raise_percent; assumption.
  - rewrite simulateProgress_timers. apply Forall_app. split; [exact Ht|].
    constructor; [exact Hlive|constructor].
Qed.

Lemma progress_ok_same (s s' : Upload.state) :
  Upload.progress s' = Upload.progress s -> Upload.timers s' = Upload.timers s ->
  progress_ok s -> progress_ok s'.
Proof. intros Hp Ht [H1 H2]. split; [rewrite Hp|rewrite Ht]; assumption. Qed.

Lemma progress_ok_set (p : number) (s s' : Upload.state) :
  Upload.progress s' = p -> is_percent p = true ->
  Upload.timers s' = Upload.timers s ->
  progress_ok s -> progress_ok s'.
Proof. intros Hp Hok Ht [H1 H2]. split; [rewrite Hp|rewrite Ht]; assumption. Qed.

Lemma closed_10 : raise_closed (of_Z 10) = true.
Proof. vm_compute. reflexivity. Qed.
Lemma closed_60 : raise_closed (of_Z 60) = true.
Proof. vm_compute. reflexivity. Qed.
Lemma closed_90 : raise_closed (of_Z 90) = true.
Proof. vm_compute. reflexivity. Qed.
Lemma live_10 : is_live (started (of_Z 10) (of_Z 60) (of_Z 800)) = true.
Proof. vm_compute. reflexivity. Qed.
Lemma live_60 : is_live (started (of_Z 60) (of_Z 90) (of_Z 600)) = true.
Proof. vm_compute. reflexivity. Qed.
Lemma live_90 : is_live (started (of_Z 90) (of_Z 100) (of_Z 200)) = true.
Proof. vm_compute. reflexivity. Qed.
Lemma percent_0 : is_percent (of_Z 0) = true.
Proof. vm_compute. reflexivity. Qed.
Lemma percent_100 : is_percent (of_Z 100) = true.
Proof. vm_compute. reflexivity. Qed.

Lemma add_task_progress (t : Upload.task) (s : Upload.state) :
  Upload.progress (Upload.add_task t s) = Upload.progress s.
Proof. reflexivity. Qed.

Lemma handleSubmit_ok envUrl (s : Upload.state) :
  progress_ok s -> progress_ok (fst (Upload.handleSubmit envUrl s)).
Proof.
  intros Hs.
  assert (progress_ok (Upload.setProgress (of_Z 0) (Upload.resetResult s))) as H0.
  { eapply (progress_ok_set (of_Z 0)); [reflexivity|exact percent_0| |exact Hs].
    reflexivity. }
  unfold Upload.handleSubmit, Upload.validateInputs.
  cbn [Upload.videoFile Upload.subtitleFile Upload.setProgress
         Upload.resetResult Upload.setResultFilename Upload.setDownloadUrl].
  destruct (Upload.videoFile s); [destruct (Upload.subtitleFile s) as [sub|]|];
    try (destruct (negb (Upload.supported (file_name sub))));
    cbn [negb fst];
    try (eapply progress_ok_same; [| |exact H0]; reflexivity).
  eapply progress_ok_same; [apply add_task_progress|apply add_task_timers|].
  apply simulateProgress_ok; [exact closed_10|exact live_10|].
  eapply progress_ok_same; [| |exact H0]; reflexivity.
Qed.

Lemma failed_ok (err : exn) (s : Upload.state) :
  progress_ok s -> progress_ok (Upload.failed err s).
Proof.
  intros Hs. eapply (progress_ok_set (of_Z 0)); [|exact percent_0| |exact Hs];
    unfold Upload.failed; destruct (_ =? _)%string; reflexivity.
Qed.

Lemma resume_ok t o s next s1 effects :
  Upload.resume t o s = Some (next, s1, effects) ->
  progress_ok s -> progress_ok s1.
Proof.
  intros E Hs. unfold Upload.resume in E.
  destruct t as [ctrl|ctrl status|ctrl]; destruct o as [resp|text|data|blob|err];
    try discriminate.
  - destruct (resp_ok resp); injection E as _ <- _.
    + apply simulateProgress_ok; [exact closed_60|exact live_60|].
      eapply progress_ok_same; [| |exact Hs]; reflexivity.
    + exact Hs.
  - injection E as _ <- _. apply failed_ok, Hs.
  - injection E as _ <- _. apply failed_ok, Hs.
  - injection E as _ <- _. apply failed_ok, Hs.
  - injection E as _ <- _.
    pose proof (simulateProgress_ok (of_Z 90) (of_Z 100) (of_Z 200) s
                  closed_90 live_90 Hs) as H.
    eapply (progress_ok_set (of_Z 100)); [|exact percent_100| |exact H];
      reflexivity.
  - injection E as _ <- _. apply failed_ok, Hs.
Qed.

Lemma tick_spec (i : nat) (s s' : Upload.state) :
  Upload.tick i s = Some s' ->
  exists tm,
    nth_error (Upload.timers s) i = Some tm
    /\ Upload.progress s' = ticked (Upload.progress s) tm
    /\ Upload.timers s'
       = replace_nth i
           (if ge (Upload.tm_count (advance tm)) (Upload.tm_steps tm)
            then None else Some (advance tm))
           (Upload.timers s).
Proof.
  unfold Upload.tick. intros H.
  destruct (nth_error (Upload.timers s) i) as [tm|]; [|discriminate].
  injection H as <-. exists tm. repeat split; reflexivity.
Qed.

Lemma tick_ok (i : nat) (s s' : Upload.state) :
  Upload.tick i s = Some s' -> progress_ok s -> progress_ok s'.
Proof.
  intros H [Hp Ht]. destruct (tick_spec i s s' H) as (tm & Hnth & Hprog & Htimers).
  assert (is_live tm = true) as Hlive.
  { rewrite Forall_forall in Ht. apply Ht. eapply nth_error_In, Hnth. }
  split.
  - rewrite Hprog. apply ticked_percent; assumption.
  - rewrite Htimers. apply Forall_replace_nth; [exact Ht|].
    intros a Ha.
    destruct (ge (Upload.tm_count (advance tm)) (Upload.tm_steps tm)) eqn:Hge;
      [discriminate|].
    injection Ha as <-. apply advance_live; assumption.
Qed.

Lemma upload_step_ok envUrl s e s' effects :
  Upload.step envUrl s e = Some (s', effects) -> progress_ok s -> progress_ok s'.
Proof.
  intros H Hs. destruct e; cbn [Upload.step] in H.
  - injection H as <- _. exact Hs.
  - injection H as <- _. unfold Upload.onPickVideo.
    destruct (hd_error files); exact Hs.
  - injection H as <- _. unfold Upload.onPickSubtitle.
    destruct (hd_error files) as [file|]; [|exact Hs].
    destruct (negb (Upload.supported (file_name file))); exact Hs.
  - destruct (Upload.allowSubmit s); [|discriminate].
    assert (s' = fst (Upload.handleSubmit envUrl s)) as ->
        by (injection H as H; rewrite H; reflexivity).
    apply handleSubmit_ok, Hs.
  - destruct (Upload.uploading s); [|discriminate].
    injection H as <- _. unfold Upload.cancelUpload.
    destruct (Upload.abortControllerRef s); exact Hs.
  - destruct (Upload.downloadUrl s); [|discriminate].
    injection H as <- _. exact Hs.
  - destruct (Upload.tick i s) as [s1|] eqn:E; [|discriminate].
    injection H as <- _. eapply tick_ok; eauto.
  - destruct (nth_error (Upload.tasks s) i) as [t|]; [|discriminate].
    destruct (Upload.may_settle s t o); [|discriminate].
    destruct (Upload.resume t o s) as [[[next s1] eff]|] eqn:E; [|discriminate].
    injection H as <- _.
    eapply progress_ok_same; [| |eapply resume_ok; eauto]; reflexivity.
Qed.

Lemma upload_progress_ok envUrl (s : Upload.state) :
  Upload.reachable envUrl s -> progress_ok s.
Proof.
  induction 1 as [|s e s' effects Hs IH Hstep].
  - split; [exact percent_0|constructor].
  - eapply upload_step_ok; eauto.
Qed.

Lemma percents_shown : forallb shown_as_is percents = true.
Proof. vm_compute. reflexivity. Qed.

Lemma live_pull_down : forallb pulls_down live_timers = true.
Proof. vm_compute. reflexivity. Qed.

(** X12. In every state the upload application can reach, the progress
    is a whole number from 0 to 100, whatever the order in which the
    timers of the three simulations fire and the requests settle; so the
    clamp of [ProgressBar] never changes it, and the bar is as wide as
    the progress says. *)
Theorem upload_progress_is_a_percentage :
  forall envUrl s,
    Upload.reachable envUrl s ->
    whole_percent (Upload.progress s)
    /\ le (of_Z 0) (Upload.progress s) = true
    /\ le (Upload.progress s) (of_Z 100) = true
    /\ View.clamp (Upload.progress s) = Upload.progress s
    /\ View.ProgressBar (Upload.progress s)
       = JSNumber.to_string (Upload.progress s) ++ "%".
Proof.
  intros envUrl s Hs. destruct (upload_progress_ok envUrl s Hs) as [Hp _].
  split; [apply is_percent_whole, Hp|].
  pose proof percents_shown as H. rewrite forallb_forall in H.
  specialize (H _ (is_percent_In _ Hp)). unfold shown_as_is in H.
  apply andb_true_iff in H as [H Hclamp]. apply andb_true_iff in H as [H0 H100].
  apply number_eqb_eq in Hclamp.
  split; [exact H0|]. split; [exact H100|]. split; [exact Hclamp|].
  unfold View.ProgressBar. rewrite Hclamp. reflexivity.
Qed.

(** X13. The simulated progress can go backwards. The timer of a
    simulation keeps firing after the next simulation has started, and
    each tick caps the progress at the target of its own simulation: in a
    reachable state whose progress is above the target of one of its
    timers, a tick of that timer sets the progress back to that
    target. *)
Theorem tick_pulls_progress_down :
  forall envUrl s i tm,
    Upload.reachable envUrl s ->
    nth_error (Upload.timers s) i = Some tm ->
    lt (Upload.tm_to tm) (Upload.progress s) = true ->
    exists s',
      Upload.step envUrl s (Upload.Tick i) = Some (s', [])
      /\ Upload.progress s' = Upload.tm_to tm
      /\ lt (Upload.progress s') (Upload.progress s) = true
      /\ Upload.status s' = Upload.status s.
Proof.
  intros envUrl s i tm Hs Hnth Hlt.
  destruct (upload_progress_ok envUrl s Hs) as [Hp Ht].
  assert (is_live tm = true) as Hlive.
  { rewrite Forall_forall in Ht. apply Ht. eapply nth_error_In, Hnth. }
  pose proof live_pull_down as H. rewrite forallb_forall in H.
  specialize (H tm (is_live_In tm Hlive)). unfold pulls_down in H.
  rewrite forallb_forall in H. specialize (H _ (is_percent_In _ Hp)).
  rewrite Hlt in H. cbn [negb orb] in H. apply number_eqb_eq in H.
  destruct (Upload.tick i s) as [s'|] eqn:E.
  - exists s'. cbn [Upload.step]. rewrite E. split; [reflexivity|].
    destruct (tick_spec i s s' E) as (tm' & Hnth' & Hprog & _).
    rewrite Hnth in Hnth'. injection Hnth' as <-.
    rewrite Hprog, H. split; [reflexivity|]. split; [exact Hlt|].
    unfold Upload.tick in E. rewrite Hnth in E. injection E as <-. reflexivity.
  - unfold Upload.tick in E. rewrite Hnth in E. discriminate.
Qed.
End UploadProgress.

Lemma upload_progress_is_a_percentage_witness :
  let s := Upload.exec None Props.upload_ready
             [Upload.SubmitClick; Upload.Tick 0; Upload.Tick 0] in
  Upload.reachable None s
  /\ Upload.progress s = JSNumber.of_Z 17
  /\ View.ProgressBar (Upload.progress s) = "17%".
Proof.
  intros s.
  assert (Upload.reachable None s) as H
      by (apply upload_reachable_exec, upload_reachable_exec; constructor).
  split; [exact H|]. split; [vm_compute; reflexivity|].
  destruct (upload_progress_is_a_percentage None s H) as (_ & _ & _ & _ & Hbar).
  rewrite Hbar. vm_compute. reflexivity.
Defined.

Lemma tick_pulls_progress_down_witness :
  let s := Upload.exec None Props.upload_ready
             [Upload.SubmitClick; Upload.Settle 0 Props.ok200; Upload.Tick 1] in
  Upload.reachable None s
  /\ Upload.status s = "processing"
  /\ Upload.progress s = JSNumber.of_Z 62
  /\ exists s',
      Upload.step None s (Upload.Tick 0) = Some (s', [])
      /\ Upload.progress s' = JSNumber.of_Z 60.
Proof.
  intros s.
  assert (Upload.reachable None s) as H
      by (apply upload_reachable_exec, upload_reachable_exec; constructor).
  split; [exact H|]. split; [vm_compute; reflexivity|].
  split; [vm_compute; reflexivity|].
  assert (exists tm, nth_error (Upload.timers s) 0 = Some tm
                     /\ Upload.tm_to tm = JSNumber.of_Z 60) as (tm & Hnth & Hto).
  { eexists. split; vm_compute; reflexivity. }
  destruct (tick_pulls_progress_down None s 0%nat tm H Hnth)
    as (s' & Hstep & Hprog & _).
  - rewrite Hto. vm_compute. reflexivity.
  - exists s'. split; [exact Hstep|]. rewrite Hprog. exact Hto.
Defined.

(** ** Submissions of the upload application *)

Section Submissions.
Import JSNumber JS Web Props.

Lemma handleSubmit_subtitle envUrl (s : Upload.state) :
  Upload.subtitleFile (fst (Upload.handleSubmit envUrl s)) = Upload.subtitleFile s.
Proof.
  unfold Upload.handleSubmit, Upload.validateInputs.
  cbn [Upload.videoFile Upload.subtitleFile Upload.setProgress
         Upload.resetResult Upload.setResultFilename Upload.setDownloadUrl].
  destruct (Upload.videoFile s);
    [destruct (Upload.subtitleFile s) as [sub|] eqn:Es|];
    try (destruct (negb (Upload.supported (file_name sub))));
    try rewrite <- Es; reflexivity.
Qed.

Lemma failed_subtitle (err : exn) (s : Upload.state) :
  Upload.subtitleFile (Upload.failed err s) = Upload.subtitleFile s.
Proof. unfold Upload.failed. destruct (_ =? _)%string; reflexivity. Qed.

Lemma resume_subtitle t o s next s1 effects :
  Upload.resume t o s = Some (next, s1, effects) ->
  Upload.subtitleFile s1 = Upload.subtitleFile s.
Proof.
  intros E. unfold Upload.resume in E.
  destruct t as [ctrl|ctrl status|ctrl]; destruct o as [resp|text|data|blob|err];
    try discriminate;
    try (injection E as _ <- _; first [apply failed_subtitle | reflexivity]).
  destruct (resp_ok resp); injection E as _ <- _; reflexivity.
Qed.

Lemma upload_step_subtitle envUrl s e s' effects :
  Upload.step envUrl s e = Some (s', effects) ->
  Upload.subtitleFile s' = Upload.subtitleFile s
  \/ exists f, Upload.subtitleFile s' = Some f
               /\ Upload.supported (file_name f) = true.
Proof.
  intros H. destruct e; cbn [Upload.step] in H.
  - injection H as <- _. left. reflexivity.
  - injection H as <- _. left. unfold Upload.onPickVideo.
    destruct (hd_error files); reflexivity.
  - injection H as <- _. unfold Upload.onPickSubtitle.
    destruct (hd_error files) as [file|]; [|left; reflexivity].
    destruct (Upload.supported (file_name file)) eqn:E; cbn [negb].
    + right. exists file. split; [reflexivity|exact E].
    + left. reflexivity.
  - destruct (Upload.allowSubmit s); [|discriminate].
    assert (s' = fst (Upload.handleSubmit envUrl s)) as ->
        by (injection H as H; rewrite H; reflexivity).
    left. apply handleSubmit_subtitle.
  - destruct (Upload.uploading s); [|discriminate].
    injection H as <- _. left. unfold Upload.cancelUpload.
    destruct (Upload.abortControllerRef s); reflexivity.
  - destruct (Upload.downloadUrl s); [|discriminate].
    injection H as <- _. left. reflexivity.
  - destruct (Upload.tick i s) as [s1|] eqn:E; [|discriminate].
    injection H as <- _. left. unfold Upload.tick in E.
    destruct (nth_error (Upload.timers s) i); [|discriminate].
    injection E as <-. reflexivity.
  - destruct (nth_error (Upload.tasks s) i) as [t|]; [|discriminate].
    destruct (Upload.may_settle s t o); [|discriminate].
    destruct (Upload.resume t o s) as [[[next s1] eff]|] eqn:E; [|discriminate].
    injection H as <- _. left.
    cbn [Upload.subtitleFile Upload.setTasks]. eapply resume_subtitle, E.
Qed.

Lemma upload_subtitle_supported envUrl (s : Upload.state) :
  Upload.reachable envUrl s ->
  forall f, Upload.subtitleFile s = Some f -> Upload.supported (file_name f) = true.
Proof.
  induction 1 as [|s e s' effects Hs IH Hstep]; [discriminate|].
  intros f Hf.
  destruct (upload_step_subtitle envUrl s e s' effects Hstep)
    as [Heq | (g & Hg & Hsup)].
  - apply IH. rewrite <- Heq. exact Hf.
  - rewrite Hg in Hf. injection Hf as <-. exact Hsup.
Qed.

(** X14. The subtitle file the upload application holds always has one
    of the supported extensions ([onPickSubtitle] refuses any other
    file), so the check of the extension in [validateInputs] never
    fails: whenever the submit button is enabled, a click sends exactly
    one request, and the status becomes [uploading]. *)
Theorem enabled_submit_sends_a_request :
  forall envUrl s,
    Upload.reachable envUrl s ->
    (forall f, Upload.subtitleFile s = Some f ->
               Upload.supported (file_name f) = true)
    /\ (Upload.allowSubmit s = true ->
        exists r,
          snd (Upload.handleSubmit envUrl s) = [Fetch r]
          /\ Upload.status (fst (Upload.handleSubmit envUrl s)) = "uploading"
          /\ Upload.message (fst (Upload.handleSubmit envUrl s))
             = "Uploading files to backend...").
Proof.
  intros envUrl s Hs.
  pose proof (upload_subtitle_supported envUrl s Hs) as Hsup.
  split; [exact Hsup|].
  unfold Upload.allowSubmit. intros Hallow.
  unfold Upload.handleSubmit, Upload.validateInputs.
  cbn [Upload.videoFile Upload.subtitleFile Upload.setProgress
         Upload.resetResult Upload.setResultFilename Upload.setDownloadUrl].
  destruct (Upload.videoFile s) as [v|]; [|discriminate].
  destruct (Upload.subtitleFile s) as [f|]; [|discriminate].
  rewrite (Hsup f eq_refl). cbn [negb fst snd].
  eexists. repeat split; reflexivity.
Qed.

(** *** Overlapping submissions *)

Lemma failed_clears_controller (err : exn) (s : Upload.state) :
  Upload.abortControllerRef (Upload.failed err s) = None.
Proof. unfold Upload.failed. destruct (_ =? _)%string; reflexivity. Qed.

(** X15. The submit button is enabled again as soon as the status leaves
    [uploading] and [processing], which picking a file with an
    unsupported extension does even while a request is in flight; two
    submissions can then be pending at once. There is one
    [abortControllerRef] for all of them, and every submission that ends
    clears it: so the application reaches states in which a request is
    pending, the Cancel button is shown, and a click on it changes
    nothing. *)
Theorem overlapping_submissions :
  (forall t o s s1 effects,
      Upload.resume t o s = Some (None, s1, effects) ->
      Upload.abortControllerRef s1 = None)
  /\ (forall envUrl,
         exists s,
           Upload.reachable envUrl s
           /\ Upload.tasks s = [Upload.SubmitFetch 0; Upload.SubmitFetch 1]
           /\ Upload.abortControllerRef s = Some 1%nat)
  /\ (forall envUrl,
         exists s,
           Upload.reachable envUrl s
           /\ Upload.tasks s = [Upload.SubmitBlob 1]
           /\ Upload.uploading s = true
           /\ Upload.step envUrl s Upload.CancelClick = Some (s, [])).
Proof.
  split; [|split].
  - intros t o s s1 effects E. unfold Upload.resume in E.
    destruct t as [ctrl|ctrl status|ctrl]; destruct o as [resp|text|data|blob|err];
      try discriminate;
      try (injection E as <- _; first [apply failed_clears_controller | reflexivity]).
    destruct (resp_ok resp); discriminate.
  - intros envUrl.
    exists (Upload.exec envUrl Upload.initial
              [Upload.PickVideo [sample_video];
               Upload.PickSubtitle [sample_subtitles];
               Upload.SubmitClick; Upload.PickSubtitle [sample_video];
               Upload.SubmitClick]).
    split; [|split; vm_compute; reflexivity].
    apply upload_reachable_exec. constructor.
  - intros envUrl.
    exists (Upload.exec envUrl Upload.initial
              [Upload.PickVideo [sample_video];
               Upload.PickSubtitle [sample_subtitles];
               Upload.SubmitClick; Upload.PickSubtitle [sample_video];
               Upload.SubmitClick; Upload.Settle 0 ok200;
               Upload.Settle 0 (BodyBlob "1"); Upload.Settle 0 ok200]).
    split; [|split; [|split]]; try (vm_compute; reflexivity).
    apply upload_reachable_exec. constructor.
Qed.
End Submissions.

Lemma enabled_submit_sends_a_request_witness :
  Upload.reachable None Props.upload_ready
  /\ Upload.allowSubmit Props.upload_ready = true
  /\ exists r,
      snd (Upload.handleSubmit None Props.upload_ready) = [Web.Fetch r]
      /\ Upload.status (fst (Upload.handleSubmit None Props.upload_ready))
         = "uploading".
Proof.
  assert (Upload.reachable None Props.upload_ready) as H
      by (apply upload_reachable_exec; constructor).
  split; [exact H|]. split; [reflexivity|].
  destruct (proj2 (enabled_submit_sends_a_request None _ H) eq_refl)
    as (r & Hr & Hst & _).
  exists r. split; assumption.
Defined.

Lemma overlapping_submissions_witness :
  exists s1,
    Upload.resume (Upload.SubmitBlob 0) (Web.BodyBlob "1") Props.upload_ready
    = Some (None, s1, [])
    /\ Upload.abortControllerRef s1 = None.
Proof.
  eexists. split; [vm_compute; reflexivity|].
  apply (proj1 overlapping_submissions (Upload.SubmitBlob 0) (Web.BodyBlob "1")
           Props.upload_ready _ []).
  vm_compute. reflexivity.
Defined.

(** ** What the upload application shows *)

Section ProgressBarClamp.
Import JSNumber JS Web Props.




End ProgressBarClamp.

Section StatusBarShown.
Import JSNumber JS Web Props.

Lemma status_bar_cases (status message : string) (progress : number) :
  In status upload_statuses ->
  (View.StatusBar status message progress = None <-> status = "idle")
  /\ (forall bar,
         View.StatusBar status message progress = Some bar ->
         View.sb_color bar <> "var(--text-primary)"
         /\ In (View.sb_color bar) ["#1976d2"; "#2e7d32"; "#d32f2f"]
         /\ (View.sb_progress bar
             = if String.eqb status "uploading" || String.eqb status "processing"
               then Some (View.ProgressBar progress) else None)
         /\ (View.sb_message bar = None <-> message = "")).
Proof.
  intros Hin.
  assert (forall bar : View.status_bar,
             (if String.eqb message "" then None else Some message)
             = View.sb_message bar ->
             (View.sb_message bar = None <-> message = "")) as Hmsg.
  { intros bar <-. destruct (String.eqb message "") eqn:E.
    - apply String.eqb_eq in E. tauto.
    - apply String.eqb_neq in E. split; [discriminate|contradiction]. }
  cbn [In upload_statuses] in Hin.
  destruct Hin as [<-|[<-|[<-|[<-|[<-|[]]]]]]; unfold View.StatusBar;
    cbn [String.eqb Ascii.eqb Bool.eqb orb];
    (split; [split; [discriminate || reflexivity | discriminate || reflexivity]|]);
    intros bar Hbar; try discriminate Hbar;
    injection Hbar as <-;
    cbn [View.sb_color View.sb_progress View.sb_message];
    (split; [vm_compute; discriminate|]);
    (split; [vm_compute; tauto|]);
    (split; [reflexivity|]);
    apply (Hmsg {| View.sb_color := ""; View.sb_label := "";
                   View.sb_message := if String.eqb message "" then None
                                      else Some message;
                   View.sb_progress := None |});
    reflexivity.
Qed.

(** X17. What [StatusBar] shows in the states the upload application
    reaches: nothing exactly while the status is [idle]; otherwise a
    colour taken from its table (blue, green or red, never the fallback
    colour), the message line unless the message is empty, and the
    progress bar exactly while the status is [uploading] or
    [processing], that is, exactly while the Cancel button is shown. *)
Theorem status_bar_of_reachable_states :
  forall envUrl s,
    Upload.reachable envUrl s ->
    let shown := View.StatusBar (Upload.status s) (Upload.message s)
                   (Upload.progress s) in
    (shown = None <-> Upload.status s = "idle")
    /\ (forall bar,
           shown = Some bar ->
           View.sb_color bar <> "var(--text-primary)"
           /\ In (View.sb_color bar) ["#1976d2"; "#2e7d32"; "#d32f2f"]
           /\ (View.sb_progress bar
               = if View.uc_cancel_shown (fst (View.cards s))
                 then Some (View.ProgressBar (Upload.progress s)) else None)
           /\ (View.sb_message bar = None <-> Upload.message s = ""))
    /\ View.uc_cancel_shown (fst (View.cards s)) = Upload.uploading s.
Proof.
  intros envUrl s Hs shown.
  pose proof (upload_status_invariant envUrl s Hs) as Hin.
  destruct (status_bar_cases (Upload.status s) (Upload.message s)
              (Upload.progress s) Hin) as [Hnone Hsome].
  split; [exact Hnone|]. split; [exact Hsome|]. reflexivity.
Qed.
End StatusBarShown.

Lemma status_bar_of_reachable_states_witness :
  let s := Upload.exec None Props.upload_ready [Upload.SubmitClick] in
  Upload.reachable None s
  /\ View.StatusBar (Upload.status s) (Upload.message s) (Upload.progress s)
     = Some {| View.sb_color := "#1976d2"; View.sb_label := "UPLOADING";
               View.sb_message := Some "Uploading files to backend...";
               View.sb_progress := Some "10%" |}
  /\ (View.StatusBar (Upload.status s) (Upload.message s) (Upload.progress s)
      = None <-> Upload.status s = "idle").
Proof.
  intros s.
  assert (Upload.reachable None s) as H
      by (apply upload_reachable_exec, upload_reachable_exec; constructor).
  split; [exact H|]. split; [vm_compute; reflexivity|].
  apply (status_bar_of_reachable_states None s H).
Defined.

(** ** The theme *)

Section Theme.
Import JSNumber JS Web Props.

Ltac theme_cases H :=
  repeat match type of H with
    | context [if ?c then _ else _] => destruct c
    | context [match Overlay.response_cues ?d with _ => _ end] =>
        destruct (Overlay.response_cues d)
    end;
  inversion H; subst; clear H.

Lemma overlay_step_theme s e s' effects :
  Overlay.step s e = Some (s', effects) ->
  Overlay.theme s' = Overlay.theme s \/ s' = Overlay.toggleTheme s.
Proof.
  intros H. destruct e; cbn [Overlay.step] in H.
  - injection H as <- _. left. unfold Overlay.mount.
    destruct envUrl as [u|]; [destruct (negb (u =? "")%string)|];
      try (destruct location as [[proto host]|]); reflexivity.
  - injection H as <- _. right. reflexivity.
  - injection H as <- _. left. reflexivity.
  - injection H as <- _. left. reflexivity.
  - injection H as <- _. left. reflexivity.
  - injection H as <- _. left. reflexivity.
  - destruct (Overlay.videoUrl s) eqn:E; [|discriminate].
    injection H as <- _. left. unfold Overlay.onTimeUpdate. rewrite E.
    reflexivity.
  - destruct (Overlay.actions_disabled s); [discriminate|].
    injection H as H. left.
    assert (s' = fst (Overlay.callRepositionAPI s)) as ->
        by (rewrite H; reflexivity).
    unfold Overlay.callRepositionAPI, Overlay.validateInputs.
    destruct (Overlay.videoFile s); [destruct (Overlay.subtitleFile s)|];
      cbn [negb];
      try (destruct (Overlay.backendBaseUrl _ =? "")%string); reflexivity.
  - destruct (Overlay.actions_disabled s); [discriminate|].
    injection H as H. left.
    assert (s' = fst (Overlay.downloadRepositionedSRT s)) as ->
        by (rewrite H; reflexivity).
    unfold Overlay.downloadRepositionedSRT, Overlay.validateInputs.
    destruct (Overlay.videoFile s); [destruct (Overlay.subtitleFile s)|];
      cbn [negb];
      try (destruct (Overlay.backendBaseUrl _ =? "")%string); reflexivity.
  - destruct (nth_error (Overlay.tasks s) i) as [t|]; [|discriminate].
    destruct (Overlay.resume t o s) as [[[next s1] eff]|] eqn:E; [|discriminate].
    injection H as <- _. left. unfold Overlay.resume in E.
    destruct t; destruct o; try discriminate; theme_cases E; reflexivity.
Qed.

Lemma upload_failed_theme (err : exn) (s : Upload.state) :
  Upload.theme (Upload.failed err s) = Upload.theme s.
Proof. unfold Upload.failed. destruct (_ =? _)%string; reflexivity. Qed.

Lemma upload_step_theme envUrl s e s' effects :
  Upload.step envUrl s e = Some (s', effects) ->
  Upload.theme s' = Upload.theme s \/ s' = Upload.toggleTheme s.
Proof.
  intros H. destruct e; cbn [Upload.step] in H.
  - injection H as <- _. right. reflexivity.
  - injection H as <- _. left. unfold Upload.onPickVideo.
    destruct (hd_error files); reflexivity.
  - injection H as <- _. left. unfold Upload.onPickSubtitle.
    destruct (hd_error files) as [file|]; [|reflexivity].
    destruct (negb (Upload.supported (file_name file))); reflexivity.
  - destruct (Upload.allowSubmit s); [|discriminate].
    assert (s' = fst (Upload.handleSubmit envUrl s)) as ->
        by (injection H as H; rewrite H; reflexivity).
    left. unfold Upload.handleSubmit, Upload.validateInputs.
    cbn [Upload.videoFile Upload.subtitleFile Upload.setProgress
           Upload.resetResult Upload.setResultFilename Upload.setDownloadUrl].
    destruct (Upload.videoFile s); [destruct (Upload.subtitleFile s) as [sub|]|];
      try (destruct (negb (Upload.supported (file_name sub))));
      reflexivity.
  - destruct (Upload.uploading s); [|discriminate].
    injection H as <- _. left. unfold Upload.cancelUpload.
    destruct (Upload.abortControllerRef s); reflexivity.
  - destruct (Upload.downloadUrl s); [|discriminate].
    injection H as <- _. left. reflexivity.
  - destruct (Upload.tick i s) as [s1|] eqn:E; [|discriminate].
    injection H as <- _. left. unfold Upload.tick in E.
    destruct (nth_error (Upload.timers s) i); [|discriminate].
    injection E as <-. reflexivity.
  - destruct (nth_error (Upload.tasks s) i) as [t|]; [|discriminate].
    destruct (Upload.may_settle s t o); [|discriminate].
    destruct (Upload.resume t o s) as [[[next s1] eff]|] eqn:E; [|discriminate].
    injection H as <- _. left. cbn [Upload.theme Upload.setTasks].
    unfold Upload.resume in E.
    destruct t as [ctrl|ctrl status|ctrl]; destruct o as [resp|text|data|blob|err];
      try discriminate;
      try (injection E as _ <- _; first [apply upload_failed_theme | reflexivity]).
    destruct (resp_ok resp); injection E as _ <- _; reflexivity.
Qed.

Lemma overlay_toggle_twice (s : Overlay.state) :
  Overlay.theme s = "light" \/ Overlay.theme s = "dark" ->
  Overlay.toggleTheme (Overlay.toggleTheme s) = s
  /\ (Overlay.theme (Overlay.toggleTheme s) = "light"
      \/ Overlay.theme (Overlay.toggleTheme s) = "dark")
  /\ Overlay.theme (Overlay.toggleTheme s) <> Overlay.theme s.
Proof.
  destruct s as [th vf sf vu st pr er cu ip ih bb ct tk].
  cbn [Overlay.theme]. intros [-> | ->]; repeat split; auto; discriminate.
Qed.

Lemma upload_toggle_twice (s : Upload.state) :
  Upload.theme s = "light" \/ Upload.theme s = "dark" ->
  Upload.toggleTheme (Upload.toggleTheme s) = s
  /\ (Upload.theme (Upload.toggleTheme s) = "light"
      \/ Upload.theme (Upload.toggleTheme s) = "dark")
  /\ Upload.theme (Upload.toggleTheme s) <> Upload.theme s.
Proof.
  destruct s as [th vf sf st msg pr dl rf ref ctrls ab tms tks].
  cbn [Upload.theme]. intros [-> | ->]; repeat split; auto; discriminate.
Qed.

(** X18. In both applications the theme is always [light] or [dark]
    (the value written to the [data-theme] attribute), the toggle always
    changes it, and toggling twice gives back the very same state:
    nothing but the theme is touched. *)
Theorem theme_is_light_or_dark :
  (forall s,
      Overlay.reachable s ->
      (Overlay.theme s = "light" \/ Overlay.theme s = "dark")
      /\ Overlay.toggleTheme (Overlay.toggleTheme s) = s
      /\ Overlay.theme (Overlay.toggleTheme s) <> Overlay.theme s)
  /\ (forall envUrl s,
         Upload.reachable envUrl s ->
         (Upload.theme s = "light" \/ Upload.theme s = "dark")
         /\ Upload.toggleTheme (Upload.toggleTheme s) = s
         /\ Upload.theme (Upload.toggleTheme s) <> Upload.theme s).
Proof.
  split.
  - intros s Hs.
    assert (Overlay.theme s = "light" \/ Overlay.theme s = "dark") as H.
    { induction Hs as [|s e s' effects Hs IH Hstep]; [left; reflexivity|].
      destruct (overlay_step_theme s e s' effects Hstep) as [-> | ->];
        [exact IH|]. apply (overlay_toggle_twice s IH). }
    split; [exact H|]. destruct (overlay_toggle_twice s H) as (H1 & _ & H2).
    split; assumption.
  - intros envUrl s Hs.
    assert (Upload.theme s = "light" \/ Upload.theme s = "dark") as H.
    { induction Hs as [|s e s' effects Hs IH Hstep]; [left; reflexivity|].
      destruct (upload_step_theme envUrl s e s' effects Hstep) as [-> | ->];
        [exact IH|]. apply (upload_toggle_twice s IH). }
    split; [exact H|]. destruct (upload_toggle_twice s H) as (H1 & _ & H2).
    split; assumption.
Qed.
End Theme.

Lemma theme_is_light_or_dark_witness :
  Overlay.reachable Props.overlay_ready
  /\ Overlay.theme (Overlay.toggleTheme Props.overlay_ready) = "dark"
  /\ Overlay.toggleTheme (Overlay.toggleTheme Props.overlay_ready)
     = Props.overlay_ready.
Proof.
  assert (Overlay.reachable Props.overlay_ready) as H
      by (apply overlay_reachable_exec; constructor).
  split; [exact H|]. split; [reflexivity|].
  apply (proj1 theme_is_light_or_dark Props.overlay_ready H).
Defined.

(** ** Whole seconds *)

Section WholeSeconds.
Import JSNumber JS Web Overlay Props.
Context {rt : Runtime}.

Lemma floor_of_Z (n : Z) : 0 <= n < 2 ^ 53 -> floor (of_Z n) = of_Z n.
Proof.
  intros Hn. destruct (Z.eq_dec n 0) as [->|Hne]; [reflexivity|].
  assert (0 < n < 2 ^ 53) as Hn' by lia.
  pose proof (mant_bounds n Hn') as Hm.
  pose proof (dg_le n 53 Hn') as Hd. pose proof (dg_pos n) as Hd0.
  rewrite (of_Z_dg n Hn') at 1. unfold floor.
  destruct (0 <=? dg n - 53) eqn:E.
  - symmetry. apply of_Z_dg, Hn'.
  - assert ((0 <=? dg n - 53) = false) as E' by exact E.
    apply Z.leb_gt in E. unfold floorZ. rewrite E'. cbn [cond_Zopp].
    rewrite Z2Pos.id by lia.
    replace (- (dg n - 53)) with (53 - dg n) by lia.
    rewrite Z.div_mul by (apply Z.pow_nonzero; lia).
    destruct (n =? 0) eqn:E0; [apply Z.eqb_eq in E0; lia|reflexivity].
Qed.

(** X19. For a whole number of seconds [n], also beyond one hundred
    hours (up to [2 ^ 52]), the arithmetic of [formatTime] in binary64 is
    exact: the hours field is the padded decimal of [n / 3600], the
    minutes are [(n mod 3600) / 60] and the seconds [n mod 60], each on
    two digits, and the milliseconds are [000]. *)
Theorem formatTime_whole_seconds (n : Z) :
  0 <= n < 2 ^ 52 ->
  formatTime (Val (JNum (of_Z n)))
  = Ok (two (of_Z (n / 3600)) ++ ":" ++ digits2 (n mod 3600 / 60) ++ ":"
          ++ digits2 (n mod 60) ++ ",000").
Proof.
  intros Hn.
  assert (2 ^ 52 < 2 ^ 53) as Hpow by reflexivity.
  unfold formatTime. cbn [ToNumber bind].
  rewrite (floor_of_Z n) by lia.
  pose proof (Z.mod_pos_bound n 3600 ltac:(lia)) as Hr.
  pose proof (Z.mod_pos_bound n 60 ltac:(lia)) as Hs.
  rewrite !rem_of_Z by (split; try reflexivity; lia).
  rewrite !floor_div_of_Z by (split; try reflexivity; lia).
  rewrite Z.mod_1_r.
  assert (0 <= n mod 3600 / 60 < 60) as Hmin.
  { split; [apply Z.div_pos; lia|]. apply Z.div_lt_upper_bound; lia. }
  rewrite (two_of_Z (n mod 3600 / 60)), (two_of_Z (n mod 60)) by lia.
  change (three (floor (mul (of_Z 0) (of_Z 1000)))) with "000".
  reflexivity.
Qed.
End WholeSeconds.

Lemma formatTime_whole_seconds_witness :
  0 <= 360000 < 2 ^ 52
  /\ @Overlay.formatTime Props.sample_runtime
       (JS.Val (JS.JNum (JSNumber.of_Z 360000)))
     = JS.Ok "100:00:00,000".
Proof.
  split; [split; [lia|reflexivity]|].
  rewrite (@formatTime_whole_seconds Props.sample_runtime 360000)
    by (split; [lia|reflexivity]).
  vm_compute. reflexivity.
Defined.

(** ** Results and failures *)

Section Results.
Import JSNumber JS Web Props.

Lemma handleSubmit_not_success envUrl (s : Upload.state) :
  Upload.status (fst (Upload.handleSubmit envUrl s)) <> "success".
Proof.
  unfold Upload.handleSubmit, Upload.validateInputs.
  cbn [Upload.videoFile Upload.subtitleFile Upload.setProgress
         Upload.resetResult Upload.setResultFilename Upload.setDownloadUrl].
  destruct (Upload.videoFile s); [destruct (Upload.subtitleFile s) as [sub|]|];
    try (destruct (negb (Upload.supported (file_name sub))));
    discriminate.
Qed.

Lemma failed_not_success (err : exn) (s : Upload.state) :
  Upload.status (Upload.failed err s) <> "success".
Proof. unfold Upload.failed. destruct (_ =? _)%string; discriminate. Qed.

Lemma resume_success t o s next s1 effects :
  Upload.resume t o s = Some (next, s1, effects) ->
  success_has_result s -> success_has_result s1.
Proof.
  intros E Hs. unfold Upload.resume in E.
  destruct t as [ctrl|ctrl status|ctrl]; destruct o as [resp|text|data|blob|err];
    try discriminate;
    try (injection E as _ <- _; intros H;
         first [destruct (failed_not_success _ _ H) | discriminate]).
  destruct (resp_ok resp); injection E as _ <- _; [discriminate|exact Hs].
Qed.

Lemma upload_step_success envUrl s e s' effects :
  Upload.step envUrl s e = Some (s', effects) ->
  success_has_result s -> success_has_result s'.
Proof.
  intros H Hs. destruct e; cbn [Upload.step] in H.
  - injection H as <- _. exact Hs.
  - injection H as <- _. unfold Upload.onPickVideo.
    destruct (hd_error files); exact Hs.
  - injection H as <- _. unfold Upload.onPickSubtitle.
    destruct (hd_error files) as [file|]; [|exact Hs].
    destruct (negb (Upload.supported (file_name file))); [discriminate|exact Hs].
  - destruct (Upload.allowSubmit s); [|discriminate].
    assert (s' = fst (Upload.handleSubmit envUrl s)) as ->
        by (injection H as H; rewrite H; reflexivity).
    intros Hsuccess. destruct (handleSubmit_not_success _ _ Hsuccess).
  - destruct (Upload.uploading s); [|discriminate].
    injection H as <- _. unfold Upload.cancelUpload.
    destruct (Upload.abortControllerRef s); exact Hs.
  - destruct (Upload.downloadUrl s); [|discriminate].
    injection H as <- _. discriminate.
  - destruct (Upload.tick i s) as [s1|] eqn:E; [|discriminate].
    injection H as <- _. unfold Upload.tick in E.
    destruct (nth_error (Upload.timers s) i); [|discriminate].
    injection E as <-. exact Hs.
  - destruct (nth_error (Upload.tasks s) i) as [t|]; [|discriminate].
    destruct (Upload.may_settle s t o); [|discriminate].
    destruct (Upload.resume t o s) as [[[next s1] eff]|] eqn:E; [|discriminate].
    injection H as <- _.
    exact (resume_success _ _ _ _ _ _ E Hs).
Qed.

(** X20. Whenever the status of the upload application is [success],
    the result card is shown: there is a download link, its [download]
    attribute is the result name and its text is [Download] followed by
    that name. (A submission clears the link and leaves [success]; the
    Clear button clears it and sets [idle].) *)
Theorem success_shows_the_result :
  forall envUrl s,
    Upload.reachable envUrl s ->
    Upload.status s = "success" ->
    exists url,
      Upload.downloadUrl s = Some url
      /\ View.ResultCard (Upload.downloadUrl s) (Upload.resultFilename s)
         = Some (url, Upload.resultFilename s,
                 "Download " ++ Upload.resultFilename s).
Proof.
  intros envUrl s Hs Hsuccess.
  assert (success_has_result s) as H.
  { clear Hsuccess. induction Hs as [|s e s' effects Hs IH Hstep].
    - discriminate.
    - eapply upload_step_success; eauto. }
  specialize (H Hsuccess).
  destruct (Upload.downloadUrl s) as [url|]; [|contradiction].
  exists url. split; reflexivity.
Qed.

(** X21. A request that fails without a response (the promise of
    [fetch] or of the body rejects) ends the call with the message of
    the error, or with the fallback of the action when that message is
    empty. In the overlay application the status becomes [Error],
    [isProcessing] becomes false, and the cues and the progress stay as
    they were; in the upload application (for an error other than an
    abort) the status becomes [error] and the progress 0. *)
Theorem network_failure_is_reported :
  (forall s i t e,
      nth_error (Overlay.tasks s) i = Some t ->
      exists s',
        Overlay.step s (Overlay.Settle i (Rejected e)) = Some (s', [])
        /\ Overlay.status s' = "Error"
        /\ Overlay.error s'
           = message_or e
               match t with
               | Overlay.RepositionFetch | Overlay.RepositionText _
               | Overlay.RepositionJson => "Failed to process files."
               | _ => "Failed to download repositioned subtitles."
               end
        /\ Overlay.isProcessing s' = false
        /\ Overlay.cues s' = Overlay.cues s
        /\ Overlay.progress s' = Overlay.progress s
        /\ Overlay.tasks s' = replace_nth i None (Overlay.tasks s))
  /\ (forall envUrl s i ctrl e,
         nth_error (Upload.tasks s) i = Some (Upload.SubmitFetch ctrl)
         \/ nth_error (Upload.tasks s) i = Some (Upload.SubmitBlob ctrl) ->
         existsb (Nat.eqb ctrl) (Upload.aborted s) = false ->
         exn_name e <> "AbortError" ->
         exists s',
           Upload.step envUrl s (Upload.Settle i (Rejected e)) = Some (s', [])
           /\ Upload.status s' = "error"
           /\ Upload.message s'
              = message_or e "Something went wrong while contacting the backend."
           /\ Upload.progress s' = of_Z 0
           /\ Upload.abortControllerRef s' = None
           /\ Upload.tasks s' = replace_nth i None (Upload.tasks s)).
Proof.
  split.
  - intros s i t e Hnth. eexists. split.
    + cbn [Overlay.step]. rewrite Hnth.
      assert (Overlay.resume t (Rejected e) s
              = Some (None,
                      Overlay.failed
                        match t with
                        | Overlay.RepositionFetch | Overlay.RepositionText _
                        | Overlay.RepositionJson => Overlay.reposition_fallback
                        | _ => Overlay.download_fallback
                        end e s, [])) as -> by (destruct t; reflexivity).
      reflexivity.
    + destruct t; repeat split; reflexivity.
  - intros envUrl s i ctrl e Htask Hab Hname.
    assert ((exn_name e =? "AbortError")%string = false) as Hneq
        by (apply String.eqb_neq; exact Hname).
    eexists. split.
    + cbn [Upload.step].
      destruct Htask as [-> | ->]; unfold Upload.may_settle;
        cbn [Upload.task_ctrl]; rewrite Hneq, Hab; cbn [negb Upload.resume];
        reflexivity.
    + unfold Upload.failed. rewrite Hneq. repeat split; reflexivity.
Qed.
End Results.

Lemma success_shows_the_result_witness :
  let s := Upload.exec None Props.upload_ready
             [Upload.SubmitClick; Upload.Settle 0 Props.ok200;
              Upload.Settle 0 (Web.BodyBlob "1")] in
  Upload.reachable None s /\ Upload.status s = "success"
  /\ exists url,
      Upload.downloadUrl s = Some url
      /\ View.ResultCard (Upload.downloadUrl s) (Upload.resultFilename s)
         = Some (url, "clip.repositioned.srt", "Download clip.repositioned.srt").
Proof.
  intros s.
  assert (Upload.reachable None s) as H
      by (apply upload_reachable_exec, upload_reachable_exec; constructor).
  assert (Upload.status s = "success") as Hst by (vm_compute; reflexivity).
  split; [exact H|]. split; [exact Hst|].
  destruct (success_shows_the_result None s H Hst) as (url & Hurl & Hcard).
  exists url. split; [exact Hurl|]. rewrite Hcard.
  assert (Upload.resultFilename s = "clip.repositioned.srt") as ->
      by (vm_compute; reflexivity).
  reflexivity.
Defined.

Lemma network_failure_is_reported_witness :
  let s := Overlay.exec Props.overlay_ready [Overlay.DownloadClick] in
  let e := JS.TypeError "Failed to fetch" in
  nth_error (Overlay.tasks s) 0
  = Some (Overlay.DownloadFetch (Some Props.sample_subtitles))
  /\ exists s',
      Overlay.step s (Overlay.Settle 0 (Web.Rejected e)) = Some (s', [])
      /\ Overlay.status s' = "Error"
      /\ Overlay.error s' = "Failed to fetch".
Proof.
  intros s e.
  assert (nth_error (Overlay.tasks s) 0
          = Some (Overlay.DownloadFetch (Some Props.sample_subtitles))) as H
      by (vm_compute; reflexivity).
  split; [exact H|].
  destruct (proj1 network_failure_is_reported s 0%nat _ e H)
    as (s' & Hstep & Hst & Herr & _).
  exists s'. split; [exact Hstep|]. split; [exact Hst|]. rewrite Herr.
  reflexivity.
Defined.
